(** * xapi: the request-signing core, embedded and verified

    A shallow embedding of the signing subsystem of the Go package [xapi]
    (transaction.go, xpff_generator.go, client.go, config.go):

    - Go [int]/[int64] values are [Z] with the two's-complement wrap-around
      written out ([wrap64]); a [byte] is a [Z] in [0,256);
    - Go strings are byte strings, here [string] (a list of [ascii]);
    - [float64] is the kernel's IEEE-754 binary64 type [float]; every
      operation rounds once (no fused multiply-add);
    - [time.Time] is a [Z] count of nanoseconds, [time.Duration] likewise;
    - the generator's mutable fields are a record threaded through the
      operations, one operation at a time (the mutexes and the debug
      output are left out); the network, the clock and the OS random
      source are explicit inputs of each operation;
    - library functions this package only calls ([html.Parse], [math.Cos],
      [math.Sin], [math.Pow], AES-GCM sealing, the JSON string quoting)
      are section variables; SHA-256, base64, hex, the regular expressions
      of the source and the [math] rounding functions are executable;
    - a loop the source leaves unbounded (the bisection of
      [evaluateCubicBezier]) takes fuel, and running out of it is a
      result of its own, never an answer.

    The file has four parts: the embedding (with the tokens, headers and
    requests of the client), the predicates and fixtures of the
    statements, the theorems on the behaviour the documentation
    describes, and further properties of the code. *)

From Stdlib Require Import ZArith List Bool Lia String Ascii Floats.
Import ListNotations.

Local Open Scope Z_scope.

(** ** Errors and results *)

(** Go's [error] values as built by this package: a message
    ([fmt.Errorf] without [%w], or an error of a library), or a message
    prefix wrapping a cause ([fmt.Errorf("...: %w", err)]). *)
Inductive error : Type :=
| ErrMsg (msg : string)
| ErrWrap (prefix : string) (cause : error).

Inductive result (A : Type) : Type :=
| Ok (a : A)
| Err (e : error).
Arguments Ok {A} a.
Arguments Err {A} e.

(** [err.Error()]. *)
Fixpoint errorString (e : error) : string :=
  match e with
  | ErrMsg m => m
  | ErrWrap p c => (p ++ errorString c)%string
  end.

(** [errors.Unwrap]. *)
Definition unwrap (e : error) : option error :=
  match e with
  | ErrMsg _ => None
  | ErrWrap _ c => Some c
  end.

(** ** Machine integers *)

(** Two's-complement wrap-around of a 64-bit signed integer. *)
Definition wrap64 (z : Z) : Z := (z + 2 ^ 63) mod 2 ^ 64 - 2 ^ 63.

(** The conversion [byte(x)] of an integer. *)
Definition byte_of (z : Z) : Z := z mod 256.

Definition is_byte (z : Z) : Prop := 0 <= z < 256.

(** ** Byte strings *)

Definition byteOfAscii (c : ascii) : Z := Z.of_N (N_of_ascii c).
Definition asciiOfByte (b : Z) : ascii := ascii_of_N (Z.to_N (byte_of b)).

(** [[]byte(s)] and [string(bs)]. *)
Definition bytesOf (s : string) : list Z := map byteOfAscii (list_ascii_of_string s).
Definition stringOf (bs : list Z) : string := string_of_list_ascii (map asciiOfByte bs).

(** Decimal digits, most significant first, of a non-negative integer. *)
Fixpoint decDigits (fuel : nat) (n : Z) (acc : string) : string :=
  match fuel with
  | O => acc
  | S k =>
      let acc' := String (asciiOfByte (48 + n mod 10)) acc in
      if n / 10 =? 0 then acc' else decDigits k (n / 10) acc'
  end.

(** [strconv.Itoa] and the verb [%d]. *)
Definition itoa (n : Z) : string :=
  if n <? 0 then String "-" (decDigits (S (Z.to_nat (Z.log2 (- n)))) (- n) EmptyString)
  else decDigits (S (Z.to_nat (Z.log2 n))) n EmptyString.

(** One hexadecimal digit, lower case ([hex.EncodeToString], [%x]). *)
Definition hexDigit (d : Z) : ascii :=
  if d <? 10 then asciiOfByte (48 + d) else asciiOfByte (87 + d).

Fixpoint hexDigits (fuel : nat) (n : Z) (acc : string) : string :=
  match fuel with
  | O => acc
  | S k =>
      let acc' := String (hexDigit (n mod 16)) acc in
      if n / 16 =? 0 then acc' else hexDigits k (n / 16) acc'
  end.

(** The verb [%x] on an [int]. *)
Definition sprintfHex (n : Z) : string :=
  if n <? 0 then String "-" (hexDigits (S (Z.to_nat (Z.log2 (- n)))) (- n) EmptyString)
  else hexDigits (S (Z.to_nat (Z.log2 n))) n EmptyString.

(** [hex.EncodeToString]. *)
Fixpoint hexEncode (bs : list Z) : string :=
  match bs with
  | [] => EmptyString
  | b :: rest =>
      String (hexDigit (byte_of b / 16)) (String (hexDigit (byte_of b mod 16)) (hexEncode rest))
  end.

(** [strconv.Atoi] on a string: an optional sign, then decimal digits
    only, and the value has to fit an [int]. *)
Fixpoint atoiDigits (s : string) (acc : Z) : option Z :=
  match s with
  | EmptyString => Some acc
  | String c rest =>
      let d := byteOfAscii c in
      if (48 <=? d) && (d <=? 57) then atoiDigits rest (acc * 10 + (d - 48)) else None
  end.

Definition atoi (s : string) : option Z :=
  let body (neg : bool) (t : string) :=
    match t with
    | EmptyString => None
    | _ =>
        match atoiDigits t 0 with
        | Some v =>
            let v' := if neg then - v else v in
            if (- 2 ^ 63 <=? v') && (v' <? 2 ^ 63) then Some v' else None
        | None => None
        end
    end in
  match s with
  | String "-" t => body true t
  | String "+" t => body false t
  | _ => body false s
  end.

(** ** float64 and package math *)

Module GoMath.

(** [float64(n)] for an integer [n]: round to nearest, ties to even. *)
Definition float64_of_Z (z : Z) : float :=
  SF2Prim (binary_normalize prec emax z 0 false).

(** The integer part (towards zero) of the magnitude of a finite float,
    with the remainder and the modulus it was cut by. *)
Definition magnitudeParts (m : positive) (e : Z) : Z * Z * Z :=
  if 0 <=? e then (Zpos m * 2 ^ e, 0, 1)
  else (Zpos m / 2 ^ (- e), Zpos m mod 2 ^ (- e), 2 ^ (- e)).

(** [int(x)] for a float64: truncation towards zero. Outside the int64
    range, and for NaN, Go leaves the result to the implementation; amd64
    yields the minimum integer, which is what is modelled. *)
Definition int_of_float (x : float) : Z :=
  match Prim2SF x with
  | S754_zero _ => 0
  | S754_finite s m e =>
      let '(q, _, _) := magnitudeParts m e in
      let v := if s then - q else q in
      if (- 2 ^ 63 <=? v) && (v <? 2 ^ 63) then v else - 2 ^ 63
  | _ => - 2 ^ 63
  end.

Definition signedZero (s : bool) : float := if s then neg_zero else zero.

(** [math.Floor]. *)
Definition Floor (x : float) : float :=
  match Prim2SF x with
  | S754_finite s m e =>
      if 0 <=? e then x
      else
        let '(q, r, _) := magnitudeParts m e in
        if s then float64_of_Z (- (if r =? 0 then q else q + 1))
        else if q =? 0 then zero else float64_of_Z q
  | _ => x
  end.

(** [math.Trunc]. *)
Definition Trunc (x : float) : float :=
  match Prim2SF x with
  | S754_finite s m e =>
      if 0 <=? e then x
      else
        let '(q, _, _) := magnitudeParts m e in
        if q =? 0 then signedZero s else float64_of_Z (if s then - q else q)
  | _ => x
  end.

(** [math.Ceil], which Go computes as [-Floor(-x)]. *)
Definition Ceil (x : float) : float := (- Floor (- x))%float.

(** [math.Round]: to the nearest integer, halves away from zero. *)
Definition Round (x : float) : float :=
  match Prim2SF x with
  | S754_finite s m e =>
      if 0 <=? e then x
      else
        let '(q, r, d) := magnitudeParts m e in
        let n := if d <=? 2 * r then q + 1 else q in
        if n =? 0 then signedZero s else float64_of_Z (if s then - n else n)
  | _ => x
  end.

(** [math.Max] and [math.Min], with their special cases. *)
Definition Max (x y : float) : float :=
  if (x =? infinity)%float || (y =? infinity)%float then infinity
  else if is_nan x || is_nan y then nan
  else if (x =? 0)%float && (x =? y)%float then (if get_sign x then y else x)
  else if (y <? x)%float then x else y.

Definition Min (x y : float) : float :=
  if (x =? neg_infinity)%float || (y =? neg_infinity)%float then neg_infinity
  else if is_nan x || is_nan y then nan
  else if (x =? 0)%float && (x =? y)%float then (if get_sign x then x else y)
  else if (x <? y)%float then x else y.

(** [math.Abs]. *)
Definition Abs (x : float) : float := abs x.

(** [math.Pi] as a float64. *)
Definition Pi : float := 0x1.921fb54442d18p+1%float.

End GoMath.

(** ** Package strings, on byte strings *)

Definition isSpace (c : ascii) : bool :=
  let b := byteOfAscii c in
  (b =? 32) || ((9 <=? b) && (b <=? 13)).

Definition isDigit (c : ascii) : bool :=
  let b := byteOfAscii c in (48 <=? b) && (b <=? 57).

(** The class [\w] of Go's regexp: [0-9A-Za-z_]. *)
Definition isWord (c : ascii) : bool :=
  let b := byteOfAscii c in
  ((48 <=? b) && (b <=? 57)) || ((65 <=? b) && (b <=? 90))
  || ((97 <=? b) && (b <=? 122)) || (b =? 95).

Definition toLowerAscii (c : ascii) : ascii :=
  let b := byteOfAscii c in
  if (65 <=? b) && (b <=? 90) then asciiOfByte (b + 32) else c.

Fixpoint mapString (f : ascii -> ascii) (s : string) : string :=
  match s with
  | EmptyString => EmptyString
  | String c rest => String (f c) (mapString f rest)
  end.

Fixpoint filterString (f : ascii -> bool) (s : string) : string :=
  match s with
  | EmptyString => EmptyString
  | String c rest => if f c then String c (filterString f rest) else filterString f rest
  end.

(** [strings.ToLower] (the strings it is applied to are ASCII). *)
Definition ToLower (s : string) : string := mapString toLowerAscii s.

(** [strings.ReplaceAll(s, string(c), "")]. *)
Definition removeChar (c : ascii) (s : string) : string :=
  filterString (fun d => negb (Ascii.eqb c d)) s.

(** [strings.HasPrefix]. *)
Definition HasPrefix (s p : string) : bool := String.prefix p s.

(** [strings.Contains(s, string(c))]. *)
Fixpoint containsChar (c : ascii) (s : string) : bool :=
  match s with
  | EmptyString => false
  | String d rest => Ascii.eqb c d || containsChar c rest
  end.

(** [strings.Join(parts, "")]. *)
Definition joinStrings (parts : list string) : string :=
  fold_right String.append EmptyString parts.

(** [strings.Split(s, string(sep))]: always at least one piece. *)
Fixpoint splitOn (sep : ascii) (s : string) : list string :=
  match s with
  | EmptyString => [EmptyString]
  | String c rest =>
      if Ascii.eqb c sep then EmptyString :: splitOn sep rest
      else
        match splitOn sep rest with
        | [] => [String c EmptyString]
        | p :: ps => String c p :: ps
        end
  end.

(** [strings.Fields]: the maximal runs of non-space characters. *)
Fixpoint fieldsAux (s : string) (cur : string) : list string :=
  match s with
  | EmptyString => match cur with EmptyString => [] | _ => [cur] end
  | String c rest =>
      if isSpace c then
        match cur with
        | EmptyString => fieldsAux rest EmptyString
        | _ => cur :: fieldsAux rest EmptyString
        end
      else fieldsAux rest (cur ++ String c EmptyString)
  end.

Definition Fields (s : string) : list string := fieldsAux s EmptyString.

Fixpoint trimLeft (s : string) : string :=
  match s with
  | String c rest => if isSpace c then trimLeft rest else s
  | EmptyString => EmptyString
  end.

Fixpoint revString (s : string) (acc : string) : string :=
  match s with
  | EmptyString => acc
  | String c rest => revString rest (String c acc)
  end.

(** [strings.TrimSpace]. *)
Definition TrimSpace (s : string) : string :=
  revString (trimLeft (revString (trimLeft s) EmptyString)) EmptyString.

(** The slice [s[n:]] of a string that is long enough. *)
Fixpoint dropString (n : nat) (s : string) : string :=
  match n, s with
  | O, _ => s
  | S k, String _ rest => dropString k rest
  | S _, EmptyString => EmptyString
  end.

(** ** The animation arithmetic (transaction.go, helper functions) *)

Section Animation.

Import GoMath.
Local Open Scope float_scope.

(** [math.Cos] and [math.Sin] are library functions of the Go runtime. *)
Variable Cos Sin : float -> float.

(** [solve] scales a value into [[minVal, maxVal]]; it floors when
    [rounding] is set and rounds to two decimals otherwise. *)
Definition solve (value minVal maxVal : float) (rounding : bool) : float :=
  let result := value * (maxVal - minVal) / 255 + minVal in
  if rounding then Floor result else Round (result * 100) / 100.

(** [isOdd]: -1.0 when [num % 2 == 1] (Go's remainder truncates, so a
    negative odd number gives 0.0). *)
Definition isOdd (num : Z) : float :=
  if Z.eqb (Z.rem num 2) 1 then -1 else 0.

(** [interpolate]: every component is interpolated and then clamped to
    [[0, 255]]. The source indexes [to] by the positions of [from]; a
    shorter [to] makes it panic, which is [None] here. *)
Fixpoint interpolate (from to : list float) (t : float) : option (list float) :=
  match from, to with
  | [], _ => Some []
  | f :: from', g :: to' =>
      match interpolate from' to' t with
      | Some rest => Some (Max 0 (Min 255 (f + (g - f) * t)) :: rest)
      | None => None
      end
  | _ :: _, [] => None
  end.

(** [convertRotationToMatrix]. *)
Definition convertRotationToMatrix (angle : float) : list float :=
  let radians := angle * Pi / 180 in
  let cos := Cos radians in
  let sin := Sin radians in
  [cos; sin; - sin; cos].

(** [parseDigit] of [floatToHex]: [string(rune(value + 55))] above 9 (a
    single byte: the values passed are at most 15), [strconv.Itoa] otherwise. *)
Definition parseDigit (value : Z) : string :=
  if Z.ltb 9 value then String (asciiOfByte (value + 55)) EmptyString else itoa value.

(** The integer-part loop of [floatToHex]: [for quotient > 0]. An int64
    has at most 16 hexadecimal digits. *)
Fixpoint intDigits (fuel : nat) (quotient : Z) (digits : list string) : list string :=
  match fuel with
  | O => digits
  | S k =>
      if Z.ltb 0 quotient then
        intDigits k (Z.quot quotient 16) (parseDigit (Z.rem quotient 16) :: digits)
      else digits
  end.

(** The fractional loop of [floatToHex]: [for fraction > 0 && len(result) < 20],
    where [slots] is [20 - len(result)]. *)
Fixpoint fracDigits (slots : nat) (fraction : float) : list string :=
  match slots with
  | O => []
  | S k =>
      if 0 <? fraction then
        let fraction16 := fraction * 16 in
        let integer := int_of_float fraction16 in
        parseDigit integer :: fracDigits k (fraction16 - float64_of_Z integer)
      else []
  end.

(** [floatToHex]. *)
Definition floatToHex (x : float) : string :=
  if x =? 0 then "0"%string
  else
    let quotient := int_of_float x in
    let fraction := x - float64_of_Z quotient in
    let result :=
      if Z.eqb quotient 0 then ["0"%string] else intDigits 16 quotient [] in
    let result :=
      if 0 <? fraction then
        let result := (result ++ ["."%string])%list in
        (result ++ fracDigits (20 - List.length result) fraction)%list
      else result in
    joinStrings result.

(** [jsRound]. *)
Definition jsRound (num : float) : float :=
  let decimalPart := num - Trunc num in
  if decimalPart =? -0.5 then Ceil num else Round num.

(** [cubicCalculate]. *)
Definition cubicCalculate (a b m : float) : float :=
  3 * a * (1 - m) * (1 - m) * m + 3 * b * (1 - m) * m * m + m * m * m.

(** The bisection loop of [evaluateCubicBezier], [for startValue < endValue].
    The source's loop has no bound: [None] stands for a run that is still
    in the loop after [fuel] iterations. *)
Fixpoint bisect (fuel : nat) (x1 y1 x2 y2 t startValue endValue mid : float)
  : option float :=
  match fuel with
  | O => if startValue <? endValue then None else Some (cubicCalculate y1 y2 mid)
  | S k =>
      if startValue <? endValue then
        let mid := (startValue + endValue) / 2 in
        let xEst := cubicCalculate x1 x2 mid in
        if Abs (t - xEst) <? 0x1.4f8b588e368f1p-17 then Some (cubicCalculate y1 y2 mid)
        else if xEst <? t then bisect k x1 y1 x2 y2 t mid endValue mid
        else bisect k x1 y1 x2 y2 t startValue mid mid
      else Some (cubicCalculate y1 y2 mid)
  end.

(** [evaluateCubicBezier]. The literal [0.00001] of the source is the
    float64 [0x1.4f8b588e368f1p-17]. *)
Definition evaluateCubicBezier (fuel : nat) (controlPoints : list float) (t : float)
  : option float :=
  match controlPoints with
  | cp0 :: cp1 :: cp2 :: cp3 :: _ =>
      if t <=? 0 then
        let startGradient :=
          if 0 <? cp0 then cp1 / cp0
          else if (cp1 =? 0) && (0 <? cp2) then cp3 / cp2
          else 0 in
        Some (startGradient * t)
      else if 1 <=? t then
        let endGradient :=
          if cp2 <? 1 then (cp3 - 1) / (cp2 - 1)
          else if (cp2 =? 1) && (cp0 <? 1) then (cp1 - 1) / (cp0 - 1)
          else 0 in
        Some (1 + endGradient * (t - 1))
      else bisect fuel cp0 cp1 cp2 cp3 t 0 1 0
  | _ => Some t
  end.

(** The padding loop of [animate]: [for len(frameRow) < 15]. *)
Definition padRow (frameRow : list Z) : list Z :=
  (frameRow ++ repeat 0%Z (15 - List.length frameRow))%list.

(** [for i, val := range frameRow[7:]]: the curve values. *)
Fixpoint curveValuesFrom (i : Z) (vals : list Z) : list float :=
  match vals with
  | [] => []
  | val :: rest =>
      solve (float64_of_Z val) (isOdd i) 1 false :: curveValuesFrom (Z.succ i) rest
  end.

(** One matrix component of the key, as [animate] renders it. *)
Definition matrixToken (value : float) : string :=
  let rounded := Round (value * 100) / 100 in
  let rounded := if rounded <? 0 then - rounded else rounded in
  let hexValue := floatToHex rounded in
  if HasPrefix hexValue "." then ("0" ++ hexValue)%string
  else if String.eqb hexValue "" then "0"%string
  else hexValue.

(** The element [frameRow[i]] of the padded row, as a float64. *)
Definition rowAt (frameRow : list Z) (i : nat) : float :=
  float64_of_Z (nth i (padRow frameRow) 0%Z).

(** The rotation [animate] starts from and the one it goes to. *)
Definition fromRotation : list float := [0].
Definition toRotation (frameRow : list Z) : list float :=
  [solve (rowAt frameRow 6) 60 360 true].

(** The rotation [animate] passes to [convertRotationToMatrix], for the
    value [val] of the curve. *)
Definition rotationAt (frameRow : list Z) (val : float) : option (list float) :=
  interpolate fromRotation (toRotation frameRow) val.

(** [animate]. *)
Definition animate (fuel : nat) (frameRow : list Z) (targetTime : float) : option string :=
  let fromColor := [rowAt frameRow 0; rowAt frameRow 1; rowAt frameRow 2; 1] in
  let toColor := [rowAt frameRow 3; rowAt frameRow 4; rowAt frameRow 5; 1] in
  let curveValues := curveValuesFrom 0 (skipn 7 (padRow frameRow)) in
  match evaluateCubicBezier fuel curveValues targetTime with
  | None => None
  | Some val =>
      match interpolate fromColor toColor val, rotationAt frameRow val with
      | Some color, Some rotation =>
          let matrix := convertRotationToMatrix (nth 0 rotation 0) in
          let colorTokens :=
            map (fun c => sprintfHex (int_of_float (Round c))) (firstn 3 color) in
          let strArr := (colorTokens ++ map matrixToken matrix ++ ["0"; "0"]%string)%list in
          let result := joinStrings strArr in
          let result := removeChar "." result in
          let result := removeChar "-" result in
          Some (ToLower result)
      | _, _ => None
      end
  end.

End Animation.

(** ** crypto/sha256 *)

Module Sha256.

Definition add32 (a b : Z) : Z := (a + b) mod 2 ^ 32.
Definition rotr (n x : Z) : Z :=
  (Z.lor (Z.shiftr x n) (Z.shiftl x (32 - n))) mod 2 ^ 32.
Definition not32 (x : Z) : Z := Z.lxor x (2 ^ 32 - 1).

Definition Ch (x y z : Z) : Z := Z.lxor (Z.land x y) (Z.land (not32 x) z).
Definition Maj (x y z : Z) : Z :=
  Z.lxor (Z.lxor (Z.land x y) (Z.land x z)) (Z.land y z).
Definition bigSigma0 (x : Z) : Z := Z.lxor (Z.lxor (rotr 2 x) (rotr 13 x)) (rotr 22 x).
Definition bigSigma1 (x : Z) : Z := Z.lxor (Z.lxor (rotr 6 x) (rotr 11 x)) (rotr 25 x).
Definition smallSigma0 (x : Z) : Z := Z.lxor (Z.lxor (rotr 7 x) (rotr 18 x)) (Z.shiftr x 3).
Definition smallSigma1 (x : Z) : Z := Z.lxor (Z.lxor (rotr 17 x) (rotr 19 x)) (Z.shiftr x 10).

(** The round constants and the initial words are the first 32 bits of
    the fractional parts of the cube roots, respectively square roots, of
    the first primes. *)
Definition isPrime (n : Z) : bool :=
  forallb (fun d => negb (n mod Z.of_nat d =? 0)) (seq 2 (Z.to_nat n - 2)).

Definition primes : list Z :=
  Eval vm_compute in filter isPrime (map Z.of_nat (seq 2 310)).

(** The integer cube root, by bisection between [lo] and [hi]. *)
Fixpoint cubeRootBetween (fuel : nat) (lo hi n : Z) : Z :=
  match fuel with
  | O => lo
  | S k =>
      if hi - lo <=? 1 then lo
      else
        let mid := (lo + hi) / 2 in
        if mid * mid * mid <=? n then cubeRootBetween k mid hi n
        else cubeRootBetween k lo mid n
  end.

Definition K : list Z :=
  Eval vm_compute in
    map (fun p => cubeRootBetween 64 0 (2 ^ 40) (p * 2 ^ 96) mod 2 ^ 32) primes.

Definition initialWords : list Z :=
  Eval vm_compute in map (fun p => Z.sqrt (p * 2 ^ 64) mod 2 ^ 32) (firstn 8 primes).

(** The eight working words. *)
Record state : Type := mkState { ha : Z; hb : Z; hc : Z; hd : Z; he : Z; hf : Z; hg : Z; hh : Z }.

Definition initial : state :=
  let w (i : nat) := nth i initialWords 0 in
  mkState (w 0%nat) (w 1%nat) (w 2%nat) (w 3%nat) (w 4%nat) (w 5%nat) (w 6%nat) (w 7%nat).

(** The message with its padding: 0x80, zeros, the bit length on 8 bytes. *)
Definition bigEndian (n : nat) (v : Z) : list Z :=
  map (fun i => Z.shiftr v (8 * Z.of_nat i) mod 256) (rev (seq 0 n)).

Definition pad (msg : list Z) : list Z :=
  let len := Z.of_nat (List.length msg) in
  let zeros := Z.to_nat ((55 - len) mod 64) in
  msg ++ [0x80] ++ repeat 0 zeros ++ bigEndian 8 (8 * len).

Fixpoint words (bs : list Z) (fuel : nat) : list Z :=
  match fuel, bs with
  | S k, b0 :: b1 :: b2 :: b3 :: rest =>
      (b0 * 2 ^ 24 + b1 * 2 ^ 16 + b2 * 2 ^ 8 + b3) :: words rest k
  | _, _ => []
  end.

(** The message schedule, most recent word first. *)
Fixpoint extend (n : nat) (w : list Z) : list Z :=
  match n with
  | O => w
  | S k =>
      let x := add32 (add32 (smallSigma1 (nth 1 w 0)) (nth 6 w 0))
                     (add32 (smallSigma0 (nth 14 w 0)) (nth 15 w 0)) in
      extend k (x :: w)
  end.

Definition schedule (block : list Z) : list Z :=
  rev (extend 48 (rev (words block 16))).

Definition round (s : state) (kw : Z * Z) : state :=
  let t1 := add32 (add32 (add32 (hh s) (bigSigma1 (he s))) (Ch (he s) (hf s) (hg s)))
                  (add32 (fst kw) (snd kw)) in
  let t2 := add32 (bigSigma0 (ha s)) (Maj (ha s) (hb s) (hc s)) in
  mkState (add32 t1 t2) (ha s) (hb s) (hc s) (add32 (hd s) t1) (he s) (hf s) (hg s).

Definition compress (s : state) (block : list Z) : state :=
  let r := fold_left round (combine K (schedule block)) s in
  mkState (add32 (ha s) (ha r)) (add32 (hb s) (hb r)) (add32 (hc s) (hc r))
          (add32 (hd s) (hd r)) (add32 (he s) (he r)) (add32 (hf s) (hf r))
          (add32 (hg s) (hg r)) (add32 (hh s) (hh r)).

Fixpoint blocks (n : nat) (bs : list Z) (s : state) : state :=
  match n with
  | O => s
  | S k => blocks k (skipn 64 bs) (compress s (firstn 64 bs))
  end.

(** [sha256.Sum256]: the 32 bytes of the digest. *)
Definition Sum256 (msg : list Z) : list Z :=
  let p := pad (map byte_of msg) in
  let s := blocks (List.length p / 64) p initial in
  bigEndian 4 (ha s) ++ bigEndian 4 (hb s) ++ bigEndian 4 (hc s) ++ bigEndian 4 (hd s)
  ++ bigEndian 4 (he s) ++ bigEndian 4 (hf s) ++ bigEndian 4 (hg s) ++ bigEndian 4 (hh s).

End Sha256.

(** ** encoding/base64, the standard padded encoding *)

Module Base64.

(** The alphabet: A-Z, a-z, 0-9, '+', '/'. *)
Definition encodeChar (d : Z) : ascii :=
  asciiOfByte
    (if d <? 26 then 65 + d
     else if d <? 52 then 71 + d
     else if d <? 62 then d - 4
     else if d =? 62 then 43 else 47).

Definition decodeChar (c : ascii) : option Z :=
  let b := byteOfAscii c in
  if (65 <=? b) && (b <=? 90) then Some (b - 65)
  else if (97 <=? b) && (b <=? 122) then Some (b - 71)
  else if (48 <=? b) && (b <=? 57) then Some (b + 4)
  else if b =? 43 then Some 62
  else if b =? 47 then Some 63
  else None.

Definition padChar : ascii := "="%char.
Definition isPad (c : ascii) : bool := Ascii.eqb c padChar.

(** [StdEncoding.EncodeToString]: three bytes give four characters; a
    last group of one or two bytes is padded with '='. *)
Fixpoint EncodeToString (src : list Z) : string :=
  match src with
  | [] => EmptyString
  | [b0] =>
      let val := b0 * 65536 in
      String (encodeChar (val / 262144 mod 64))
        (String (encodeChar (val / 4096 mod 64))
           (String padChar (String padChar EmptyString)))
  | [b0; b1] =>
      let val := b0 * 65536 + b1 * 256 in
      String (encodeChar (val / 262144 mod 64))
        (String (encodeChar (val / 4096 mod 64))
           (String (encodeChar (val / 64 mod 64)) (String padChar EmptyString)))
  | b0 :: b1 :: b2 :: rest =>
      let val := b0 * 65536 + b1 * 256 + b2 in
      String (encodeChar (val / 262144 mod 64))
        (String (encodeChar (val / 4096 mod 64))
           (String (encodeChar (val / 64 mod 64))
              (String (encodeChar (val mod 64)) (EncodeToString rest))))
  end.

Definition isNewline (c : ascii) : bool :=
  let b := byteOfAscii c in (b =? 10) || (b =? 13).

(** The quanta of the decoder, on input without line breaks: padding is
    only accepted at the very end, and trailing bits are not checked. *)
Fixpoint decodeQuanta (s : string) : option (list Z) :=
  match s with
  | EmptyString => Some []
  | String c0 (String c1 (String c2 (String c3 rest))) =>
      match decodeChar c0, decodeChar c1 with
      | Some d0, Some d1 =>
          if isPad c2 then
            if isPad c3 then
              match rest with
              | EmptyString => Some [(d0 * 262144 + d1 * 4096) / 65536 mod 256]
              | _ => None
              end
            else None
          else
            match decodeChar c2 with
            | Some d2 =>
                if isPad c3 then
                  match rest with
                  | EmptyString =>
                      let val := d0 * 262144 + d1 * 4096 + d2 * 64 in
                      Some [val / 65536 mod 256; val / 256 mod 256]
                  | _ => None
                  end
                else
                  match decodeChar c3 with
                  | Some d3 =>
                      let val := d0 * 262144 + d1 * 4096 + d2 * 64 + d3 in
                      match decodeQuanta rest with
                      | Some bs =>
                          Some (val / 65536 mod 256 :: val / 256 mod 256 :: val mod 256 :: bs)
                      | None => None
                      end
                  | None => None
                  end
            | None => None
            end
      | _, _ => None
      end
  | _ => None
  end.

(** [StdEncoding.DecodeString]: carriage returns and line feeds are
    skipped, anything else outside the alphabet is an error. *)
Definition DecodeString (s : string) : option (list Z) :=
  decodeQuanta (filterString (fun c => negb (isNewline c)) s).

End Base64.

(** [trimBase64Padding] (transaction.go): drops the trailing '='. *)
Fixpoint trimBase64Padding (s : string) : string :=
  match s with
  | EmptyString => EmptyString
  | String c rest =>
      match trimBase64Padding rest with
      | EmptyString => if Base64.isPad c then EmptyString else String c EmptyString
      | t => String c t
      end
  end.

(** The '=' characters that bring a string back to a multiple of four. *)
Definition repad (s : string) : string :=
  (s ++ string_of_list_ascii (repeat Base64.padChar ((4 - String.length s mod 4) mod 4)))%string.

(** ** Package regexp, for the patterns of the source

    The patterns of transaction.go are sequences of literals, character
    classes, starred or optional classes and one capturing group. They are
    matched the way Go's regexp does: the leftmost match, a greedy
    repetition preferring more characters and a lazy one fewer. *)

Module Regexp.

Inductive item : Type :=
| Lit (c : ascii)                      (* a literal character *)
| Class (p : ascii -> bool)            (* one character of a class *)
| Star (p : ascii -> bool)             (* class*, greedy *)
| LazyStar (p : ascii -> bool)         (* class*?, lazy *)
| Opt (p : ascii -> bool)              (* class?, greedy *)
| Open                                 (* ( *)
| Close.                               (* ) *)

Definition pattern : Type := list item.

Fixpoint lits (s : string) : pattern :=
  match s with
  | EmptyString => []
  | String c rest => Lit c :: lits rest
  end.

Fixpoint takeString (n : nat) (s : string) : string :=
  match n, s with
  | S k, String c rest => String c (takeString k rest)
  | _, _ => EmptyString
  end.

(** [matchHere p s gstart cap]: [p] matched at the start of [s]; the
    result is the input left after the match and the text of the group.
    [gstart] is the input at the opening parenthesis. *)
Fixpoint matchHere (p : pattern) (s gstart cap : string) : option (string * string) :=
  match p with
  | [] => Some (s, cap)
  | Lit c :: p' =>
      match s with
      | String d s' => if Ascii.eqb c d then matchHere p' s' gstart cap else None
      | EmptyString => None
      end
  | Class f :: p' =>
      match s with
      | String d s' => if f d then matchHere p' s' gstart cap else None
      | EmptyString => None
      end
  | Opt f :: p' =>
      match s with
      | String d s' =>
          if f d then
            match matchHere p' s' gstart cap with
            | Some r => Some r
            | None => matchHere p' s gstart cap
            end
          else matchHere p' s gstart cap
      | EmptyString => matchHere p' s gstart cap
      end
  | Star f :: p' =>
      (fix star (s : string) : option (string * string) :=
         match s with
         | String d s' =>
             if f d then
               match star s' with
               | Some r => Some r
               | None => matchHere p' s gstart cap
               end
             else matchHere p' s gstart cap
         | EmptyString => matchHere p' s gstart cap
         end) s
  | LazyStar f :: p' =>
      (fix lazy (s : string) : option (string * string) :=
         match matchHere p' s gstart cap with
         | Some r => Some r
         | None =>
             match s with
             | String d s' => if f d then lazy s' else None
             | EmptyString => None
             end
         end) s
  | Open :: p' => matchHere p' s s cap
  | Close :: p' =>
      matchHere p' s gstart (takeString (String.length gstart - String.length s) gstart)
  end.

(** A match: the slice Go returns, the whole match first and then the
    group, with the input that follows the match. *)
Definition matchAt (p : pattern) (s : string) : option (list string * string) :=
  match matchHere p s EmptyString EmptyString with
  | Some (rest, cap) =>
      Some ([takeString (String.length s - String.length rest) s; cap], rest)
  | None => None
  end.

Fixpoint findFrom (p : pattern) (s : string) : option (list string * string) :=
  match matchAt p s with
  | Some r => Some r
  | None =>
      match s with
      | String _ s' => findFrom p s'
      | EmptyString => None
      end
  end.

(** [FindStringSubmatch]: the leftmost match, or an empty slice. *)
Definition FindStringSubmatch (p : pattern) (s : string) : list string :=
  match findFrom p s with
  | Some (m, _) => m
  | None => []
  end.

(** [FindAllStringSubmatch(s, -1)]: the successive non-overlapping
    matches. (The patterns used never match the empty string, so every
    match consumes input.) *)
Fixpoint findAll (fuel : nat) (p : pattern) (s : string) : list (list string) :=
  match fuel with
  | O => []
  | S k =>
      match findFrom p s with
      | Some (m, rest) =>
          if (String.length rest <? String.length s)%nat then m :: findAll k p rest
          else
            match rest with
            | String _ rest' => m :: findAll k p rest'
            | EmptyString => [m]
            end
      | None => []
      end
  end.

Definition FindAllStringSubmatch (p : pattern) (s : string) : list (list string) :=
  findAll (S (String.length s)) p s.

(** The double quote, and the class of the two quote characters (written
    Q in the patterns below). *)
Definition dquote : ascii := ascii_of_nat 34.

Definition quote (c : ascii) : bool :=
  Ascii.eqb c "'"%char || Ascii.eqb c dquote.

(** The class [\s] of Go's regexp: tab, line feed, form feed, carriage
    return, space. *)
Definition reSpace (c : ascii) : bool :=
  let b := byteOfAscii c in
  (b =? 9) || (b =? 10) || (b =? 12) || (b =? 13) || (b =? 32).

Definition notGt (c : ascii) : bool := negb (Ascii.eqb c ">"%char).
Definition notQuote (c : ascii) : bool := negb (quote c).
(** [.] does not match a line feed. *)
Definition anyChar (c : ascii) : bool := negb (byteOfAscii c =? 10).

(** [Q{1}ondemand\.sQ{1}:\s*Q{1}( [\w]* )Q{1}], the group written with spaces. *)
Definition onDemandFileRegex : pattern :=
  [Class quote] ++ lits "ondemand.s" ++ [Class quote; Lit ":"; Star reSpace; Class quote;
   Open; Star isWord; Close; Class quote].

(** [\(\w{1}\[(\d{1,2})\],\s*16\)] *)
Definition indicesRegex : pattern :=
  [Lit "("; Class isWord; Lit "["; Open; Class isDigit; Opt isDigit; Close; Lit "]"; Lit ",";
   Star reSpace; Lit "1"; Lit "6"; Lit ")"].

(** [id=Q<frameID>Q[^>]*>(.*?)</g>] *)
Definition framePattern (frameID : string) : pattern :=
  lits "id=" ++ [Class quote] ++ lits frameID ++ [Class quote; Star notGt; Lit ">";
   Open; LazyStar anyChar; Close] ++ lits "</g>".

(** [<path[^>]*\sd=Q([^Q]*?)Q[^>]*>] *)
Definition pathPattern : pattern :=
  lits "<path" ++ [Star notGt; Class reSpace; Lit "d"; Lit "="; Class quote;
   Open; LazyStar notQuote; Close; Class quote; Star notGt; Lit ">"].

(** [numberRegex.ReplaceAllString(part, " ")] for the pattern [[^\d]+]:
    every maximal run of non-digits becomes one space. *)
Fixpoint replaceNonDigits (s : string) (inRun : bool) : string :=
  match s with
  | EmptyString => EmptyString
  | String c rest =>
      if isDigit c then String c (replaceNonDigits rest false)
      else if inRun then replaceNonDigits rest true
      else String " " (replaceNonDigits rest true)
  end.

End Regexp.

(** ** Configuration (config.go) *)

Definition Nanosecond : Z := 1.
Definition Millisecond : Z := 1000000.
Definition Second : Z := 1000000000.
Definition Minute : Z := 60 * Second.
Definition Hour : Z := 60 * Minute.

Record ProductionConfig : Type := mkConfig {
  HTMLDataCacheLifetime : Z;
  TransactionIDLifetime : Z;
  AnimationKeyLifetime : Z;
  EnableAutoRetry : bool;
  MaxRetryAttempts : Z;
  RetryBackoffBase : Z;
  RetryBackoffMultiplier : float;
  ErrorThresholdForRefresh : Z;
  RequestTimeout : Z;
  RateLimitRequests : float;
  EnableDebugLogging : bool;
  EnableMetrics : bool
}.

Definition DefaultProductionConfig : ProductionConfig :=
  mkConfig (6 * Hour) (1 * Hour) (3 * Hour)
           true 3 (500 * Millisecond) 2%float
           2
           (30 * Second) (50 / 60)%float
           false true.

Definition DevelopmentConfig : ProductionConfig :=
  mkConfig (10 * Minute) (5 * Minute) (15 * Minute)
           true 2 (200 * Millisecond) 1.5%float
           1
           (15 * Second) (100 / 60)%float
           true true.

Definition UltraFreshConfig : ProductionConfig :=
  mkConfig 0 0 0
           false 0 0 1%float
           1
           (10 * Second) (30 / 60)%float
           true true.

(** ** The transaction generator (transaction.go) *)

Definition DefaultKeyword : string := "obfiowerehiring".
Definition AdditionalRandomNumber : Z := 3.
Definition TwitterEpoch : Z := 1682924400.

(** The [interface{}] payload of a cache entry: the map of the two pages,
    or a string. *)
Inductive cacheData : Type :=
| PagesData (homepage ondemand : string)
| StringData (s : string).

Record CacheEntry : Type := mkCacheEntry {
  Data : cacheData;
  ExpiresAt : Z;
  CreatedAt : Z
}.

Record GeneratorMetrics : Type := mkMetrics {
  TotalGenerations : Z;
  CacheHits : Z;
  CacheMisses : Z;
  HTMLDataFetches : Z;
  RefreshAttempts : Z;
  RefreshFailures : Z;
  AverageGenTime : float;
  LastRefreshTime : Z
}.

(** The fields of [TransactionGenerator], without the two mutexes and the
    HTTP client (the network is an input of the operations). A nil cache
    pointer is [None]. *)
Record TransactionGenerator : Type := mkGenerator {
  config : ProductionConfig;
  htmlDataCache : option CacheEntry;
  animationCache : option CacheEntry;
  verificationCache : option CacheEntry;
  homePageHTML : string;
  onDemandFileHTML : string;
  keyBytes : list Z;
  animationKey : string;
  rowIndex : Z;
  keyBytesIndices : list Z;
  key : string;
  metrics : GeneratorMetrics;
  initialized : bool;
  lastRefresh : Z
}.

(** Field updates. *)
Definition set_caches (c1 c2 c3 : option CacheEntry) (tg : TransactionGenerator) :=
  mkGenerator (config tg) c1 c2 c3 (homePageHTML tg) (onDemandFileHTML tg) (keyBytes tg)
    (animationKey tg) (rowIndex tg) (keyBytesIndices tg) (key tg) (metrics tg)
    (initialized tg) (lastRefresh tg).

Definition set_homePageHTML (v : string) (tg : TransactionGenerator) :=
  mkGenerator (config tg) (htmlDataCache tg) (animationCache tg) (verificationCache tg)
    v (onDemandFileHTML tg) (keyBytes tg) (animationKey tg) (rowIndex tg)
    (keyBytesIndices tg) (key tg) (metrics tg) (initialized tg) (lastRefresh tg).

Definition set_onDemandFileHTML (v : string) (tg : TransactionGenerator) :=
  mkGenerator (config tg) (htmlDataCache tg) (animationCache tg) (verificationCache tg)
    (homePageHTML tg) v (keyBytes tg) (animationKey tg) (rowIndex tg)
    (keyBytesIndices tg) (key tg) (metrics tg) (initialized tg) (lastRefresh tg).

Definition set_keyBytes (v : list Z) (tg : TransactionGenerator) :=
  mkGenerator (config tg) (htmlDataCache tg) (animationCache tg) (verificationCache tg)
    (homePageHTML tg) (onDemandFileHTML tg) v (animationKey tg) (rowIndex tg)
    (keyBytesIndices tg) (key tg) (metrics tg) (initialized tg) (lastRefresh tg).

Definition set_animationKey (v : string) (tg : TransactionGenerator) :=
  mkGenerator (config tg) (htmlDataCache tg) (animationCache tg) (verificationCache tg)
    (homePageHTML tg) (onDemandFileHTML tg) (keyBytes tg) v (rowIndex tg)
    (keyBytesIndices tg) (key tg) (metrics tg) (initialized tg) (lastRefresh tg).

Definition set_indices (row : Z) (rest : list Z) (tg : TransactionGenerator) :=
  mkGenerator (config tg) (htmlDataCache tg) (animationCache tg) (verificationCache tg)
    (homePageHTML tg) (onDemandFileHTML tg) (keyBytes tg) (animationKey tg) row
    rest (key tg) (metrics tg) (initialized tg) (lastRefresh tg).

Definition set_key (v : string) (tg : TransactionGenerator) :=
  mkGenerator (config tg) (htmlDataCache tg) (animationCache tg) (verificationCache tg)
    (homePageHTML tg) (onDemandFileHTML tg) (keyBytes tg) (animationKey tg) (rowIndex tg)
    (keyBytesIndices tg) v (metrics tg) (initialized tg) (lastRefresh tg).

Definition set_metrics (v : GeneratorMetrics) (tg : TransactionGenerator) :=
  mkGenerator (config tg) (htmlDataCache tg) (animationCache tg) (verificationCache tg)
    (homePageHTML tg) (onDemandFileHTML tg) (keyBytes tg) (animationKey tg) (rowIndex tg)
    (keyBytesIndices tg) (key tg) v (initialized tg) (lastRefresh tg).

Definition set_initialized (v : bool) (tg : TransactionGenerator) :=
  mkGenerator (config tg) (htmlDataCache tg) (animationCache tg) (verificationCache tg)
    (homePageHTML tg) (onDemandFileHTML tg) (keyBytes tg) (animationKey tg) (rowIndex tg)
    (keyBytesIndices tg) (key tg) (metrics tg) v (lastRefresh tg).

Definition set_lastRefresh (v : Z) (tg : TransactionGenerator) :=
  mkGenerator (config tg) (htmlDataCache tg) (animationCache tg) (verificationCache tg)
    (homePageHTML tg) (onDemandFileHTML tg) (keyBytes tg) (animationKey tg) (rowIndex tg)
    (keyBytesIndices tg) (key tg) (metrics tg) (initialized tg) v.

Definition incr_HTMLDataFetches (m : GeneratorMetrics) :=
  mkMetrics (TotalGenerations m) (CacheHits m) (CacheMisses m) (wrap64 (HTMLDataFetches m + 1))
    (RefreshAttempts m) (RefreshFailures m) (AverageGenTime m) (LastRefreshTime m).

Definition incr_RefreshAttempts (m : GeneratorMetrics) :=
  mkMetrics (TotalGenerations m) (CacheHits m) (CacheMisses m) (HTMLDataFetches m)
    (wrap64 (RefreshAttempts m + 1)) (RefreshFailures m) (AverageGenTime m) (LastRefreshTime m).

Definition incr_RefreshFailures (m : GeneratorMetrics) :=
  mkMetrics (TotalGenerations m) (CacheHits m) (CacheMisses m) (HTMLDataFetches m)
    (RefreshAttempts m) (wrap64 (RefreshFailures m + 1)) (AverageGenTime m) (LastRefreshTime m).

Definition incr_TotalGenerations (m : GeneratorMetrics) :=
  mkMetrics (wrap64 (TotalGenerations m + 1)) (CacheHits m) (CacheMisses m) (HTMLDataFetches m)
    (RefreshAttempts m) (RefreshFailures m) (AverageGenTime m) (LastRefreshTime m).

Definition set_AverageGenTime (v : float) (m : GeneratorMetrics) :=
  mkMetrics (TotalGenerations m) (CacheHits m) (CacheMisses m) (HTMLDataFetches m)
    (RefreshAttempts m) (RefreshFailures m) v (LastRefreshTime m).

Definition set_LastRefreshTime (v : Z) (m : GeneratorMetrics) :=
  mkMetrics (TotalGenerations m) (CacheHits m) (CacheMisses m) (HTMLDataFetches m)
    (RefreshAttempts m) (RefreshFailures m) (AverageGenTime m) v.

(** The network as one operation sees it: what [httpClient.Do] and
    [io.ReadAll] give for the home page, and for the on-demand file at a
    URL. *)
Inductive httpOutcome : Type :=
| DoFailed (e : error)
| ReadFailed (e : error)
| Body (s : string).

Record Network : Type := mkNetwork {
  getHomePage : httpOutcome;
  getOnDemand : string -> httpOutcome
}.

(** The parse tree of golang.org/x/net/html. *)
Inductive NodeType : Type :=
| ErrorNode | TextNode | DocumentNode | ElementNode | CommentNode | DoctypeNode.

Record Attribute : Type := mkAttr { attrKey : string; attrVal : string }.

#[local] Set Warnings "-register-all".
Inductive Node : Type :=
| mkNode (type : NodeType) (data : string) (attr : list Attribute) (children : list Node).

Section Generator.

Import GoMath.

(** Library functions the generator calls: [math.Cos], [math.Sin] and
    [html.Parse] (on a string reader). [fuel] bounds the bisection loop of
    [evaluateCubicBezier], which the source leaves unbounded. *)
Variable Cos Sin : float -> float.
Variable htmlParse : string -> result Node.
Variable fuel : nat.

(** [fetchTwitterData]. The home page is stored as soon as it is read,
    before the on-demand marker is looked for. ([http.NewRequest] does not
    fail on these URLs; the status of the responses is not looked at.) *)
Definition fetchTwitterData (net : Network) (tg : TransactionGenerator)
  : result unit * TransactionGenerator :=
  match getHomePage net with
  | DoFailed err => (Err (ErrWrap "failed to fetch home page: " err), tg)
  | ReadFailed err => (Err (ErrWrap "failed to read home page: " err), tg)
  | Body homeBytes =>
      let tg := set_homePageHTML homeBytes tg in
      let tg := set_metrics (incr_HTMLDataFetches (metrics tg)) tg in
      let matches := Regexp.FindStringSubmatch Regexp.onDemandFileRegex (homePageHTML tg) in
      if (List.length matches <? 2)%nat then
        (Err (ErrMsg "ondemand file URL not found in home page"), tg)
      else
        let onDemandURL :=
          ("https://abs.twimg.com/responsive-web/client-web/ondemand.s."
             ++ nth 1 matches EmptyString ++ "a.js")%string in
        match getOnDemand net onDemandURL with
        | DoFailed err => (Err (ErrWrap "failed to fetch ondemand file: " err), tg)
        | ReadFailed err => (Err (ErrWrap "failed to read ondemand file: " err), tg)
        | Body onDemandBytes => (Ok tt, set_onDemandFileHTML onDemandBytes tg)
        end
  end.

(** The error of [strconv.Atoi]. *)
Definition atoiError (s : string) : error :=
  ErrMsg ("strconv.Atoi: parsing " ++ s ++ ": invalid syntax").

(** The loop of [extractIndices] over the matches. *)
Fixpoint parseIndices (matches : list (list string)) (indices : list Z)
  : result (list Z) :=
  match matches with
  | [] => Ok indices
  | m :: rest =>
      if (1 <? List.length m)%nat then
        let text := nth 1 m EmptyString in
        match atoi text with
        | Some index => parseIndices rest (indices ++ [index])
        | None =>
            Err (ErrWrap ("failed to parse index " ++ text ++ ": ") (atoiError text))
        end
      else parseIndices rest indices
  end.

(** [extractIndices]. *)
Definition extractIndices (tg : TransactionGenerator)
  : result unit * TransactionGenerator :=
  let matches := Regexp.FindAllStringSubmatch Regexp.indicesRegex (onDemandFileHTML tg) in
  match matches with
  | [] => (Err (ErrMsg "no indices found in ondemand file"), tg)
  | _ =>
      match parseIndices matches [] with
      | Err e => (Err e, tg)
      | Ok [] => (Err (ErrMsg "no valid indices extracted"), tg)
      | Ok (first :: rest) => (Ok tt, set_indices first rest tg)
      end
  end.

(** The attribute loop of [findTwitterSiteVerification]: the last [name]
    and the last [content] win. *)
Fixpoint scanAttrs (attrs : list Attribute) (name content : string) : string * string :=
  match attrs with
  | [] => (name, content)
  | a :: rest =>
      if String.eqb (attrKey a) "name" then scanAttrs rest (attrVal a) content
      else if String.eqb (attrKey a) "content" then scanAttrs rest name (attrVal a)
      else scanAttrs rest name content
  end.

(** [findTwitterSiteVerification]: depth first, the first non-empty result. *)
Fixpoint findTwitterSiteVerification (n : Node) : string :=
  match n with
  | mkNode type data attr children =>
      let here :=
        match type with
        | ElementNode =>
            if String.eqb data "meta" then
              let '(name, content) := scanAttrs attr EmptyString EmptyString in
              if String.eqb name "twitter-site-verification" then Some content else None
            else None
        | _ => None
        end in
      match here with
      | Some content => content
      | None =>
          (fix firstChild (cs : list Node) : string :=
             match cs with
             | [] => EmptyString
             | c :: cs' =>
                 match findTwitterSiteVerification c with
                 | EmptyString => firstChild cs'
                 | result => result
                 end
             end) children
      end
  end.

(** [extractKey]. The raw key is stored before it is decoded. *)
Definition extractKey (tg : TransactionGenerator) : result unit * TransactionGenerator :=
  match htmlParse (homePageHTML tg) with
  | Err err => (Err (ErrWrap "failed to parse HTML: " err), tg)
  | Ok doc =>
      let key := findTwitterSiteVerification doc in
      match key with
      | EmptyString => (Err (ErrMsg "twitter-site-verification meta tag not found"), tg)
      | _ =>
          let tg := set_key key tg in
          match Base64.DecodeString key with
          | None =>
              (Err (ErrWrap "failed to decode key: " (ErrMsg "illegal base64 data")), tg)
          | Some decoded => (Ok tt, set_keyBytes decoded tg)
          end
      end
  end.

(** The path selection of [extractAnimationFrames]: the first [d]
    attribute longer than 9 bytes that contains a 'C'. *)
Fixpoint selectPath (pathMatches : list (list string)) : string :=
  match pathMatches with
  | [] => EmptyString
  | m :: rest =>
      let d := nth 1 m EmptyString in
      if (2 <=? List.length m)%nat && (9 <? String.length d)%nat && containsChar "C" d
      then d else selectPath rest
  end.

(** The numbers of one curve segment. *)
Fixpoint parseRow (fields : list string) : list Z :=
  match fields with
  | [] => []
  | numStr :: rest =>
      match atoi numStr with
      | Some num => num :: parseRow rest
      | None => parseRow rest
      end
  end.

Fixpoint parseRows (curveParts : list string) : list (list Z) :=
  match curveParts with
  | [] => []
  | part :: rest =>
      match TrimSpace part with
      | EmptyString => parseRows rest
      | _ =>
          let cleanedPart := TrimSpace (Regexp.replaceNonDigits part false) in
          match cleanedPart with
          | EmptyString => parseRows rest
          | _ =>
              match parseRow (Fields cleanedPart) with
              | [] => parseRows rest
              | row => row :: parseRows rest
              end
          end
      end
  end.

(** [extractAnimationFrames]. (The messages of the source start with a
    cross-mark emoji, left out here.) *)
Definition extractAnimationFrames (tg : TransactionGenerator) : result (list (list Z)) :=
  if (List.length (keyBytes tg) <=? 5)%nat then
    Err (ErrMsg "key_bytes too short for frame selection")
  else
    let frameIndex := Z.rem (nth 5 (keyBytes tg) 0) 4 in
    let frameID := ("loading-x-anim-" ++ itoa frameIndex)%string in
    let frameMatch :=
      Regexp.FindStringSubmatch (Regexp.framePattern frameID) (homePageHTML tg) in
    if (List.length frameMatch <? 2)%nat then
      Err (ErrMsg ("EXTRACTION FAILED: frame " ++ frameID ++ " not found in HTML - no fallback"))
    else
      let frameContent := nth 1 frameMatch EmptyString in
      let pathMatches := Regexp.FindAllStringSubmatch Regexp.pathPattern frameContent in
      match selectPath pathMatches with
      | EmptyString =>
          Err (ErrMsg ("EXTRACTION FAILED: no valid path data found in frame "
                         ++ frameID ++ " - no fallback"))
      | selectedPathData =>
          let curveData := dropString 9 selectedPathData in
          match parseRows (splitOn "C" curveData) with
          | [] =>
              Err (ErrMsg ("EXTRACTION FAILED: no valid rows extracted from frame "
                             ++ frameID ++ " - no fallback"))
          | rows => Ok rows
          end
      end.

(** The element [s[i]] of a slice; the indices used below are in range
    (see [generateAnimationKey]). *)
Definition index (s : list Z) (i : Z) : Z := nth (Z.to_nat i) s 0.

(** The product loop of [generateAnimationKey]. *)
Fixpoint frameTimeProduct (indices : list Z) (kb : list Z) (frameTime : Z) : Z :=
  match indices with
  | [] => frameTime
  | i :: rest =>
      if i <? Z.of_nat (List.length kb)
      then frameTimeProduct rest kb (wrap64 (frameTime * Z.rem (index kb i) 16))
      else frameTimeProduct rest kb frameTime
  end.

(** The outcome of a step that may fail, or not come back when the
    bisection loop exceeds its fuel. *)
Inductive outcome : Type :=
| Done (r : result unit) (tg : TransactionGenerator)
| Diverged.

(** [generateAnimationKey]. The frames are extracted first, which fails
    unless there are more than 5 key bytes, so [keyBytes[actualRowIndex]]
    is in range; [rowIndex] comes from one or two digits and is not
    negative. The animation key is only assigned at the very end. *)
Definition generateAnimationKey (tg : TransactionGenerator) : outcome :=
  match extractAnimationFrames tg with
  | Err err => Done (Err (ErrWrap "failed to extract animation frames: " err)) tg
  | Ok frames =>
      let len := Z.of_nat (List.length (keyBytes tg)) in
      let actualRowIndex := if len <=? rowIndex tg then len - 1 else rowIndex tg in
      let rowIndex := Z.rem (index (keyBytes tg) actualRowIndex) 16 in
      let frameTime := frameTimeProduct (keyBytesIndices tg) (keyBytes tg) 1 in
      let frameTime :=
        wrap64 (int_of_float (jsRound (float64_of_Z frameTime / 10)%float) * 10) in
      match frames with
      | [] => Done (Err (ErrMsg "no frame data available")) tg
      | first :: _ =>
          let frameRow :=
            if rowIndex <? Z.of_nat (List.length frames)
            then nth (Z.to_nat rowIndex) frames [] else first in
          let targetTime := (float64_of_Z frameTime / 4096)%float in
          match animate Cos Sin fuel frameRow targetTime with
          | Some k => Done (Ok tt) (set_animationKey k tg)
          | None => Diverged
          end
      end
  end.

(** [extractAlgorithmData]. *)
Definition extractAlgorithmData (tg : TransactionGenerator) : outcome :=
  match extractIndices tg with
  | (Err err, tg) => Done (Err (ErrWrap "failed to extract indices: " err)) tg
  | (Ok _, tg) =>
      match extractKey tg with
      | (Err err, tg) => Done (Err (ErrWrap "failed to extract key: " err)) tg
      | (Ok _, tg) =>
          match generateAnimationKey tg with
          | Done (Err err) tg =>
              Done (Err (ErrWrap "failed to generate animation key: " err)) tg
          | Done (Ok _) tg => Done (Ok tt) tg
          | Diverged => Diverged
          end
      end
  end.

End Generator.

(** ** The cache and refresh controller (transaction.go) *)

(** The zero [time.Time] (January 1, year 1), in nanoseconds from the
    Unix epoch. *)
Definition zeroTime : Z := - 62135596800 * Second.

(** [t.Add(d)] and [t.After(u)]. *)
Definition timeAdd (t d : Z) : Z := t + d.
Definition timeAfter (t u : Z) : bool := u <? t.

(** [t.UnixMicro()]. *)
Definition UnixMicro (t : Z) : Z := t / 1000.

(** The generator [NewTransactionGeneratorWithConfig] starts from. *)
Definition newGenerator (cfg : ProductionConfig) : TransactionGenerator :=
  mkGenerator cfg None None None EmptyString EmptyString [] EmptyString 0 [] EmptyString
    (mkMetrics 0 0 0 0 0 0 0%float zeroTime) false zeroTime.

(** [updateGenerationTime], given the duration in nanoseconds. *)
Definition updateGenerationTime (duration : Z) (tg : TransactionGenerator)
  : TransactionGenerator :=
  let genTimeMs := (GoMath.float64_of_Z duration / 1e6)%float in
  let m := metrics tg in
  if TotalGenerations m =? 1 then set_metrics (set_AverageGenTime genTimeMs m) tg
  else
    let alpha := 0x1.999999999999ap-4%float in
    set_metrics
      (set_AverageGenTime ((1 - alpha) * AverageGenTime m + alpha * genTimeMs)%float m) tg.

(** [incrementTotalGenerations]. *)
Definition incrementTotalGenerations (tg : TransactionGenerator) : TransactionGenerator :=
  set_metrics (incr_TotalGenerations (metrics tg)) tg.

(** The three entries both [initialize] and [updateCachesWithFreshData]
    build: the verification entry takes the HTML lifetime. *)
Definition freshCaches (now : Z) (tg : TransactionGenerator) : TransactionGenerator :=
  set_caches
    (Some (mkCacheEntry (PagesData (homePageHTML tg) (onDemandFileHTML tg))
             (timeAdd now (HTMLDataCacheLifetime (config tg))) now))
    (Some (mkCacheEntry (StringData (animationKey tg))
             (timeAdd now (AnimationKeyLifetime (config tg))) now))
    (Some (mkCacheEntry (StringData (key tg))
             (timeAdd now (HTMLDataCacheLifetime (config tg))) now))
    tg.

(** [updateCachesWithFreshData]; it never fails. *)
Definition updateCachesWithFreshData (now : Z) (tg : TransactionGenerator)
  : result unit * TransactionGenerator :=
  (Ok tt, freshCaches now tg).

(** [needsRefresh], with the reading of the clock. *)
Definition needsRefresh (now : Z) (tg : TransactionGenerator) : bool :=
  if negb (initialized tg) then true
  else if match htmlDataCache tg with
          | Some e => timeAfter now (ExpiresAt e)
          | None => false
          end then true
  else if match animationCache tg with
          | Some e => timeAfter now (ExpiresAt e)
          | None => false
          end then true
  else if match verificationCache tg with
          | Some e => timeAfter now (ExpiresAt e)
          | None => false
          end then true
  else false.

(** What one run of [Refresh] (or [initialize]) reads from outside: the
    network, the clock when the caches are rebuilt and the clock at the
    end; [initialize] also measures its duration. *)
Record RefreshEnv : Type := mkRefreshEnv {
  net : Network;
  nowCaches : Z;
  nowDone : Z;
  elapsed : Z
}.

Section Controller.

Variable Cos Sin : float -> float.
Variable htmlParse : string -> result Node.
Variable fuel : nat.

Let extractData := extractAlgorithmData Cos Sin htmlParse fuel.

Definition countFailure (tg : TransactionGenerator) : TransactionGenerator :=
  set_metrics (incr_RefreshFailures (metrics tg)) tg.

(** [initialize]. *)
Definition initialize (env : RefreshEnv) (tg : TransactionGenerator) : outcome :=
  match fetchTwitterData (net env) tg with
  | (Err err, tg) =>
      Done (Err (ErrWrap "failed to fetch Twitter data: " err))
           (updateGenerationTime (elapsed env) tg)
  | (Ok _, tg) =>
      match extractData tg with
      | Diverged => Diverged
      | Done (Err err) tg =>
          Done (Err (ErrWrap "failed to extract algorithm data: " err))
               (updateGenerationTime (elapsed env) tg)
      | Done (Ok _) tg =>
          let now := nowCaches env in
          let tg := freshCaches now tg in
          let tg := set_initialized true tg in
          let tg := set_lastRefresh now tg in
          let tg := set_metrics (set_LastRefreshTime now (metrics tg)) tg in
          Done (Ok tt) (updateGenerationTime (elapsed env) tg)
      end
  end.

(** [NewTransactionGeneratorWithConfig]: no generator unless
    [initialize] succeeds. [None] when the run does not come back. *)
Definition NewTransactionGeneratorWithConfig (cfg : ProductionConfig) (env : RefreshEnv)
  : option (result TransactionGenerator) :=
  match initialize env (newGenerator cfg) with
  | Diverged => None
  | Done (Err err) _ =>
      Some (Err (ErrWrap "failed to initialize transaction generator: " err))
  | Done (Ok _) tg => Some (Ok tg)
  end.

(** [Refresh]. *)
Definition Refresh (env : RefreshEnv) (tg : TransactionGenerator) : outcome :=
  let tg := set_metrics (incr_RefreshAttempts (metrics tg)) tg in
  match fetchTwitterData (net env) tg with
  | (Err err, tg) =>
      Done (Err (ErrWrap "failed to fetch Twitter data: " err)) (countFailure tg)
  | (Ok _, tg) =>
      match extractData tg with
      | Diverged => Diverged
      | Done (Err err) tg =>
          Done (Err (ErrWrap "failed to extract algorithm data: " err)) (countFailure tg)
      | Done (Ok _) tg =>
          match updateCachesWithFreshData (nowCaches env) tg with
          | (Err err, tg) =>
              Done (Err (ErrWrap "failed to update caches: " err)) (countFailure tg)
          | (Ok _, tg) =>
              let tg := set_lastRefresh (nowDone env) tg in
              let tg := set_metrics (set_LastRefreshTime (lastRefresh tg) (metrics tg)) tg in
              Done (Ok tt) tg
          end
      end
  end.

Definition expireEntry (now : Z) (c : option CacheEntry) : option CacheEntry :=
  match c with
  | Some e => Some (mkCacheEntry (Data e) (timeAdd now (- 1 * Hour)) (CreatedAt e))
  | None => None
  end.

(** [ForceRefresh]: each entry is given an expiry one hour before the
    clock reading taken for it, then [Refresh] runs. *)
Definition ForceRefresh (now1 now2 now3 : Z) (env : RefreshEnv) (tg : TransactionGenerator)
  : outcome :=
  let tg :=
    set_caches (expireEntry now1 (htmlDataCache tg)) (expireEntry now2 (animationCache tg))
      (expireEntry now3 (verificationCache tg)) tg in
  Refresh env tg.

(** [ForceRefreshTransactionID]. *)
Definition ForceRefreshTransactionID := ForceRefresh.

(** The four bytes of the time, least significant first. *)
Definition timeBytes (timeNow : Z) : list Z :=
  map (fun i => byte_of (Z.land (Z.shiftr timeNow (i * 8)) 255)) [0; 1; 2; 3].

(** The seconds since [TwitterEpoch] at the clock reading [now]. *)
Definition timeNowOf (now : Z) : Z :=
  let nowMicro := UnixMicro now in
  let epochMicro := TwitterEpoch * 1000000 in
  Z.quot (wrap64 (nowMicro - epochMicro)) 1000000.

(** The string that is hashed. *)
Definition hashString (method path : string) (timeNow : Z) (animKey : string) : string :=
  (method ++ "!" ++ path ++ "!" ++ itoa timeNow ++ DefaultKeyword ++ animKey)%string.

(** The bytes before masking: key bytes, time, digest prefix, 3. *)
Definition payload (method path : string) (timeNow : Z) (tg : TransactionGenerator) : list Z :=
  let hashBytes :=
    firstn 16 (Sha256.Sum256 (bytesOf (hashString method path timeNow (animationKey tg)))) in
  map byte_of (keyBytes tg) ++ timeBytes timeNow ++ hashBytes ++ [byte_of AdditionalRandomNumber].

(** [generateUniqueTransactionID], given the clock reading and what
    [rand.Read] gave: the random byte or an error. *)
Definition generateUniqueTransactionID (method path : string) (now : Z) (rnd : result Z)
  (tg : TransactionGenerator) : result string :=
  let timeNow := timeNowOf now in
  let bytesArr := payload method path timeNow tg in
  match rnd with
  | Err err => Err (ErrWrap "failed to generate random number: " err)
  | Ok r =>
      let result := r :: map (fun b => Z.lxor b r) bytesArr in
      Ok (trimBase64Padding (Base64.EncodeToString result))
  end.

(** What one call of [Generate] reads from outside. *)
Record GenerateEnv : Type := mkGenerateEnv {
  nowCheck : Z;              (* the clock in needsRefresh *)
  refreshEnv : RefreshEnv;   (* what Refresh reads, if it runs *)
  nowID : Z;                 (* the clock in generateUniqueTransactionID *)
  randomByte : result Z;     (* rand.Read of one byte *)
  duration : Z               (* time.Since(start) in the deferred call *)
}.

(** [Generate]: the error of [Refresh] is dropped. [None] when the
    refresh does not come back. *)
Definition Generate (method path : string) (env : GenerateEnv) (tg : TransactionGenerator)
  : option (result string * TransactionGenerator) :=
  let finish (tg : TransactionGenerator) :=
    let r := generateUniqueTransactionID method path (nowID env) (randomByte env) tg in
    (r, incrementTotalGenerations (updateGenerationTime (duration env) tg)) in
  if needsRefresh (nowCheck env) tg then
    match Refresh (refreshEnv env) tg with
    | Diverged => None
    | Done _ tg => Some (finish tg)
    end
  else Some (finish tg).

(** [NewTransactionGenerator]: the constructor under the default
    configuration. *)
Definition NewTransactionGenerator (env : RefreshEnv)
  : option (result TransactionGenerator) :=
  NewTransactionGeneratorWithConfig DefaultProductionConfig env.

End Controller.

(** ** Monitoring (transaction.go) *)

(** [GetMetrics]: a copy of the counters. *)
Definition GetMetrics (tg : TransactionGenerator) : GeneratorMetrics := metrics tg.

(** [IsStale], with the reading of the clock. *)
Definition IsStale (now : Z) (tg : TransactionGenerator) : bool := needsRefresh now tg.

Record TransactionGeneratorStats : Type := mkStats {
  KeyLength : Z;
  IndicesCount : Z;
  StatsAnimationKey : string;
  LastFetchTime : Z;
  StatsIsStale : bool;
  HomePageLength : Z;
  OnDemandLength : Z
}.

(** [GetStats], with the reading of the clock. *)
Definition GetStats (now : Z) (tg : TransactionGenerator) : TransactionGeneratorStats :=
  mkStats (Z.of_nat (List.length (keyBytes tg)))
    (Z.of_nat (List.length (keyBytesIndices tg)))
    (animationKey tg)
    (lastRefresh tg)
    (needsRefresh now tg)
    (Z.of_nat (String.length (homePageHTML tg)))
    (Z.of_nat (String.length (onDemandFileHTML tg))).

(** ** The XPFF header (xpff_generator.go) *)

Section XPFF.

(** Library functions: the quoting [encoding/json] applies to a string
    value, and [Seal(nil, nonce, plaintext, nil)] of the GCM mode over the
    AES cipher of a key (the ciphertext followed by the tag). *)
Variable jsonString : string -> string.
Variable gcmSeal : list Z -> list Z -> list Z -> list Z.

Record XPFFGenerator : Type := mkXPFF { baseKey : string }.

(** [NewXPFFGenerator]. *)
Definition NewXPFFGenerator : XPFFGenerator :=
  mkXPFF "0e6be1f1e21ffc33590b888fd4dc81b19713e570e805d4e5df80a493c9571a05".

(** A string literal with every backquote standing for a double quote. *)
Definition dq (s : string) : string :=
  mapString (fun c => if Ascii.eqb c "`"%char then Regexp.dquote else c) s.

(** [json.Marshal] of the [XPFFPayload]: the fields in declaration order
    under their tags, no white space. It cannot fail on this type. *)
Definition marshalPayload (userAgent : string) (createdAt : Z) : string :=
  (dq "{`navigator_properties`:{`hasBeenActive`:`true`,`userAgent`:"
     ++ jsonString userAgent
     ++ dq ",`webdriver`:`false`},`created_at`:" ++ itoa createdAt ++ "}")%string.

(** [generateEncryptionKey]: SHA-256 of the base key followed by the
    guest id, both as they are written. *)
Definition generateEncryptionKey (x : XPFFGenerator) (guestID : string) : result (list Z) :=
  let combined := (baseKey x ++ guestID)%string in
  Ok (Sha256.Sum256 (bytesOf combined)).

(** The nonce size of the standard GCM mode. *)
Definition NonceSize : nat := 12.

(** [encryptAESGCM], given what [rand.Read] wrote into the nonce (or
    its error). [aes.NewCipher] refuses keys that are not 16, 24 or 32
    bytes long. *)
Definition encryptAESGCM (plaintext key : list Z) (rnd : result (list Z))
  : result (list Z) :=
  let n := List.length key in
  if negb ((n =? 16)%nat || (n =? 24)%nat || (n =? 32)%nat) then
    Err (ErrWrap "failed to create AES cipher: "
           (ErrMsg ("crypto/aes: invalid key size " ++ itoa (Z.of_nat n))))
  else
    match rnd with
    | Err err => Err (ErrWrap "failed to generate nonce: " err)
    | Ok nonce =>
        let ciphertext := gcmSeal key nonce plaintext in
        Ok (nonce ++ ciphertext)
    end.

(** [GenerateXPFF], given [time.Now().UnixMilli()] and the random nonce. *)
Definition GenerateXPFF (x : XPFFGenerator) (guestID userAgent : string)
  (nowMilli : Z) (rnd : result (list Z)) : result string :=
  let payloadJSON := marshalPayload userAgent nowMilli in
  match generateEncryptionKey x guestID with
  | Err err => Err (ErrWrap "failed to generate encryption key: " err)
  | Ok encryptionKey =>
      match encryptAESGCM (bytesOf payloadJSON) encryptionKey rnd with
      | Err err => Err (ErrWrap "failed to encrypt payload: " err)
      | Ok encrypted => Ok (hexEncode encrypted)
      end
  end.

(** [IsXPFFValid]. *)
Definition IsXPFFValid (nowMilli createdAt : Z) : bool :=
  wrap64 (nowMilli - createdAt) <? 300000.

End XPFF.

(** ** The request driver (client.go) *)

Record ClientMetrics : Type := mkClientMetrics {
  SuccessfulRequests : Z;
  FailedRequests : Z
}.

(** The fields of [Client] that [executeWithRetry] reads or writes (the
    time stamps and the latency average are left out: nothing reads them). *)
Record Client : Type := mkClient {
  clientConfig : ProductionConfig;
  clientMetrics : ClientMetrics;
  errorStreak : Z;
  totalRequests : Z;
  retryEnabled : bool;
  debugEnabled : bool
}.

(** [recordSuccess]. *)
Definition recordSuccess (c : Client) : Client :=
  mkClient (clientConfig c)
    (mkClientMetrics (wrap64 (SuccessfulRequests (clientMetrics c) + 1))
       (FailedRequests (clientMetrics c)))
    0 (totalRequests c) (retryEnabled c) (debugEnabled c).

(** [recordError]. *)
Definition recordError (c : Client) : Client :=
  mkClient (clientConfig c)
    (mkClientMetrics (SuccessfulRequests (clientMetrics c))
       (wrap64 (FailedRequests (clientMetrics c) + 1)))
    (wrap64 (errorStreak c + 1)) (totalRequests c) (retryEnabled c) (debugEnabled c).

(** [shouldRefreshDueToErrors]. *)
Definition shouldRefreshDueToErrors (c : Client) : bool :=
  ErrorThresholdForRefresh (clientConfig c) <=? errorStreak c.

Definition countRequest (c : Client) : Client :=
  mkClient (clientConfig c) (clientMetrics c) (errorStreak c)
    (wrap64 (totalRequests c + 1)) (retryEnabled c) (debugEnabled c).

(** How a wait on [time.After] against [ctx.Done] ends. *)
Inductive waitOutcome : Type :=
| TimerFired
| ContextDone (err : error).

Section Driver.

(** Everything outside the client is a world [W]: the operation to
    retry acts on it, and so do the context, the timer and the forced
    refresh of the generator. [User] is the type of the result. *)
Variables (W User : Type).
Variable operation : W -> result User * W.
Variable ctxErr : W -> option error.
Variable wait : Z -> W -> waitOutcome * W.
Variable forceRefresh : W -> W.
(** [math.Pow]. *)
Variable Pow : float -> float -> float.

(** What a run of [executeWithRetry] gives: the value returned, the
    client and the world afterwards, and the outcomes of the executions
    of the operation, in order. *)
Record Run : Type := mkRun {
  returned : result User;
  clientAfter : Client;
  worldAfter : W;
  executions : list (result User)
}.

(** The error after the loop. With no execution at all [lastError] is
    nil and [%w] has nothing to wrap. *)
Definition exhausted (maxAttempts : Z) (lastError : option error) : error :=
  match lastError with
  | Some e => ErrWrap ("request failed after " ++ itoa maxAttempts ++ " attempts: ") e
  | None =>
      ErrMsg ("request failed after " ++ itoa maxAttempts ++ " attempts: %!w(<nil>)")
  end.

(** [time.Duration(float64(base) * math.Pow(multiplier, float64(attempt-1)))]. *)
Definition backoffDuration (c : Client) (attempt : Z) : Z :=
  GoMath.int_of_float
    (GoMath.float64_of_Z (RetryBackoffBase (clientConfig c))
     * Pow (RetryBackoffMultiplier (clientConfig c)) (GoMath.float64_of_Z (attempt - 1)))%float.

(** The loop [for attempt := 1; attempt <= maxAttempts; attempt++], by
    recursion on the number of attempts that are left,
    [maxAttempts - attempt + 1]. *)
Fixpoint attempts (left : nat) (attempt maxAttempts : Z) (lastError : option error)
  (c : Client) (w : W) (trace : list (result User)) : Run :=
  match left with
  | O => mkRun (Err (exhausted maxAttempts lastError)) c w trace
  | S left' =>
      let '(r, w) := operation w in
      let trace := trace ++ [r] in
      match r with
      | Ok result => mkRun (Ok result) (recordSuccess c) w trace
      | Err err =>
          let lastError := Some err in
          let c := recordError c in
          if (maxAttempts <=? attempt)
             || match ctxErr w with Some _ => true | None => false end
          then mkRun (Err (exhausted maxAttempts lastError)) c w trace
          else
            match wait (backoffDuration c attempt) w with
            | (TimerFired, w) =>
                let w := if shouldRefreshDueToErrors c then forceRefresh w else w in
                attempts left' (attempt + 1) maxAttempts lastError c w trace
            | (ContextDone e, w) => mkRun (Err e) c w trace
            end
      end
  end.

(** [maxAttempts] of [executeWithRetry]. *)
Definition maxAttemptsOf (c : Client) : Z :=
  if retryEnabled c then wrap64 (MaxRetryAttempts (clientConfig c) + 1) else 1.

(** [executeWithRetry]. *)
Definition executeWithRetry (c : Client) (w : W) : Run :=
  let c := countRequest c in
  let maxAttempts := maxAttemptsOf c in
  attempts (Z.to_nat maxAttempts) 1 maxAttempts None c w [].

End Driver.

(** ** Tokens, headers and requests (client.go) *)

(** [generateGuestToken], given [time.Now().Unix()] and what
    [rand.Int63n(1000000000)] gave. *)
Definition generateGuestToken (now randomPart : Z) : string :=
  let token := itoa (wrap64 (wrap64 (now * 1000000000) + randomPart)) in
  if (19 <? String.length token)%nat then substring 0 19 token
  else if (String.length token <? 19)%nat then ("195" ++ token)%string
  else token.

(** [generateGuestID], given [time.Now().UnixMilli()]. *)
Definition generateGuestID (nowMilli : Z) : string := ("v1%3A" ++ itoa nowMilli)%string.

(** [http.Header]: the values under each key. The keys this package
    sets are in canonical form, so [Set] and [Get] use them as they are. *)
Definition Header : Type := list (string * list string).

(** [Header.Set]: the value replaces what is under the key. *)
Fixpoint headerSet (k v : string) (h : Header) : Header :=
  match h with
  | [] => [(k, [v])]
  | (k', vs) :: rest =>
      if String.eqb k' k then (k, [v]) :: rest else (k', vs) :: headerSet k v rest
  end.

(** [Header.Get]: the first value under the key, or the empty string. *)
Fixpoint headerGet (k : string) (h : Header) : string :=
  match h with
  | [] => EmptyString
  | (k', vs) :: rest =>
      if String.eqb k' k then match vs with v :: _ => v | [] => EmptyString end
      else headerGet k rest
  end.

Definition firefoxUserAgent : string :=
  "Mozilla/5.0 (X11; Linux x86_64; rv:141.0) Gecko/20100101 Firefox/141.0".

Definition bearerToken : string :=
  "Bearer AAAAAAAAAAAAAAAAAAAAANRILgAAAAAAnNwIzUejRCOuH5E6I8xnZz4puTs%3D1Zv7ttfk8LF81IUq16cHjhLTvJu4FA33AGWWjCpTnA".

(** What one call of [setHeaders] reads from outside: what [Generate]
    reads, then the clock and the nonce of [GenerateXPFF]. *)
Record HeaderEnv : Type := mkHeaderEnv {
  generateEnv : GenerateEnv;
  xpffNow : Z;
  xpffNonce : result (list Z)
}.

(** What [http.Client.Do] and [io.ReadAll] give for a request. *)
Inductive httpResponse : Type :=
| RoundTripFailed (e : error)
| BodyFailed (e : error)
| Response (status : Z) (body : string).

(** What one call of [request] reads from outside: the rate limiter,
    what [setHeaders] reads, and the server. *)
Record RequestEnv : Type := mkRequestEnv {
  limiterWait : option error;
  headerEnv : HeaderEnv;
  roundTrip : string -> string -> Header -> httpResponse
}.

(** The parts of a [Client] besides the counters of the retry loop. *)
Record ClientParts : Type := mkClientParts {
  counters : Client;
  txnGen : TransactionGenerator;
  guestToken : string;
  guestID : string;
  xpffGen : XPFFGenerator
}.

Section Requests.

Variable Cos Sin : float -> float.
Variable htmlParse : string -> result Node.
Variable fuel : nat.
Variable jsonString : string -> string.
Variable gcmSeal : list Z -> list Z -> list Z -> list Z.
(** [url.Parse] of the address followed by the query set from the
    parameters: the path and the address with its encoded query.
    [http.NewRequestWithContext] on a method and that address. *)
Variable urlWithQuery : string -> list (string * string) -> result (string * string).
Variable newRequest : string -> string -> option error.

(** [NewClient]: the generator is built by [NewTransactionGenerator],
    under the default configuration. *)
Definition NewClient (config : option ProductionConfig) (env : RefreshEnv)
  (nowSeconds randomPart nowMilli : Z) : option (result ClientParts) :=
  let config := match config with Some c => c | None => DefaultProductionConfig end in
  match NewTransactionGenerator Cos Sin htmlParse fuel env with
  | None => None
  | Some (Err err) =>
      Some (Err (ErrWrap "failed to initialize transaction generator: " err))
  | Some (Ok generator) =>
      Some (Ok (mkClientParts
                  (mkClient config (mkClientMetrics 0 0) 0 0 (EnableAutoRetry config)
                     (EnableDebugLogging config))
                  generator (generateGuestToken nowSeconds randomPart)
                  (generateGuestID nowMilli) NewXPFFGenerator))
  end.

(** [New] and [NewDevelopmentClient]. *)
Definition New := NewClient None.
Definition NewDevelopmentClient := NewClient (Some DevelopmentConfig).

(** [setHeaders]: without a transaction ID there is an error; without
    an XPFF header the request goes on. *)
Definition setHeaders (c : ClientParts) (method path : string) (env : HeaderEnv)
  (header : Header) : option (result Header * ClientParts) :=
  match Generate Cos Sin htmlParse fuel method path (generateEnv env) (txnGen c) with
  | None => None
  | Some (r, generator) =>
      let c := mkClientParts (counters c) generator (guestToken c) (guestID c) (xpffGen c) in
      match r with
      | Err err => Some (Err (ErrWrap "failed to generate transaction ID: " err), c)
      | Ok txnID =>
          let userAgent := firefoxUserAgent in
          let xpffHeader :=
            match GenerateXPFF jsonString gcmSeal (xpffGen c) (guestID c) userAgent
                    (xpffNow env) (xpffNonce env) with
            | Ok h => h
            | Err _ => EmptyString
            end in
          let header := headerSet "Authorization" bearerToken header in
          let header := headerSet "X-Client-Transaction-Id" txnID header in
          let header :=
            match xpffHeader with
            | EmptyString => header
            | _ => headerSet "X-Xp-Forwarded-For" xpffHeader header
            end in
          let header := headerSet "User-Agent" userAgent header in
          let header := headerSet "Accept" "*/*" header in
          let header := headerSet "Accept-Language" "en-US,en;q=0.5" header in
          let header := headerSet "Content-Type" "application/json" header in
          let header := headerSet "Origin" "https://x.com" header in
          let header := headerSet "Referer" "https://x.com/" header in
          let header := headerSet "X-Twitter-Active-User" "yes" header in
          let header := headerSet "X-Twitter-Client-Language" "en" header in
          Some (Ok header, c)
      end
  end.

(** The error [request] makes of a status that is not 200. *)
Definition statusError (status : Z) (body : string) : error :=
  let text := (itoa status ++ " " ++ body)%string in
  if (status =? 401) || (status =? 403) then ErrMsg ("authentication error: " ++ text)
  else if status =? 429 then ErrMsg ("rate limited: " ++ text)
  else ErrMsg ("API error: " ++ text).

(** [request]. *)
Definition request (c : ClientParts) (method endpoint : string)
  (params : list (string * string)) (env : RequestEnv)
  : option (result string * ClientParts) :=
  match limiterWait env with
  | Some err => Some (Err (ErrWrap "rate limit: " err), c)
  | None =>
      match urlWithQuery ("https://api.x.com/graphql/" ++ endpoint) params with
      | Err err => Some (Err err, c)
      | Ok (path, address) =>
          match newRequest method address with
          | Some err => Some (Err err, c)
          | None =>
              match setHeaders c method path (headerEnv env) [] with
              | None => None
              | Some (Err err, c) => Some (Err (ErrWrap "failed to set headers: " err), c)
              | Some (Ok header, c) =>
                  match roundTrip env method address header with
                  | RoundTripFailed err => Some (Err err, c)
                  | BodyFailed err => Some (Err err, c)
                  | Response status body =>
                      if status =? 200 then Some (Ok body, c)
                      else Some (Err (statusError status body), c)
                  end
              end
          end
      end
  end.

End Requests.

(** * Properties and fixtures *)

(** ** Predicates of the statements *)

(** The clamp [interpolate] applies to every component. *)
Definition clamp255 (x : float) : float := GoMath.Max 0 (GoMath.Min 255 x).

(** An entry that is there and whose expiry is strictly before [now]. *)
Definition expired (now : Z) (c : option CacheEntry) : Prop :=
  exists e, c = Some e /\ ExpiresAt e < now.

(** The reading of C6: an entry counts as expired from [now = expires_at] on. *)
Definition expiredFrom (now : Z) (c : option CacheEntry) : Prop :=
  exists e, c = Some e /\ ExpiresAt e <= now.

(** The expiry invariant of one entry, for a lifetime. *)
Definition entryInv (ttl : Z) (c : option CacheEntry) : Prop :=
  match c with
  | Some e => ExpiresAt e = CreatedAt e + ttl
  | None => True
  end.

(** The invariant of the three entries: the HTML lifetime for the HTML
    entry and for the verification entry, the animation lifetime for the
    animation entry. *)
Definition cacheInv (tg : TransactionGenerator) : Prop :=
  entryInv (HTMLDataCacheLifetime (config tg)) (htmlDataCache tg)
  /\ entryInv (AnimationKeyLifetime (config tg)) (animationCache tg)
  /\ entryInv (HTMLDataCacheLifetime (config tg)) (verificationCache tg).

(** [tg'] has the configuration, the cache entries and the readiness
    flag of [tg]. *)
Definition sameCaches (tg tg' : TransactionGenerator) : Prop :=
  config tg' = config tg
  /\ htmlDataCache tg' = htmlDataCache tg
  /\ animationCache tg' = animationCache tg
  /\ verificationCache tg' = verificationCache tg
  /\ initialized tg' = initialized tg.

(** The indices of the base64 alphabet, and the check made on each. *)
Definition sextets : list Z := map Z.of_nat (seq 0 64).

Definition sextetOk (d : Z) : bool :=
  match Base64.decodeChar (Base64.encodeChar d) with
  | Some d' => Z.eqb d' d
  | None => false
  end
  && negb (Base64.isPad (Base64.encodeChar d)) && negb (Base64.isNewline (Base64.encodeChar d)).

(** The output is lower-case hexadecimal. *)
Definition isLowerHex (c : ascii) : bool :=
  let b := byteOfAscii c in
  ((48 <=? b) && (b <=? 57)) || ((97 <=? b) && (b <=? 102)).

(** Every character of a string satisfies [f]. *)
Fixpoint allChars (f : ascii -> bool) (s : string) : bool :=
  match s with
  | EmptyString => true
  | String c rest => f c && allChars f rest
  end.

(** The values of a hexadecimal digit. *)
Definition nibbles : list Z := map Z.of_nat (seq 0 16).

(** A character of the base64 alphabet. *)
Definition inAlphabet (c : ascii) : bool :=
  match Base64.decodeChar c with Some _ => true | None => false end.

(** A run of [k] padding characters. *)
Definition padding (k : nat) : string := string_of_list_ascii (repeat Base64.padChar k).

(** The values of a decimal digit. *)
Definition decimals : list Z := map Z.of_nat (seq 0 10).

(** An upper-case ASCII letter. *)
Definition isUpper (c : ascii) : bool :=
  let b := byteOfAscii c in (65 <=? b) && (b <=? 90).

(** A digit or a space: what is left of a curve segment once the runs of
    other characters are replaced. *)
Definition digitOrBlank (c : ascii) : bool := isDigit c || Ascii.eqb c " ".

(** [inTree m n]: the node [m] is [n] or one of its descendants. *)
Inductive inTree (m : Node) : Node -> Prop :=
| inTree_here : inTree m m
| inTree_below (type : NodeType) (data : string) (attr : list Attribute)
    (children : list Node) (c : Node) :
    In c children -> inTree m c -> inTree m (mkNode type data attr children).

(** A [meta] element whose [name] is [twitter-site-verification], with
    its [content] (for each, the last attribute of that key). *)
Definition verificationTag (n : Node) (content : string) : Prop :=
  match n with
  | mkNode ElementNode data attr _ =>
      data = "meta"%string
      /\ scanAttrs attr EmptyString EmptyString = ("twitter-site-verification"%string, content)
  | _ => False
  end.

(** The world in which the loop of [executeWithRetry] makes the attempt
    [attempt + k], when it makes the attempt [attempt] with the client [c]
    in the world [w] and goes round [k] times: each time the operation is
    executed, the error recorded, the backoff waited for, and the refresh
    forced when the error streak asks for it. *)
Section Attempts.

Variables (W User : Type).
Variable operation : W -> result User * W.
Variable wait : Z -> W -> waitOutcome * W.
Variable forceRefresh : W -> W.
Variable Pow : float -> float -> float.

Fixpoint attemptWorld (k : nat) (attempt : Z) (c : Client) (w : W) : W :=
  match k with
  | O => w
  | S k' =>
      let w := snd (operation w) in
      let c := recordError c in
      let w := snd (wait (backoffDuration Pow c attempt) w) in
      let w := if shouldRefreshDueToErrors c then forceRefresh w else w in
      attemptWorld k' (attempt + 1) c w
  end.

End Attempts.

(** ** Fixtures *)

(** A home page with a verification key (base64 for the bytes 7, 16, 9,
    10, 11, 12), the first loading animation with one curve, and the
    on-demand marker. (Backquotes stand for double quotes.) *)
Definition firstPage : string :=
  dq ("<html><head><meta name=`twitter-site-verification` content=`BxAJCgsM`></head>"
      ++ "<body><svg><g id=`loading-x-anim-0`>"
      ++ "<path d=`M0 0 0 0 C10,20,30,40,50,60,128,64,64,128,128`/></g></svg>"
      ++ "<script>{`ondemand.s`:`abc`}</script></body></html>").

(** The tree [html.Parse] builds for that page. *)
Definition firstTree : Node :=
  mkNode DocumentNode EmptyString []
    [mkNode ElementNode "html" []
       [mkNode ElementNode "head" []
          [mkNode ElementNode "meta"
             [mkAttr "name" "twitter-site-verification"; mkAttr "content" "BxAJCgsM"] []];
        mkNode ElementNode "body" []
          [mkNode ElementNode "svg" []
             [mkNode ElementNode "g" [mkAttr "id" "loading-x-anim-0"]
                [mkNode ElementNode "path"
                   [mkAttr "d" "M0 0 0 0 C10,20,30,40,50,60,128,64,64,128,128"] []]];
           mkNode ElementNode "script" []
             [mkNode TextNode (dq "{`ondemand.s`:`abc`}") [] []]]]].

(** An on-demand script with the indices 4, 1 and 2. *)
Definition onDemandScript : string := "f(a[4],16)+f(a[1],16)+f(a[2],16)".

(** The generator [initialize] builds at time 0 from that page and script
    under the default configuration (see [initialize_example]). *)
Definition readyGenerator : TransactionGenerator :=
  let cfg := DefaultProductionConfig in
  mkGenerator cfg
    (Some (mkCacheEntry (PagesData firstPage onDemandScript) (HTMLDataCacheLifetime cfg) 0))
    (Some (mkCacheEntry (StringData "a141e100100") (AnimationKeyLifetime cfg) 0))
    (Some (mkCacheEntry (StringData "BxAJCgsM") (HTMLDataCacheLifetime cfg) 0))
    firstPage onDemandScript [7; 16; 9; 10; 11; 12] "a141e100100" 4 [1; 2] "BxAJCgsM"
    (mkMetrics 0 0 0 1 0 0 0%float 0) true 0.

(** A network that is down. *)
Definition offline : Network :=
  mkNetwork (DoFailed (ErrMsg "dial tcp: i/o timeout"))
            (fun _ => DoFailed (ErrMsg "dial tcp: i/o timeout")).

(** A parser that is never reached when the home page cannot be read. *)
Definition noDocument : string -> result Node :=
  fun _ => Ok (mkNode DocumentNode EmptyString [] []).

(** A later home page that carries a new verification key (base64 for
    the bytes 1 to 6) and a new on-demand marker, but no loading
    animation. *)
Definition pageWithoutFrames : string :=
  dq ("<html><head><meta name=`twitter-site-verification` content=`AQIDBAUG`></head>"
      ++ "<body><script>{`ondemand.s`:`xyz`}</script></body></html>").

(** The tree [html.Parse] builds for that page. *)
Definition treeWithoutFrames : Node :=
  mkNode DocumentNode EmptyString []
    [mkNode ElementNode "html" []
       [mkNode ElementNode "head" []
          [mkNode ElementNode "meta"
             [mkAttr "name" "twitter-site-verification"; mkAttr "content" "AQIDBAUG"] []];
        mkNode ElementNode "body" []
          [mkNode ElementNode "script" []
             [mkNode TextNode (dq "{`ondemand.s`:`xyz`}") [] []]]]].

(** The on-demand script that goes with it: the indices 3 and 0. *)
Definition laterScript : string := "g(b[3],16)+g(b[0],16)".

(** [html.Parse] on the pages of the scenarios. *)
Definition parsePage : string -> result Node :=
  fun s => if String.eqb s firstPage then Ok firstTree
           else if String.eqb s pageWithoutFrames then Ok treeWithoutFrames
           else Ok (mkNode DocumentNode EmptyString [] []).

(** The on-demand files by URL. *)
Definition onDemandFiles (url : string) : httpOutcome :=
  if String.eqb url "https://abs.twimg.com/responsive-web/client-web/ondemand.s.abca.js"
  then Body onDemandScript
  else if String.eqb url "https://abs.twimg.com/responsive-web/client-web/ondemand.s.xyza.js"
  then Body laterScript
  else DoFailed (ErrMsg "404").

(** The network serving the first page, and the one serving the page
    without frames. *)
Definition servingFirstPage : Network := mkNetwork (Body firstPage) onDemandFiles.

Definition servingPageWithoutFrames : Network :=
  mkNetwork (Body pageWithoutFrames) onDemandFiles.

(** What [initialize] reads at time 0, and what a refresh at 7h reads
    when the page has lost its frames. *)
Definition firstEnv : RefreshEnv := mkRefreshEnv servingFirstPage 0 0 0.

Definition halfWayEnv : RefreshEnv :=
  mkRefreshEnv servingPageWithoutFrames (7 * Hour) (7 * Hour) 0.

(** The generator a failed refresh of the ready generator leaves behind:
    pages, key, key bytes and indices are the new ones, the animation key
    and the cache entries the old ones. *)
Definition afterHalfWayRefresh : TransactionGenerator :=
  let tg := readyGenerator in
  mkGenerator (config tg) (htmlDataCache tg) (animationCache tg) (verificationCache tg)
    pageWithoutFrames laterScript [1; 2; 3; 4; 5; 6] (animationKey tg) 3 [0]
    "AQIDBAUG" (mkMetrics 0 0 0 2 1 1 0%float 0) true 0.

(** What [Generate] reads in the scenario: the caches are checked at 7h,
    the refresh meets the page without frames, and the ID is built one
    hour after the epoch of the algorithm with the mask byte 90. *)
Definition halfWayGenerate : GenerateEnv :=
  mkGenerateEnv (7 * Hour) halfWayEnv ((TwitterEpoch + 3600) * Second) (Ok 90) 0.

(** The quoting [encoding/json] gives a string with nothing to escape. *)
Definition quotePlain (s : string) : string :=
  String Regexp.dquote (s ++ String Regexp.dquote EmptyString).

(** A client with the default configuration, and one with retry turned
    off; an operation that always fails, counting its executions. *)
Definition defaultClient : Client :=
  mkClient DefaultProductionConfig (mkClientMetrics 0 0) 0 0 true false.

Definition noRetryClient : Client :=
  mkClient UltraFreshConfig (mkClientMetrics 0 0) 0 0 false false.

Definition alwaysFails : nat -> result unit * nat :=
  fun executed => (Err (ErrMsg "API error: 500"), S executed).

Definition runAlwaysFails (c : Client) : Run nat unit :=
  executeWithRetry nat unit alwaysFails (fun _ => None) (fun _ w => (TimerFired, w))
    (fun w => w) (fun x _ => x) c 0%nat.

(** A client whose configuration asks for a negative number of retries
    ([NewClient] takes the configuration as it is). *)
Definition negativeRetryClient : Client :=
  mkClient
    (mkConfig (6 * Hour) (1 * Hour) (3 * Hour) true (-3) (500 * Millisecond) 2%float 2
       (30 * Second) (50 / 60)%float false true)
    (mkClientMetrics 0 0) 0 0 true false.

(** The cosine and the sine of 255 and of 360 degrees as float64 values,
    in a table that is 0 elsewhere. *)
Definition cosTable (x : float) : float :=
  if PrimFloat.eqb x (255 * GoMath.Pi / 180) then (-0x1.0907dc193068ep-2)%float
  else if PrimFloat.eqb x (360 * GoMath.Pi / 180) then 1%float
  else 0%float.

Definition sinTable (x : float) : float :=
  if PrimFloat.eqb x (255 * GoMath.Pi / 180) then (-0x1.ee8dd4748bf15p-1)%float
  else if PrimFloat.eqb x (360 * GoMath.Pi / 180) then (-0x1.1a62633145c07p-52)%float
  else 0%float.

(** A home page whose verification key decodes to three bytes, and the
    tree [html.Parse] builds for it. *)
Definition shortKeyPage : string :=
  dq ("<html><head><meta name=`twitter-site-verification` content=`AAAA`></head>"
      ++ "<body><script>{`ondemand.s`:`abc`}</script></body></html>").

Definition shortKeyTree : Node :=
  mkNode DocumentNode EmptyString []
    [mkNode ElementNode "html" []
       [mkNode ElementNode "head" []
          [mkNode ElementNode "meta"
             [mkAttr "name" "twitter-site-verification"; mkAttr "content" "AAAA"] []]]].

(** What a refresh at 7h reads when the first page is served, and when
    the network is down; what [Generate] reads at 1h. *)
Definition laterEnv : RefreshEnv := mkRefreshEnv servingFirstPage (7 * Hour) (7 * Hour) 0.

Definition offlineEnv : RefreshEnv := mkRefreshEnv offline (7 * Hour) (7 * Hour) 0.

Definition freshGenerate : GenerateEnv :=
  mkGenerateEnv Hour offlineEnv ((TwitterEpoch + 3600) * Second) (Ok 90) 0.

(** A client around the ready generator; an address builder that takes
    the path off the address, and a server that answers every request
    with status 200. *)
Definition readyClient : ClientParts :=
  mkClientParts defaultClient readyGenerator "1700000000123456789" "v1%3A1700000000000"
    NewXPFFGenerator.

Definition pathOfAddress : string -> list (string * string) -> result (string * string) :=
  fun address _ => Ok (dropString 17 address, address).

Definition answers200 : string -> string -> Header -> httpResponse :=
  fun _ _ _ => Response 200 "{}".

(** What [request] reads at 1h, and at 7h when the page has lost its
    frames. *)
Definition freshRequest : RequestEnv :=
  mkRequestEnv None (mkHeaderEnv freshGenerate 1700000000000 (Ok (repeat 0 12))) answers200.

Definition staleRequest : RequestEnv :=
  mkRequestEnv None (mkHeaderEnv halfWayGenerate 1700000000000 (Ok (repeat 0 12))) answers200.

(** A client that only forces a refresh after five errors in a row. *)
Definition patientClient : Client :=
  mkClient
    (mkConfig (6 * Hour) (1 * Hour) (3 * Hour) true 3 (500 * Millisecond) 2%float 5
       (30 * Second) (50 / 60)%float false true)
    (mkClientMetrics 0 0) 0 0 true false.

(** * Verification *)

(** ** SHA-256 *)

(** Two digests of FIPS 180-4. *)
Example Sum256_abc :
  hexEncode (Sha256.Sum256 (bytesOf "abc"))
  = "ba7816bf8f01cfea414140de5dae2223b00361a396177a9cb410ff61f20015ad"%string.
Proof. vm_compute. reflexivity. Qed.

Example Sum256_two_blocks :
  hexEncode (Sha256.Sum256 (bytesOf "abcdbcdecdefdefgefghfghighijhijkijkljklmklmnlmnomnopnopq"))
  = "248d6a61d20638b8e5c026930c3e6039a33ce45964ff2167f6ecedd419db06c1"%string.
Proof. vm_compute. reflexivity. Qed.

(** ** The animation arithmetic *)

Section FloatOrder.

Import GoMath.

(** The order of IEEE floats: comparing the other way round gives the
    opposite result, and two floats that are not NaN are always comparable. *)
Lemma SFcompare_antisym (a b : spec_float) (c : comparison) :
  SFcompare a b = Some c -> SFcompare b a = Some (CompOpp c).
Proof.
  destruct a as [sa | sa | | sa ma ea], b as [sb | sb | | sb mb eb]; cbn;
    try discriminate; intros H; injection H as <-;
    try (destruct sa; reflexivity); try (destruct sb; reflexivity);
    try (destruct sa, sb; reflexivity).
  destruct sa, sb; try reflexivity.
  - rewrite (Z.compare_antisym ea eb). destruct (ea ?= eb); cbn; try reflexivity.
    f_equal. change (Pos.compare_cont Eq mb ma) with (Pos.compare mb ma).
    change (Pos.compare_cont Eq ma mb) with (Pos.compare ma mb).
    rewrite (Pos.compare_antisym ma mb). reflexivity.
  - rewrite (Z.compare_antisym ea eb). destruct (ea ?= eb); cbn; try reflexivity.
    change (Pos.compare_cont Eq mb ma) with (Pos.compare mb ma).
    change (Pos.compare_cont Eq ma mb) with (Pos.compare ma mb).
    rewrite (Pos.compare_antisym ma mb). reflexivity.
Qed.

Lemma SFcompare_defined (a b : spec_float) :
  SFeqb a a = true -> SFeqb b b = true -> exists c, SFcompare a b = Some c.
Proof.
  destruct a, b; cbn; try discriminate; intros _ _; eexists; reflexivity.
Qed.

Lemma not_nan_eqb (x : float) : is_nan x = false -> SFeqb (Prim2SF x) (Prim2SF x) = true.
Proof.
  unfold is_nan. rewrite eqb_spec. intros H. apply negb_false_iff in H. exact H.
Qed.

Lemma ltb_false_leb (x y : float) :
  is_nan x = false -> is_nan y = false -> (x <? y)%float = false -> (y <=? x)%float = true.
Proof.
  intros Hx Hy. rewrite ltb_spec, leb_spec. unfold SFltb, SFleb.
  destruct (SFcompare_defined _ _ (not_nan_eqb x Hx) (not_nan_eqb y Hy)) as [c Hc].
  rewrite Hc, (SFcompare_antisym _ _ _ Hc). destruct c; cbn; congruence.
Qed.

Lemma eqb_true_leb (x y : float) : (x =? y)%float = true -> (x <=? y)%float = true.
Proof.
  rewrite eqb_spec, leb_spec. unfold SFeqb, SFleb.
  destruct (SFcompare (Prim2SF x) (Prim2SF y)) as [[| |] |]; congruence.
Qed.

End FloatOrder.

Section AnimationFacts.

Import GoMath.
Local Open Scope float_scope.

Variable Cos Sin : float -> float.

(** A clamped value is NaN (when the value was) or lies in [[0, 255]]. *)
Lemma clamp255_range (x : float) :
  is_nan (clamp255 x) = true
  \/ ((0 <=? clamp255 x)%float = true /\ (clamp255 x <=? 255)%float = true).
Proof.
  unfold clamp255, Min.
  change ((255 =? neg_infinity)%float) with false.
  change (is_nan 255) with false.
  change ((255 =? 0)%float) with false. cbn [orb andb].
  destruct (x =? neg_infinity)%float eqn:E1; [right; split; reflexivity |].
  destruct (is_nan x) eqn:E2; [left; reflexivity |].
  destruct (255 <? x)%float eqn:E3; [right; split; reflexivity |].
  unfold Max.
  change ((0 =? infinity)%float) with false. change (is_nan 0) with false.
  change ((0 =? 0)%float) with true. change (get_sign 0) with false.
  cbn [orb andb]. rewrite E2.
  assert (L255 : (x <=? 255)%float = true) by (apply ltb_false_leb; auto).
  destruct (x =? infinity)%float eqn:E4.
  { exfalso. rewrite eqb_spec in E4. rewrite ltb_spec in E3.
    change (Prim2SF infinity) with (S754_infinity false) in E4.
    let v := eval vm_compute in (Prim2SF 255) in change (Prim2SF 255) with v in E3.
    destruct (Prim2SF x) as [s | [|] | | s m e]; try discriminate E4; discriminate E3. }
  destruct (0 =? x)%float eqn:E5; [right; split; reflexivity |].
  destruct (x <? 0)%float eqn:E6; [right; split; reflexivity |].
  right. split; [| exact L255].
  apply ltb_false_leb; auto.
Qed.

Lemma interpolate_single (f g t : float) :
  interpolate [f] [g] t = Some [clamp255 (f + (g - f) * t)].
Proof. reflexivity. Qed.

(** C5. For every rotation angle, [convertRotationToMatrix] returns the
    four entries cos, sin, -sin, cos of the angle in radians
    ([angle * Pi / 180]), in that order; so its third entry is minus the
    sine and its fourth the cosine. *)
Theorem convertRotationToMatrix_entries (angle : float) :
  let radians := angle * Pi / 180 in
  convertRotationToMatrix Cos Sin angle
  = [Cos radians; Sin radians; - Sin radians; Cos radians]
  /\ nth 2 (convertRotationToMatrix Cos Sin angle) 0 = - Sin radians
  /\ nth 3 (convertRotationToMatrix Cos Sin angle) 0 = Cos radians.
Proof.
  intros radians. unfold convertRotationToMatrix. fold radians.
  repeat split.
Qed.

(** C3. [animate] computes a target rotation between 60 and 360 degrees
    ([solve (frameRow[6]) 60 360 true]) and then takes the rotation from
    [interpolate], which caps every component at 255: for every frame row
    and target time the key is built from the three colour components and
    from the matrix of the rotation [0 + (to - 0) * v] clamped to
    [[0, 255]], so no rotation above 255 degrees ever reaches the matrix.
    For the frame row 10 20 30 40 50 60 255 64 64 128 128 at target time 1
    the target is 360 degrees, the value of the curve is 1 and the linear
    interpolation is 360, but the key is the one of the matrix of 255
    degrees: with the cosine and the sine of 255 degrees it is
    28323c0428f5c28f5c290f851eb851eb850f851eb851eb850428f5c28f5c2900,
    where the matrix of 360 degrees gives 28323c100100. *)
Theorem animate_caps_rotation (fuel : nat) :
  let key (red green blue angle : float) :=
    ToLower
      (removeChar "-"
         (removeChar "."
            (joinStrings
               (map (fun c => sprintfHex (int_of_float (Round c))) [red; green; blue]
                ++ map matrixToken (convertRotationToMatrix Cos Sin angle)
                ++ ["0"; "0"]%string)%list))) in
  (forall (frameRow : list Z) (targetTime : float),
      animate Cos Sin fuel frameRow targetTime
      = match evaluateCubicBezier fuel (curveValuesFrom 0 (skipn 7 (padRow frameRow)))
                targetTime with
        | None => None
        | Some v =>
            let component (i j : nat) :=
              clamp255 (rowAt frameRow i + (rowAt frameRow j - rowAt frameRow i) * v) in
            let to := solve (rowAt frameRow 6) 60 360 true in
            Some (key (component 0%nat 3%nat) (component 1%nat 4%nat)
                    (component 2%nat 5%nat) (clamp255 (0 + (to - 0) * v)))
        end)
  /\ (forall x : float,
        is_nan (clamp255 x) = true
        \/ ((0 <=? clamp255 x) = true /\ (clamp255 x <=? 255) = true))
  /\ (let frameRow := [10; 20; 30; 40; 50; 60; 255; 64; 64; 128; 128]%Z in
      solve (rowAt frameRow 6) 60 360 true = 360
      /\ evaluateCubicBezier fuel (curveValuesFrom 0 (skipn 7 (padRow frameRow))) 1 = Some 1
      /\ 0 + (360 - 0) * 1 = 360
      /\ clamp255 (0 + (360 - 0) * 1) = 255
      /\ animate Cos Sin fuel frameRow 1 = Some (key 40 50 60 255)
      /\ (Cos (255 * Pi / 180) = -0x1.0907dc193068ep-2 ->
          Sin (255 * Pi / 180) = -0x1.ee8dd4748bf15p-1 ->
          animate Cos Sin fuel frameRow 1
          = Some "28323c0428f5c28f5c290f851eb851eb850f851eb851eb850428f5c28f5c2900"%string)
      /\ (Cos (360 * Pi / 180) = 1 ->
          Sin (360 * Pi / 180) = -0x1.1a62633145c07p-52 ->
          key 40 50 60 360 = "28323c100100"%string)).
Proof.
  intros key.
  assert (General : forall (frameRow : list Z) (targetTime : float),
      animate Cos Sin fuel frameRow targetTime
      = match evaluateCubicBezier fuel (curveValuesFrom 0 (skipn 7 (padRow frameRow)))
                targetTime with
        | None => None
        | Some v =>
            let component (i j : nat) :=
              clamp255 (rowAt frameRow i + (rowAt frameRow j - rowAt frameRow i) * v) in
            let to := solve (rowAt frameRow 6) 60 360 true in
            Some (key (component 0%nat 3%nat) (component 1%nat 4%nat)
                    (component 2%nat 5%nat) (clamp255 (0 + (to - 0) * v)))
        end).
  { intros frameRow targetTime. unfold animate.
    destruct (evaluateCubicBezier fuel _ targetTime) as [v |]; reflexivity. }
  split; [exact General |]. split; [exact clamp255_range |].
  intros frameRow.
  assert (Hcurve : evaluateCubicBezier fuel (curveValuesFrom 0 (skipn 7 (padRow frameRow))) 1
                   = Some 1) by (vm_compute; reflexivity).
  assert (Hkey : animate Cos Sin fuel frameRow 1 = Some (key 40 50 60 255))
    by (rewrite General, Hcurve; reflexivity).
  split; [vm_compute; reflexivity |]. split; [exact Hcurve |].
  split; [vm_compute; reflexivity |]. split; [vm_compute; reflexivity |].
  split; [exact Hkey |]. split.
  - intros Hcos Hsin. rewrite Hkey. unfold key, convertRotationToMatrix.
    rewrite Hcos, Hsin. vm_compute. reflexivity.
  - intros Hcos Hsin. unfold key, convertRotationToMatrix.
    rewrite Hcos, Hsin. vm_compute. reflexivity.
Qed.

(** Four control points and a target time [t <= 0]. *)
Lemma evaluateCubicBezier_start (fuel : nat) (x1 y1 x2 y2 t : float) (rest : list float) :
  (t <=? 0) = true ->
  evaluateCubicBezier fuel (x1 :: y1 :: x2 :: y2 :: rest) t
  = Some ((if 0 <? x1 then y1 / x1
           else if (y1 =? 0) && (0 <? x2) then y2 / x2 else 0) * t).
Proof. intros Ht. unfold evaluateCubicBezier. rewrite Ht. reflexivity. Qed.

(** C4, as the code has it. For [t <= 0] the result is the start
    gradient times [t]; the gradient is [y1/x1] when [x1 > 0]; otherwise
    it is [y2/x2] when [y1 == 0] (not [x1 == 0]) and [x2 > 0]; and 0 in
    every other case. *)
Theorem evaluateCubicBezier_start_gradient
  (fuel : nat) (x1 y1 x2 y2 t : float) (rest : list float) :
  (t <=? 0) = true ->
  let value := evaluateCubicBezier fuel (x1 :: y1 :: x2 :: y2 :: rest) t in
  ((0 <? x1) = true -> value = Some (y1 / x1 * t))
  /\ ((0 <? x1) = false -> (y1 =? 0) = true -> (0 <? x2) = true ->
      value = Some (y2 / x2 * t))
  /\ ((0 <? x1) = false -> (y1 =? 0) = false -> value = Some (0 * t))
  /\ ((0 <? x1) = false -> (0 <? x2) = false -> value = Some (0 * t)).
Proof.
  intros Ht value. subst value. rewrite (evaluateCubicBezier_start _ _ _ _ _ _ _ Ht).
  repeat split.
  - intros ->. reflexivity.
  - intros -> -> ->. reflexivity.
  - intros -> ->. reflexivity.
  - intros -> ->. rewrite andb_false_r. reflexivity.
Qed.

End AnimationFacts.

(** The theorem at the control points (0.25, 0.5, 0.75, 1) and [t = -1]. *)
Lemma evaluateCubicBezier_start_gradient_witness :
  (PrimFloat.leb (-1) 0 = true)
  /\ evaluateCubicBezier 0 [0.25; 0.5; 0.75; 1]%float (-1)%float = Some (-2)%float.
Proof.
  split; [reflexivity |].
  apply (proj1 (evaluateCubicBezier_start_gradient 0 0.25 0.5 0.75 1 (-1) []
                  (eq_refl true)) (eq_refl true)).
Defined.

(** The theorem with the table of the two angles: the key for the row
    whose seventh number is 255, at target time 1. *)
Lemma animate_caps_rotation_witness :
  cosTable (255 * GoMath.Pi / 180) = (-0x1.0907dc193068ep-2)%float
  /\ sinTable (255 * GoMath.Pi / 180) = (-0x1.ee8dd4748bf15p-1)%float
  /\ animate cosTable sinTable 0 [10; 20; 30; 40; 50; 60; 255; 64; 64; 128; 128] 1
     = Some "28323c0428f5c28f5c290f851eb851eb850f851eb851eb850428f5c28f5c2900"%string.
Proof.
  split; [reflexivity |]. split; [reflexivity |].
  apply (proj1 (proj2 (proj2 (proj2 (proj2 (proj2 (proj2 (proj2
           (animate_caps_rotation cosTable sinTable 0))))))))); reflexivity.
Defined.

(** C4 fails as stated: with [x1 = 0], [y1 = 0.5], [x2 = 0.5], [y2 = 1]
    and [t = -1] the result is [0 * t], not [(y2/x2) * t = -2]. *)
Lemma start_gradient_not_on_x1 :
  ~ (forall (x1 y1 x2 y2 t : float),
        PrimFloat.leb t 0 = true -> PrimFloat.eqb x1 0 = true ->
        PrimFloat.ltb 0 x2 = true ->
        evaluateCubicBezier 0 [x1; y1; x2; y2] t = Some (y2 / x2 * t)%float).
Proof.
  intros H.
  specialize (H 0%float 0.5%float 0.5%float 1%float (-1)%float
                (eq_refl true) (eq_refl true) (eq_refl true)).
  vm_compute in H. discriminate H.
Qed.

(** ** The cache entries *)

Lemma expired_spec (now : Z) (c : option CacheEntry) :
  match c with Some e => timeAfter now (ExpiresAt e) | None => false end = true
  <-> expired now c.
Proof.
  unfold expired, timeAfter. destruct c as [e |].
  - rewrite Z.ltb_lt. split.
    + intros H. exists e. split; [reflexivity | exact H].
    + intros [e' [He' H]]. injection He' as <-. exact H.
  - split; [discriminate |]. intros [e' [He' _]]. discriminate He'.
Qed.

(** C6, as the code has it. [needsRefresh] is true exactly when the
    generator was never initialized or one of the three cache entries is
    expired, where an entry is expired iff [now] is strictly after its
    expiry ([now.After(ExpiresAt)]): at [now = expires_at] it is not. *)
Theorem needsRefresh_spec (now : Z) (tg : TransactionGenerator) :
  needsRefresh now tg = true
  <-> initialized tg = false
      \/ expired now (htmlDataCache tg)
      \/ expired now (animationCache tg)
      \/ expired now (verificationCache tg).
Proof.
  unfold needsRefresh.
  rewrite <- !expired_spec.
  destruct (initialized tg); simpl.
  - destruct (match htmlDataCache tg with Some e => _ | None => _ end);
      [ tauto |].
    destruct (match animationCache tg with Some e => _ | None => _ end);
      [ tauto |].
    destruct (match verificationCache tg with Some e => _ | None => _ end);
      [ tauto |].
    split; [ discriminate | intros [H | [H | [H | H]]]; discriminate H ].
  - tauto.
Qed.

(** C6 fails as stated: the animation entry of the ready generator
    expires at 3h; at that very instant [needsRefresh] is still false. *)
Lemma needsRefresh_boundary :
  ~ (forall (now : Z) (tg : TransactionGenerator),
        needsRefresh now tg = true
        <-> initialized tg = false
            \/ expiredFrom now (htmlDataCache tg)
            \/ expiredFrom now (animationCache tg)
            \/ expiredFrom now (verificationCache tg)).
Proof.
  intros H.
  destruct (H (3 * Hour) readyGenerator) as [_ H2].
  assert (E : needsRefresh (3 * Hour) readyGenerator = true).
  { apply H2. right. right. left. eexists. split; [reflexivity |]. simpl. lia. }
  vm_compute in E. discriminate E.
Qed.

(** ** What a refresh touches *)

Lemma sameCaches_refl (tg : TransactionGenerator) : sameCaches tg tg.
Proof. repeat split. Qed.

Lemma sameCaches_trans (a b c : TransactionGenerator) :
  sameCaches a b -> sameCaches b c -> sameCaches a c.
Proof.
  unfold sameCaches. intros (A1 & A2 & A3 & A4 & A5) (B1 & B2 & B3 & B4 & B5).
  repeat split; congruence.
Qed.

Lemma sameCaches_inv (tg tg' : TransactionGenerator) :
  sameCaches tg tg' -> cacheInv tg -> cacheInv tg'.
Proof.
  unfold sameCaches, cacheInv. intros (A1 & A2 & A3 & A4 & _).
  rewrite A1, A2, A3, A4. tauto.
Qed.

Lemma freshCaches_inv (now : Z) (tg : TransactionGenerator) :
  cacheInv (freshCaches now tg) /\ config (freshCaches now tg) = config tg.
Proof. unfold cacheInv, freshCaches, timeAdd. simpl. repeat split. Qed.

(** Case analysis on an innermost [match] or [if] of the goal, or of a
    hypothesis. *)
Ltac step :=
  match goal with
  | |- context [match ?x with _ => _ end] =>
      lazymatch x with
      | context [match _ with _ => _ end] => fail
      | _ => destruct x eqn:?
      end
  end.

Ltac step_in H :=
  match type of H with
  | context [match ?x with _ => _ end] =>
      lazymatch x with
      | context [match _ with _ => _ end] => fail
      | _ => destruct x eqn:?
      end
  end.

Section RefreshFacts.

Variable Cos Sin : float -> float.
Variable htmlParse : string -> result Node.
Variable fuel : nat.

Lemma fetchTwitterData_frame (n : Network) (tg tg' : TransactionGenerator) (r : result unit) :
  fetchTwitterData n tg = (r, tg') ->
  sameCaches tg tg'
  /\ keyBytes tg' = keyBytes tg /\ animationKey tg' = animationKey tg
  /\ key tg' = key tg /\ rowIndex tg' = rowIndex tg
  /\ keyBytesIndices tg' = keyBytesIndices tg.
Proof.
  unfold fetchTwitterData, sameCaches. intros H.
  repeat step_in H; injection H as <- <-; simpl; repeat split.
Qed.

Lemma extractIndices_frame (tg tg' : TransactionGenerator) (r : result unit) :
  extractIndices tg = (r, tg') ->
  sameCaches tg tg'
  /\ keyBytes tg' = keyBytes tg /\ animationKey tg' = animationKey tg
  /\ key tg' = key tg /\ homePageHTML tg' = homePageHTML tg
  /\ onDemandFileHTML tg' = onDemandFileHTML tg.
Proof.
  unfold extractIndices, sameCaches. intros H.
  repeat step_in H; injection H as <- <-; simpl; repeat split.
Qed.

Lemma extractKey_frame (tg tg' : TransactionGenerator) (r : result unit) :
  extractKey htmlParse tg = (r, tg') ->
  sameCaches tg tg'
  /\ animationKey tg' = animationKey tg
  /\ homePageHTML tg' = homePageHTML tg
  /\ onDemandFileHTML tg' = onDemandFileHTML tg
  /\ rowIndex tg' = rowIndex tg
  /\ keyBytesIndices tg' = keyBytesIndices tg.
Proof.
  unfold extractKey, sameCaches. intros H.
  repeat step_in H; injection H as <- <-; simpl; repeat split.
Qed.

(** [generateAnimationKey] changes nothing when it fails, and only the
    animation key when it succeeds. *)
Lemma generateAnimationKey_frame (tg tg' : TransactionGenerator) (r : result unit) :
  generateAnimationKey Cos Sin fuel tg = Done r tg' ->
  match r with
  | Err _ => tg' = tg
  | Ok _ => exists k, tg' = set_animationKey k tg
  end.
Proof.
  unfold generateAnimationKey. intros H.
  repeat step_in H; try discriminate H; injection H as <- <-;
    first [reflexivity | eexists; reflexivity].
Qed.

(** On failure [extractAlgorithmData] leaves the cache entries and the
    animation key as they were. *)
Lemma extractAlgorithmData_frame (tg tg' : TransactionGenerator) (r : result unit) :
  extractAlgorithmData Cos Sin htmlParse fuel tg = Done r tg' ->
  sameCaches tg tg'
  /\ homePageHTML tg' = homePageHTML tg
  /\ onDemandFileHTML tg' = onDemandFileHTML tg
  /\ match r with
     | Err _ => animationKey tg' = animationKey tg
     | Ok _ => True
     end.
Proof.
  unfold extractAlgorithmData. intros H.
  destruct (extractIndices tg) as [r1 t1] eqn:E1.
  destruct (extractIndices_frame _ _ _ E1) as (S1 & _ & A1 & _ & P1 & Q1).
  destruct r1 as [u1 | e1].
  2:{ injection H as <- <-. repeat split; try apply S1; assumption. }
  destruct (extractKey htmlParse t1) as [r2 t2] eqn:E2.
  destruct (extractKey_frame _ _ _ E2) as (S2 & A2 & P2 & Q2 & _).
  pose proof (sameCaches_trans _ _ _ S1 S2) as S12.
  destruct r2 as [u2 | e2].
  2:{ injection H as <- <-. repeat split; try apply S12; congruence. }
  destruct (generateAnimationKey Cos Sin fuel t2) as [r3 t3 |] eqn:E3; [| discriminate H].
  pose proof (generateAnimationKey_frame _ _ _ E3) as F3.
  destruct r3 as [u3 | e3]; injection H as <- <-.
  - destruct F3 as [k ->]. repeat split; try apply S12; simpl; congruence.
  - subst t3. repeat split; try apply S12; congruence.
Qed.

(** A failed [Refresh] leaves the cache entries and the animation key
    as they were; a successful one installs three fresh entries. *)
Lemma Refresh_frame (env : RefreshEnv) (tg tg' : TransactionGenerator) (r : result unit) :
  Refresh Cos Sin htmlParse fuel env tg = Done r tg' ->
  config tg' = config tg
  /\ match r with
     | Err _ => sameCaches tg tg' /\ animationKey tg' = animationKey tg
     | Ok _ => cacheInv tg'
     end.
Proof.
  unfold Refresh, countFailure, updateCachesWithFreshData. intros H.
  destruct (fetchTwitterData (net env) _) as [r1 t1] eqn:E1.
  destruct (fetchTwitterData_frame _ _ _ _ E1) as (S1 & _ & A1 & _).
  simpl in S1, A1.
  destruct r1 as [u1 | e1].
  2:{ injection H as <- <-. unfold sameCaches in *. simpl. tauto. }
  destruct (extractAlgorithmData Cos Sin htmlParse fuel t1) as [r2 t2 |] eqn:E2;
    [| discriminate H].
  destruct (extractAlgorithmData_frame _ _ _ E2) as (S2 & _ & _ & A2).
  pose proof (sameCaches_trans _ _ _ S1 S2) as S12.
  destruct r2 as [u2 | e2]; injection H as <- <-.
  - destruct (freshCaches_inv (nowCaches env) t2) as [I C].
    split.
    + simpl. destruct S12 as [K _]. simpl in K. exact K.
    + exact I.
  - unfold sameCaches in *. simpl. intuition congruence.
Qed.

Lemma initialize_inv (env : RefreshEnv) (tg tg' : TransactionGenerator) :
  initialize Cos Sin htmlParse fuel env tg = Done (Ok tt) tg' ->
  cacheInv tg' /\ config tg' = config tg /\ initialized tg' = true.
Proof.
  unfold initialize. intros H.
  destruct (fetchTwitterData (net env) tg) as [r1 t1] eqn:E1.
  destruct (fetchTwitterData_frame _ _ _ _ E1) as (S1 & _).
  destruct r1 as [u1 | e1]; [| discriminate H].
  destruct (extractAlgorithmData Cos Sin htmlParse fuel t1) as [r2 t2 |] eqn:E2;
    [| discriminate H].
  destruct (extractAlgorithmData_frame _ _ _ E2) as (S2 & _).
  destruct r2 as [u2 | e2]; [| discriminate H].
  injection H as <-.
  destruct (freshCaches_inv (nowCaches env) t2) as [I C].
  assert (K : config t2 = config tg).
  { destruct S1 as [K1 _]. destruct S2 as [K2 _]. congruence. }
  unfold updateGenerationTime. repeat split; step; simpl; try apply I; congruence.
Qed.

Lemma updateGenerationTime_same (d : Z) (tg : TransactionGenerator) :
  sameCaches tg (updateGenerationTime d tg)
  /\ keyBytes (updateGenerationTime d tg) = keyBytes tg
  /\ animationKey (updateGenerationTime d tg) = animationKey tg.
Proof. unfold updateGenerationTime. step; repeat split. Qed.

End RefreshFacts.

(** ** The expiry invariant *)

Section InvariantFacts.

Variable Cos Sin : float -> float.
Variable htmlParse : string -> result Node.
Variable fuel : nat.

Lemma Refresh_inv (env : RefreshEnv) (tg tg' : TransactionGenerator) (r : result unit) :
  cacheInv tg -> Refresh Cos Sin htmlParse fuel env tg = Done r tg' -> cacheInv tg'.
Proof.
  intros I H. destruct (Refresh_frame _ _ _ _ _ _ _ _ H) as [_ F].
  destruct r as [u | e]; [exact F |].
  destruct F as [S _]. exact (sameCaches_inv _ _ S I).
Qed.

Lemma finish_same (tg : TransactionGenerator) (d : Z) :
  sameCaches tg (incrementTotalGenerations (updateGenerationTime d tg)).
Proof.
  destruct (updateGenerationTime_same d tg) as [S _].
  unfold incrementTotalGenerations, sameCaches in *. simpl. exact S.
Qed.

Lemma Generate_inv (method path : string) (env : GenerateEnv)
  (tg tg' : TransactionGenerator) (r : result string) :
  cacheInv tg ->
  Generate Cos Sin htmlParse fuel method path env tg = Some (r, tg') -> cacheInv tg'.
Proof.
  unfold Generate. intros I H.
  destruct (needsRefresh (nowCheck env) tg).
  - destruct (Refresh Cos Sin htmlParse fuel (refreshEnv env) tg) as [r1 t1 |] eqn:E;
      [| discriminate H].
    injection H as _ <-.
    apply (sameCaches_inv _ _ (finish_same t1 (duration env))).
    exact (Refresh_inv _ _ _ _ I E).
  - injection H as _ <-.
    exact (sameCaches_inv _ _ (finish_same tg (duration env)) I).
Qed.

Lemma ForceRefresh_outcome (now1 now2 now3 : Z) (env : RefreshEnv)
  (tg tg' : TransactionGenerator) (r : result unit) :
  ForceRefresh Cos Sin htmlParse fuel now1 now2 now3 env tg = Done r tg' ->
  match r with
  | Ok _ => cacheInv tg'
  | Err _ =>
      htmlDataCache tg' = expireEntry now1 (htmlDataCache tg)
      /\ animationCache tg' = expireEntry now2 (animationCache tg)
      /\ verificationCache tg' = expireEntry now3 (verificationCache tg)
  end.
Proof.
  unfold ForceRefresh. intros H.
  destruct (Refresh_frame _ _ _ _ _ _ _ _ H) as [_ F].
  destruct r as [u | e]; [exact F |].
  destruct F as [(_ & A & B & C & _) _]. simpl in A, B, C. tauto.
Qed.

(** C7, as the code has it. The expiry of each entry is its creation
    time plus a configured lifetime - the HTML lifetime for the HTML and
    the verification entries (the configuration has no lifetime of its
    own for the verification key), the animation lifetime for the
    animation entry - after [initialize], and [Refresh], [Generate] and a
    [ForceRefresh] that succeeds keep it so. A [ForceRefresh] that fails
    leaves every entry with its creation time and an expiry one hour
    before the clock reading taken for it. *)
Theorem cache_expiry_invariant (tg : TransactionGenerator) :
  cacheInv tg ->
  (forall env tg',
      initialize Cos Sin htmlParse fuel env tg = Done (Ok tt) tg' -> cacheInv tg')
  /\ (forall env r tg',
         Refresh Cos Sin htmlParse fuel env tg = Done r tg' -> cacheInv tg')
  /\ (forall method path env r tg',
         Generate Cos Sin htmlParse fuel method path env tg = Some (r, tg') -> cacheInv tg')
  /\ (forall now1 now2 now3 env tg',
         ForceRefresh Cos Sin htmlParse fuel now1 now2 now3 env tg = Done (Ok tt) tg' ->
         cacheInv tg')
  /\ (forall now1 now2 now3 env err tg',
         ForceRefresh Cos Sin htmlParse fuel now1 now2 now3 env tg = Done (Err err) tg' ->
         htmlDataCache tg' = expireEntry now1 (htmlDataCache tg)
         /\ animationCache tg' = expireEntry now2 (animationCache tg)
         /\ verificationCache tg' = expireEntry now3 (verificationCache tg)).
Proof.
  intros I. split; [| split; [| split; [| split]]].
  - intros env tg' H. apply (initialize_inv _ _ _ _ _ _ _ H).
  - intros env r tg' H. exact (Refresh_inv _ _ _ _ I H).
  - intros method path env r tg' H. exact (Generate_inv _ _ _ _ _ _ I H).
  - intros now1 now2 now3 env tg' H. exact (ForceRefresh_outcome _ _ _ _ _ _ _ H).
  - intros now1 now2 now3 env err tg' H. exact (ForceRefresh_outcome _ _ _ _ _ _ _ H).
Qed.

End InvariantFacts.

Lemma readyGenerator_inv : cacheInv readyGenerator.
Proof. unfold cacheInv. simpl. repeat split. Qed.

(** The invariant after [initialize] on a fresh generator. *)
Lemma initialize_establishes_invariant
  (Cos Sin : float -> float) (htmlParse : string -> result Node) (fuel : nat)
  (cfg : ProductionConfig) (env : RefreshEnv) (tg : TransactionGenerator) :
  NewTransactionGeneratorWithConfig Cos Sin htmlParse fuel cfg env = Some (Ok tg) ->
  cacheInv tg /\ config tg = cfg /\ initialized tg = true.
Proof.
  unfold NewTransactionGeneratorWithConfig. intros H.
  destruct (initialize Cos Sin htmlParse fuel env (newGenerator cfg)) as [r t |] eqn:E;
    [| discriminate H].
  destruct r as [[] | e]; [| discriminate H]. injection H as <-.
  exact (initialize_inv _ _ _ _ _ _ _ E).
Qed.

(** The theorem at the ready generator, refreshed while the network is
    down. *)
Lemma cache_expiry_invariant_witness :
  cacheInv readyGenerator
  /\ forall r tg',
      Refresh (fun x => x) (fun x => x) noDocument 0
        (mkRefreshEnv offline (7 * Hour) (7 * Hour) 0) readyGenerator = Done r tg' ->
      cacheInv tg'.
Proof.
  split; [exact readyGenerator_inv |].
  intros r tg'.
  apply (proj1 (proj2 (cache_expiry_invariant (fun x => x) (fun x => x) noDocument 0
                         readyGenerator readyGenerator_inv))).
Defined.

(** C7 fails as stated: a [ForceRefresh] at 10h while the network is
    down leaves the HTML entry created at 0 with an expiry at 9h, which is
    not its creation time plus the lifetime of 6h. *)
Lemma ForceRefresh_breaks_invariant :
  ~ (forall (Cos Sin : float -> float) (htmlParse : string -> result Node) (fuel : nat)
            (now1 now2 now3 : Z) (env : RefreshEnv) (tg tg' : TransactionGenerator)
            (r : result unit),
        cacheInv tg ->
        ForceRefresh Cos Sin htmlParse fuel now1 now2 now3 env tg = Done r tg' ->
        cacheInv tg').
Proof.
  intros H.
  pose (env := mkRefreshEnv offline (10 * Hour) (10 * Hour) 0).
  destruct (ForceRefresh (fun x => x) (fun x => x) noDocument 0
              (10 * Hour) (10 * Hour) (10 * Hour) env readyGenerator) as [r tg' |] eqn:E;
    [| vm_compute in E; discriminate E].
  specialize (H _ _ _ _ _ _ _ _ _ _ _ readyGenerator_inv E).
  vm_compute in E. injection E as <- <-.
  destruct H as [H _]. vm_compute in H. discriminate H.
Qed.

(** ** Base64: decoding what was encoded *)

Module Base64Facts.

Import Base64.

(** Lists three elements at a time. *)
Lemma list_ind3 (A : Type) (P : list A -> Prop) :
  P [] -> (forall a, P [a]) -> (forall a b, P [a; b]) ->
  (forall a b c l, P l -> P (a :: b :: c :: l)) ->
  forall l, P l.
Proof.
  intros H0 H1 H2 H3 l.
  assert (K : P l /\ (forall a, P (a :: l)) /\ (forall a b, P (a :: b :: l))).
  { induction l as [| x l IH].
    - repeat split; intros; [apply H0 | apply H1 | apply H2].
    - destruct IH as (I0 & I1 & I2). repeat split; intros.
      + apply I1.
      + apply I2.
      + apply H3. exact I0. }
  exact (proj1 K).
Qed.

Lemma sextet_in (d : Z) : 0 <= d < 64 -> In d sextets.
Proof.
  intros H. unfold sextets. rewrite <- (Z2Nat.id d) by lia.
  apply in_map. apply in_seq. lia.
Qed.

Lemma sextets_ok : forallb sextetOk sextets = true.
Proof. vm_compute. reflexivity. Qed.

(** Every character of the alphabet decodes to its index, and is
    neither the padding character nor a line break. *)
Lemma encodeChar_facts (d : Z) :
  0 <= d < 64 ->
  decodeChar (encodeChar d) = Some d
  /\ isPad (encodeChar d) = false
  /\ isNewline (encodeChar d) = false.
Proof.
  intros H.
  pose proof (proj1 (forallb_forall sextetOk sextets) sextets_ok d (sextet_in d H)) as K.
  unfold sextetOk in K.
  apply andb_prop in K. destruct K as [K K3].
  apply andb_prop in K. destruct K as [K1 K2].
  destruct (decodeChar (encodeChar d)) as [d' |]; [| discriminate K1].
  apply Z.eqb_eq in K1. subst d'.
  apply negb_true_iff in K2. apply negb_true_iff in K3. auto.
Qed.

Lemma sextet_range (v : Z) : 0 <= v mod 64 < 64.
Proof. apply Z.mod_pos_bound. lia. Qed.

Lemma quantum3 (b0 b1 b2 : Z) :
  is_byte b0 -> is_byte b1 -> is_byte b2 ->
  let val := b0 * 65536 + b1 * 256 + b2 in
  let v := (val / 262144 mod 64) * 262144 + (val / 4096 mod 64) * 4096
           + (val / 64 mod 64) * 64 + val mod 64 in
  v / 65536 mod 256 = b0 /\ v / 256 mod 256 = b1 /\ v mod 256 = b2.
Proof.
  intros H0 H1 H2 val v. unfold is_byte in *.
  assert (E : v = val) by (subst v val; Z.div_mod_to_equations; lia).
  rewrite E. subst val. repeat split; Z.div_mod_to_equations; lia.
Qed.

Lemma quantum2 (b0 b1 : Z) :
  is_byte b0 -> is_byte b1 ->
  let val := b0 * 65536 + b1 * 256 in
  let v := (val / 262144 mod 64) * 262144 + (val / 4096 mod 64) * 4096
           + (val / 64 mod 64) * 64 in
  v / 65536 mod 256 = b0 /\ v / 256 mod 256 = b1.
Proof.
  intros H0 H1 val v. unfold is_byte in *.
  assert (E : v = val) by (subst v val; Z.div_mod_to_equations; lia).
  rewrite E. subst val. repeat split; Z.div_mod_to_equations; lia.
Qed.

Lemma quantum1 (b0 : Z) :
  is_byte b0 ->
  let val := b0 * 65536 in
  ((val / 262144 mod 64) * 262144 + (val / 4096 mod 64) * 4096) / 65536 mod 256 = b0.
Proof.
  intros H0 val. unfold is_byte in *. subst val. Z.div_mod_to_equations. lia.
Qed.

Ltac use_alphabet :=
  repeat match goal with
    | |- context [decodeChar (encodeChar (?v mod 64))] =>
        rewrite (proj1 (encodeChar_facts (v mod 64) (sextet_range v)))
    | |- context [isPad (encodeChar (?v mod 64))] =>
        rewrite (proj1 (proj2 (encodeChar_facts (v mod 64) (sextet_range v))))
    | |- context [isNewline (encodeChar (?v mod 64))] =>
        rewrite (proj2 (proj2 (encodeChar_facts (v mod 64) (sextet_range v))))
    end.

Lemma isPad_padChar : isPad padChar = true.
Proof. reflexivity. Qed.

(** The quanta of an encoding decode to the bytes that were encoded. *)
Lemma decodeQuanta_encode (bs : list Z) :
  Forall is_byte bs -> decodeQuanta (EncodeToString bs) = Some bs.
Proof.
  induction bs as [| a | a b | a b c l IH] using list_ind3; intros F.
  - reflexivity.
  - inversion F as [| ? ? Ha _]; subst.
    cbn [EncodeToString decodeQuanta]. use_alphabet. rewrite isPad_padChar.
    rewrite (quantum1 a Ha). reflexivity.
  - inversion F as [| ? ? Ha F1]; subst. inversion F1 as [| ? ? Hb _]; subst.
    cbn [EncodeToString decodeQuanta]. use_alphabet. rewrite isPad_padChar.
    destruct (quantum2 a b Ha Hb) as [E1 E2]. cbv zeta in E1, E2.
    rewrite E1, E2. reflexivity.
  - inversion F as [| ? ? Ha F1]; subst. inversion F1 as [| ? ? Hb F2]; subst.
    inversion F2 as [| ? ? Hc F3]; subst.
    cbn [EncodeToString decodeQuanta]. use_alphabet.
    rewrite (IH F3).
    destruct (quantum3 a b c Ha Hb Hc) as (E1 & E2 & E3). cbv zeta in E1, E2, E3.
    rewrite E1, E2, E3. reflexivity.
Qed.

(** An encoding has no line break to skip. *)
Lemma encode_no_newline (bs : list Z) :
  filterString (fun c => negb (isNewline c)) (EncodeToString bs) = EncodeToString bs.
Proof.
  induction bs as [| a | a b | a b c l IH] using list_ind3;
    cbn [EncodeToString filterString]; use_alphabet; cbn [negb];
    try rewrite IH; reflexivity.
Qed.

Theorem DecodeString_EncodeToString (bs : list Z) :
  Forall is_byte bs -> DecodeString (EncodeToString bs) = Some bs.
Proof.
  intros F. unfold DecodeString. rewrite encode_no_newline.
  exact (decodeQuanta_encode bs F).
Qed.

Lemma trim_nonpad (c : ascii) (s : string) :
  isPad c = false -> trimBase64Padding (String c s) = String c (trimBase64Padding s).
Proof.
  intros H. cbn [trimBase64Padding]. rewrite H.
  destruct (trimBase64Padding s); reflexivity.
Qed.

Lemma repad_four (c0 c1 c2 c3 : ascii) (s : string) :
  repad (String c0 (String c1 (String c2 (String c3 s))))
  = String c0 (String c1 (String c2 (String c3 (repad s)))).
Proof.
  unfold repad. cbn [String.length String.append].
  replace (S (S (S (S (String.length s)))) mod 4)%nat with (String.length s mod 4)%nat.
  - reflexivity.
  - change (S (S (S (S (String.length s))))) with (4 + String.length s)%nat.
    rewrite Nat.add_comm.
    rewrite <- (Nat.Div0.add_mod_idemp_r (String.length s) 4 4).
    rewrite Nat.Div0.mod_same. rewrite Nat.add_0_r. reflexivity.
Qed.

(** Stripping the padding of an encoding and padding it again to a
    multiple of four gives the encoding back. *)
Lemma repad_trim_encode (bs : list Z) :
  repad (trimBase64Padding (EncodeToString bs)) = EncodeToString bs.
Proof.
  induction bs as [| a | a b | a b c l IH] using list_ind3.
  - reflexivity.
  - cbn [EncodeToString].
    rewrite !trim_nonpad
      by apply (proj1 (proj2 (encodeChar_facts _ (sextet_range _)))).
    reflexivity.
  - cbn [EncodeToString].
    rewrite !trim_nonpad
      by apply (proj1 (proj2 (encodeChar_facts _ (sextet_range _)))).
    reflexivity.
  - cbn [EncodeToString].
    rewrite !trim_nonpad
      by apply (proj1 (proj2 (encodeChar_facts _ (sextet_range _)))).
    rewrite repad_four. rewrite IH. reflexivity.
Qed.

End Base64Facts.

(** ** The transaction ID *)

Lemma byte_of_range (z : Z) : is_byte (byte_of z).
Proof. unfold is_byte, byte_of. apply Z.mod_pos_bound. lia. Qed.

Lemma byte_of_byte (z : Z) : is_byte z -> byte_of z = z.
Proof. unfold is_byte, byte_of. intros H. apply Z.mod_small. exact H. Qed.

Lemma map_byte_of_bytes (bs : list Z) : Forall is_byte bs -> map byte_of bs = bs.
Proof.
  induction 1 as [| b bs Hb _ IH]; [reflexivity |].
  cbn [map]. rewrite IH, (byte_of_byte b Hb). reflexivity.
Qed.

Lemma Forall_map_byte_of (bs : list Z) : Forall is_byte (map byte_of bs).
Proof. induction bs; constructor; [apply byte_of_range | assumption]. Qed.

(** The exclusive or of two bytes is a byte, and masking twice with the
    same byte gives the byte back. *)
Lemma lxor_byte (a b : Z) : is_byte a -> is_byte b -> is_byte (Z.lxor a b).
Proof.
  unfold is_byte. intros Ha Hb.
  assert (N : 0 <= Z.lxor a b) by (apply Z.lxor_nonneg; lia).
  split; [exact N |].
  destruct (Z.eq_dec (Z.lxor a b) 0) as [E | E]; [lia |].
  apply (Z.log2_lt_pow2 _ 8); [lia |].
  pose proof (Z.log2_lxor a b ltac:(lia) ltac:(lia)) as L.
  assert (La : Z.log2 a < 8).
  { destruct (Z.eq_dec a 0) as [-> | Na]; [reflexivity | apply Z.log2_lt_pow2; lia]. }
  assert (Lb : Z.log2 b < 8).
  { destruct (Z.eq_dec b 0) as [-> | Nb]; [reflexivity | apply Z.log2_lt_pow2; lia]. }
  lia.
Qed.

Lemma lxor_twice (b r : Z) : Z.lxor (Z.lxor b r) r = b.
Proof. rewrite Z.lxor_assoc, Z.lxor_nilpotent, Z.lxor_0_r. reflexivity. Qed.

Lemma unmask (r : Z) (bs : list Z) :
  map (fun b => Z.lxor b r) (map (fun b => Z.lxor b r) bs) = bs.
Proof.
  induction bs as [| b bs IH]; [reflexivity |].
  cbn [map]. rewrite lxor_twice, IH. reflexivity.
Qed.

Lemma Forall_mask (r : Z) (bs : list Z) :
  is_byte r -> Forall is_byte bs -> Forall is_byte (map (fun b => Z.lxor b r) bs).
Proof.
  intros Hr. induction 1 as [| b bs Hb _ IH]; constructor.
  - apply lxor_byte; assumption.
  - exact IH.
Qed.

Lemma bigEndian_facts (n : nat) (v : Z) :
  List.length (Sha256.bigEndian n v) = n /\ Forall is_byte (Sha256.bigEndian n v).
Proof.
  unfold Sha256.bigEndian. split.
  - rewrite length_map, length_rev, length_seq. reflexivity.
  - apply Forall_forall. intros x Hx. apply in_map_iff in Hx.
    destruct Hx as [i [<- _]]. apply Z.mod_pos_bound. lia.
Qed.

(** A digest is 32 bytes. *)
Lemma Sum256_facts (msg : list Z) :
  List.length (Sha256.Sum256 msg) = 32%nat /\ Forall is_byte (Sha256.Sum256 msg).
Proof.
  unfold Sha256.Sum256. split.
  - rewrite !length_app. rewrite !(proj1 (bigEndian_facts 4 _)). reflexivity.
  - repeat (apply Forall_app; split); apply bigEndian_facts.
Qed.

Lemma Forall_firstn (A : Type) (P : A -> Prop) (n : nat) (l : list A) :
  Forall P l -> Forall P (firstn n l).
Proof.
  intros F. revert n. induction F as [| x l Hx _ IH]; intros [| n]; cbn [firstn];
    constructor; [exact Hx | apply IH].
Qed.

Lemma timeBytes_bytes (t : Z) : Forall is_byte (timeBytes t).
Proof. unfold timeBytes. repeat constructor; apply byte_of_range. Qed.

(** The four time bytes are the low 32 bits, least significant byte
    first. *)
Lemma timeBytes_little_endian (t : Z) :
  match timeBytes t with
  | [b0; b1; b2; b3] => b0 + 256 * b1 + 65536 * b2 + 16777216 * b3 = t mod 2 ^ 32
  | _ => False
  end.
Proof.
  unfold timeBytes, byte_of. cbn [map].
  change 255 with (Z.ones 8).
  rewrite !Z.land_ones by lia. rewrite !Z.shiftr_div_pow2 by lia.
  rewrite !Z.mod_mod by lia.
  change (2 ^ (0 * 8)) with 1. change (2 ^ (1 * 8)) with 256.
  change (2 ^ (2 * 8)) with 65536. change (2 ^ (3 * 8)) with 16777216.
  change (2 ^ 8) with 256. change (2 ^ 32) with 4294967296.
  Z.div_mod_to_equations. lia.
Qed.

Lemma payload_bytes (method path : string) (t : Z) (tg : TransactionGenerator) :
  Forall is_byte (payload method path t tg)
  /\ List.length (payload method path t tg)
     = (List.length (keyBytes tg) + 4 + 16 + 1)%nat.
Proof.
  unfold payload. split.
  - repeat (apply Forall_app; split).
    + apply Forall_map_byte_of.
    + apply timeBytes_bytes.
    + apply Forall_firstn. apply Sum256_facts.
    + repeat constructor. apply byte_of_range.
  - rewrite !length_app, length_map, length_firstn.
    rewrite (proj1 (Sum256_facts _)). cbn. lia.
Qed.

(** C1. For every method and path, every sequence of key bytes and
    every random mask byte [r], the transaction ID, once padded again
    with '=' and decoded, is a byte string of length
    [1 + len(key_bytes) + 4 + 16 + 1] whose first byte is [r]; masking
    its other bytes with the first gives the key bytes, then the four
    little-endian bytes of the time (the low 32 bits of the seconds since
    the epoch of the algorithm), then the first 16 bytes of the SHA-256
    digest of the hashed string, then the byte 3. *)
Theorem transaction_id_decodes
  (method path : string) (now r : Z) (tg : TransactionGenerator) :
  is_byte r -> Forall is_byte (keyBytes tg) ->
  let timeNow := timeNowOf now in
  let digest :=
    Sha256.Sum256 (bytesOf (hashString method path timeNow (animationKey tg))) in
  exists (id : string) (decoded : list Z),
    generateUniqueTransactionID method path now (Ok r) tg = Ok id
    /\ Base64.DecodeString (repad id) = Some decoded
    /\ List.length decoded = (1 + List.length (keyBytes tg) + 4 + 16 + 1)%nat
    /\ nth 0 decoded 0 = r
    /\ map (fun b => Z.lxor b (nth 0 decoded 0)) (tl decoded)
       = keyBytes tg ++ timeBytes timeNow ++ firstn 16 digest ++ [3]
    /\ (exists b0 b1 b2 b3,
          timeBytes timeNow = [b0; b1; b2; b3]
          /\ b0 + 256 * b1 + 65536 * b2 + 16777216 * b3 = timeNow mod 2 ^ 32)
    /\ List.length (firstn 16 digest) = 16%nat.
Proof.
  intros Hr Hk timeNow digest.
  destruct (payload_bytes method path timeNow tg) as [PB PL].
  set (masked := r :: map (fun b => Z.lxor b r) (payload method path timeNow tg)).
  exists (trimBase64Padding (Base64.EncodeToString masked)), masked.
  split; [reflexivity |].
  split.
  { rewrite Base64Facts.repad_trim_encode.
    apply Base64Facts.DecodeString_EncodeToString.
    constructor; [exact Hr | apply Forall_mask; assumption]. }
  split.
  { unfold masked. cbn [List.length]. rewrite length_map, PL. lia. }
  split; [reflexivity |].
  split.
  { unfold masked. cbn [nth tl]. rewrite unmask. unfold payload.
    rewrite (map_byte_of_bytes _ Hk). reflexivity. }
  split.
  { pose proof (timeBytes_little_endian timeNow) as LE.
    destruct (timeBytes timeNow) as [| b0 [| b1 [| b2 [| b3 [| b4 rest]]]]];
      try contradiction.
    exists b0, b1, b2, b3. split; [reflexivity | exact LE]. }
  rewrite length_firstn. subst digest. rewrite (proj1 (Sum256_facts _)). reflexivity.
Qed.

(** The theorem for the ready generator, one hour after the epoch of the
    algorithm, with the mask byte 90. *)
Lemma transaction_id_decodes_witness :
  is_byte 90 /\ Forall is_byte (keyBytes readyGenerator)
  /\ exists (id : string) (decoded : list Z),
      generateUniqueTransactionID "GET" "/graphql/foo/Bar"
        ((TwitterEpoch + 3600) * Second) (Ok 90) readyGenerator = Ok id
      /\ Base64.DecodeString (repad id) = Some decoded
      /\ List.length decoded = 28%nat.
Proof.
  assert (Hr : is_byte 90) by (unfold is_byte; lia).
  assert (Hk : Forall is_byte (keyBytes readyGenerator)).
  { cbn. repeat constructor; unfold is_byte; lia. }
  split; [exact Hr |]. split; [exact Hk |].
  destruct (transaction_id_decodes "GET" "/graphql/foo/Bar"
              ((TwitterEpoch + 3600) * Second) 90 readyGenerator Hr Hk)
    as (id & decoded & E1 & E2 & E3 & _).
  exists id, decoded. repeat split; assumption.
Defined.

(** The ID of [GET /graphql/foo/Bar] one hour after the epoch, mask 90. *)
Example transaction_id_example :
  generateUniqueTransactionID "GET" "/graphql/foo/Bar"
    ((TwitterEpoch + 3600) * Second) (Ok 90) readyGenerator
  = Ok "Wl1KU1BRVkpUWloVlfwCSCip8I+DLZ8HFnmMWQ"%string.
Proof. vm_compute. reflexivity. Qed.

(** ** A generator is built *)

Section FirstRefresh.

Variable Cos Sin : float -> float.
Variable fuel : nat.

(** What the math library gives at zero. *)
Hypothesis Cos_zero : Cos 0%float = 1%float.
Hypothesis Sin_zero : Sin 0%float = 0%float.

(** A closed term is replaced by its value. *)
Ltac run_closed t :=
  let v := eval vm_compute in t in
  replace t with v by (vm_compute; reflexivity).

Lemma convertRotationToMatrix_zero :
  convertRotationToMatrix Cos Sin 0 = [1; 0; -0; 1]%float.
Proof.
  unfold convertRotationToMatrix.
  change (0 * GoMath.Pi / 180)%float with 0%float.
  rewrite Cos_zero, Sin_zero. reflexivity.
Qed.

(** The curve of the first page at target time 0: the colours stay the
    start colours 10, 20, 30 and the rotation is 0. *)
Lemma animate_first_curve :
  animate Cos Sin fuel [10; 20; 30; 40; 50; 60; 128; 64; 64; 128; 128] 0%float
  = Some "a141e100100"%string.
Proof.
  unfold animate.
  match goal with
  | |- context [evaluateCubicBezier fuel ?cv ?t] => run_closed (evaluateCubicBezier fuel cv t)
  end.
  cbv beta iota.
  match goal with
  | |- context [interpolate ?a ?b ?c] => run_closed (interpolate a b c)
  end.
  match goal with
  | |- context [rotationAt ?a ?b] => run_closed (rotationAt a b)
  end.
  cbv beta iota. cbn [nth]. rewrite convertRotationToMatrix_zero. vm_compute. reflexivity.
Qed.

Lemma extractAnimationFrames_first (tg : TransactionGenerator) :
  homePageHTML tg = firstPage ->
  keyBytes tg = [7; 16; 9; 10; 11; 12] ->
  extractAnimationFrames tg = Ok [[10; 20; 30; 40; 50; 60; 128; 64; 64; 128; 128]].
Proof.
  intros Hp Hk. unfold extractAnimationFrames. rewrite Hp, Hk.
  vm_compute. reflexivity.
Qed.

Lemma generateAnimationKey_first (tg : TransactionGenerator) :
  homePageHTML tg = firstPage ->
  keyBytes tg = [7; 16; 9; 10; 11; 12] ->
  rowIndex tg = 4 -> keyBytesIndices tg = [1; 2] ->
  generateAnimationKey Cos Sin fuel tg = Done (Ok tt) (set_animationKey "a141e100100" tg).
Proof.
  intros Hp Hk Hr Hi. unfold generateAnimationKey.
  rewrite (extractAnimationFrames_first tg Hp Hk), Hk, Hr, Hi.
  cbv beta iota zeta.
  match goal with
  | |- context [animate Cos Sin fuel ?r ?t] =>
      let r' := eval vm_compute in r in
      let t' := eval vm_compute in t in
      replace r with r' by (vm_compute; reflexivity);
      replace t with t' by (vm_compute; reflexivity)
  end.
  rewrite animate_first_curve. reflexivity.
Qed.

(** The generator [NewTransactionGeneratorWithConfig] returns at time 0
    when the network serves the first page: the ready generator. *)
Lemma initialize_example :
  NewTransactionGeneratorWithConfig Cos Sin parsePage fuel DefaultProductionConfig firstEnv
  = Some (Ok readyGenerator).
Proof.
  unfold NewTransactionGeneratorWithConfig, initialize.
  match goal with
  | |- context [fetchTwitterData ?n ?t] => run_closed (fetchTwitterData n t)
  end.
  cbv beta iota. unfold extractAlgorithmData.
  match goal with
  | |- context [extractIndices ?t] => run_closed (extractIndices t)
  end.
  cbv beta iota.
  match goal with
  | |- context [extractKey ?p ?t] => run_closed (extractKey p t)
  end.
  cbv beta iota.
  rewrite generateAnimationKey_first by reflexivity.
  vm_compute. reflexivity.
Qed.

End FirstRefresh.

(** ** A refresh that fails half-way *)

Section HalfWay.

Variable Cos Sin : float -> float.
Variable htmlParse : string -> result Node.
Variable fuel : nat.

(** A failed [Refresh] keeps the animation key and the three cache
    entries; nothing else of the signing material is protected. *)
Lemma Refresh_failure_keeps (env : RefreshEnv) (tg tg' : TransactionGenerator) (err : error) :
  Refresh Cos Sin htmlParse fuel env tg = Done (Err err) tg' ->
  animationKey tg' = animationKey tg
  /\ htmlDataCache tg' = htmlDataCache tg
  /\ animationCache tg' = animationCache tg
  /\ verificationCache tg' = verificationCache tg.
Proof.
  intros H. destruct (Refresh_frame _ _ _ _ _ _ _ _ H) as [_ [S A]].
  destruct S as (_ & S1 & S2 & S3 & _). auto.
Qed.

(** [Generate] fails only when the random byte cannot be read. *)
Lemma Generate_error_only_from_rand (method path : string) (env : GenerateEnv)
  (tg tg' : TransactionGenerator) (err : error) :
  Generate Cos Sin htmlParse fuel method path env tg = Some (Err err, tg') ->
  exists cause, randomByte env = Err cause
                /\ err = ErrWrap "failed to generate random number: " cause.
Proof.
  unfold Generate, generateUniqueTransactionID. intros H.
  destruct (randomByte env) as [r | cause].
  - repeat step_in H; try discriminate H; injection H as H _; discriminate H.
  - exists cause. split; [reflexivity |].
    repeat step_in H; try discriminate H; injection H as H _; congruence.
Qed.

(** When the refresh [Generate] triggers fails, the error is dropped and
    the ID is built from the fields the failed refresh left. *)
Lemma Generate_drops_refresh_error (method path : string) (env : GenerateEnv)
  (tg tg1 : TransactionGenerator) (err : error) (r : Z) :
  needsRefresh (nowCheck env) tg = true ->
  Refresh Cos Sin htmlParse fuel (refreshEnv env) tg = Done (Err err) tg1 ->
  randomByte env = Ok r ->
  exists tg',
    Generate Cos Sin htmlParse fuel method path env tg
    = Some (generateUniqueTransactionID method path (nowID env) (Ok r) tg1, tg')
    /\ keyBytes tg' = keyBytes tg1
    /\ animationKey tg' = animationKey tg1
    /\ animationKey tg1 = animationKey tg.
Proof.
  intros N R E. unfold Generate. rewrite N, R, E.
  eexists. split; [reflexivity |].
  destruct (updateGenerationTime_same (duration env) tg1) as (_ & K & A).
  unfold incrementTotalGenerations. cbn [keyBytes animationKey set_metrics].
  repeat split; try assumption.
  exact (proj1 (Refresh_failure_keeps _ _ _ _ R)).
Qed.

(** C2 at a failing input. The home page is served with a new key and
    without the animation frame: [Refresh] fails in the frame
    extraction, and by then the pages, the key, the key bytes and the
    indices of the generator are the new ones, beside the old animation
    key. *)
Theorem failed_refresh_overwrites_material :
  Refresh Cos Sin parsePage fuel halfWayEnv readyGenerator
  = Done (Err (ErrWrap "failed to extract algorithm data: "
                 (ErrWrap "failed to generate animation key: "
                    (ErrWrap "failed to extract animation frames: "
                       (ErrMsg "EXTRACTION FAILED: frame loading-x-anim-2 not found in HTML - no fallback")))))
         afterHalfWayRefresh
  /\ homePageHTML afterHalfWayRefresh <> homePageHTML readyGenerator
  /\ onDemandFileHTML afterHalfWayRefresh <> onDemandFileHTML readyGenerator
  /\ key afterHalfWayRefresh <> key readyGenerator
  /\ keyBytes afterHalfWayRefresh <> keyBytes readyGenerator
  /\ rowIndex afterHalfWayRefresh <> rowIndex readyGenerator
  /\ keyBytesIndices afterHalfWayRefresh <> keyBytesIndices readyGenerator
  /\ animationKey afterHalfWayRefresh = animationKey readyGenerator.
Proof.
  split; [vm_compute; reflexivity |].
  repeat split; intros H; vm_compute in H; discriminate H.
Qed.

End HalfWay.

(** C10 at a failing input. The caches of the ready generator are
    expired, the refresh [Generate] triggers fails in the frame
    extraction and its error is dropped; the ID that is returned is built
    from the key bytes 1..6 of the new page, not from the key bytes
    7, 16, 9, 10, 11, 12 cached before (which would give the ID of
    [transaction_id_example]), together with the old animation key. *)
Theorem generate_after_failed_refresh (Cos Sin : float -> float) (fuel : nat) :
  needsRefresh (nowCheck halfWayGenerate) readyGenerator = true
  /\ (exists err,
         Refresh Cos Sin parsePage fuel (refreshEnv halfWayGenerate) readyGenerator
         = Done (Err err) afterHalfWayRefresh)
  /\ (exists tg',
         Generate Cos Sin parsePage fuel "GET" "/graphql/foo/Bar" halfWayGenerate
           readyGenerator
         = Some (Ok "WltYWV5fXEpUWloVlfwCSCip8I+DLZ8HFnmMWQ"%string, tg')
         /\ keyBytes tg' = [1; 2; 3; 4; 5; 6]
         /\ animationKey tg' = animationKey readyGenerator)
  /\ generateUniqueTransactionID "GET" "/graphql/foo/Bar" (nowID halfWayGenerate)
       (randomByte halfWayGenerate) readyGenerator
     = Ok "Wl1KU1BRVkpUWloVlfwCSCip8I+DLZ8HFnmMWQ"%string.
Proof.
  split; [vm_compute; reflexivity |].
  split; [eexists; vm_compute; reflexivity |].
  split; [| vm_compute; reflexivity].
  eexists. split; [vm_compute; reflexivity |].
  split; vm_compute; reflexivity.
Qed.

(** ** The XPFF header *)

Section XPFFFacts.

Variable jsonString : string -> string.
Variable gcmSeal : list Z -> list Z -> list Z -> list Z.

Lemma hexEncode_app (a b : list Z) :
  hexEncode (a ++ b) = (hexEncode a ++ hexEncode b)%string.
Proof.
  induction a as [| x a IH]; [reflexivity |].
  cbn [app hexEncode String.append]. rewrite IH. reflexivity.
Qed.

Lemma hexEncode_length (a : list Z) :
  String.length (hexEncode a) = (2 * List.length a)%nat.
Proof.
  induction a as [| x a IH]; [reflexivity |].
  cbn [hexEncode String.length List.length]. rewrite IH. lia.
Qed.

Lemma hexDigit_lower (d : Z) : 0 <= d < 16 -> isLowerHex (hexDigit d) = true.
Proof.
  intros H.
  assert (K : forallb (fun d => isLowerHex (hexDigit d)) nibbles = true)
    by (vm_compute; reflexivity).
  apply (proj1 (forallb_forall _ nibbles) K).
  unfold nibbles. rewrite <- (Z2Nat.id d) by lia. apply in_map, in_seq. lia.
Qed.

Lemma hexEncode_lower (a : list Z) : allChars isLowerHex (hexEncode a) = true.
Proof.
  induction a as [| x a IH]; [reflexivity |].
  cbn [hexEncode allChars]. rewrite IH.
  rewrite !hexDigit_lower; [reflexivity | |].
  - apply Z.mod_pos_bound. lia.
  - unfold byte_of. pose proof (Z.mod_pos_bound x 256 ltac:(lia)).
    Z.div_mod_to_equations. lia.
Qed.

(** C9. For every guest id and user agent, when the nonce is read:
    [GenerateXPFF] returns the lower-case hex encoding of the nonce
    followed by the sealed payload (ciphertext and tag), where the AES
    key is the SHA-256 digest of the base-key literal followed by the
    guest id (so 32 bytes, an AES-256 key), and the plaintext is the
    compact JSON of the navigator properties; the 12-byte nonce fills the
    first 24 characters, which are all '0' when the nonce is zero. *)
Theorem GenerateXPFF_layout
  (guestID userAgent : string) (nowMilli : Z) (nonce : list Z) :
  List.length nonce = NonceSize ->
  let key :=
    Sha256.Sum256
      (bytesOf ("0e6be1f1e21ffc33590b888fd4dc81b19713e570e805d4e5df80a493c9571a05"
                  ++ guestID)) in
  let plaintext :=
    bytesOf (dq "{`navigator_properties`:{`hasBeenActive`:`true`,`userAgent`:"
               ++ jsonString userAgent
               ++ dq ",`webdriver`:`false`},`created_at`:" ++ itoa nowMilli ++ "}") in
  let sealed := gcmSeal key nonce plaintext in
  let out := (hexEncode nonce ++ hexEncode sealed)%string in
  GenerateXPFF jsonString gcmSeal NewXPFFGenerator guestID userAgent nowMilli (Ok nonce)
  = Ok out
  /\ out = hexEncode (nonce ++ sealed)
  /\ List.length key = 32%nat
  /\ String.length (hexEncode nonce) = 24%nat
  /\ allChars isLowerHex out = true
  /\ (nonce = repeat 0 12 ->
      Regexp.takeString 24 out = "000000000000000000000000"%string).
Proof.
  intros Hn key plaintext sealed out.
  assert (Hk : List.length key = 32%nat) by apply Sum256_facts.
  split.
  { unfold GenerateXPFF, generateEncryptionKey, encryptAESGCM, NewXPFFGenerator.
    cbn [baseKey]. fold key. rewrite Hk. cbn [Nat.eqb negb orb].
    unfold marshalPayload. fold plaintext. fold sealed.
    rewrite hexEncode_app. reflexivity. }
  split; [subst out; rewrite hexEncode_app; reflexivity |].
  split; [exact Hk |].
  split; [rewrite hexEncode_length, Hn; reflexivity |].
  split; [subst out; rewrite <- hexEncode_app; apply hexEncode_lower |].
  intros ->. subst out. reflexivity.
Qed.

End XPFFFacts.

(** The theorem for the guest id and user agent of the specification's
    scenario and the nonce of 12 zero bytes, with the plain quoting and a
    stand-in for the cipher. *)
Lemma GenerateXPFF_layout_witness :
  List.length (repeat 0 12) = NonceSize
  /\ exists out,
      GenerateXPFF quotePlain (fun _ _ plaintext => plaintext) NewXPFFGenerator
        "v1%3A1700000000000" "UA/1.0" 1700000000000 (Ok (repeat 0 12)) = Ok out
      /\ Regexp.takeString 24 out = "000000000000000000000000"%string.
Proof.
  split; [reflexivity |].
  destruct (GenerateXPFF_layout quotePlain (fun _ _ plaintext => plaintext)
              "v1%3A1700000000000" "UA/1.0" 1700000000000 (repeat 0 12)
              (eq_refl NonceSize)) as (E & _ & _ & _ & _ & Z0).
  eexists. split; [exact E | exact (Z0 eq_refl)].
Defined.

(** ** The retry loop *)

Section DriverFacts.

Variables (W User : Type).
Variable operation : W -> result User * W.
Variable ctxErr : W -> option error.
Variable wait : Z -> W -> waitOutcome * W.
Variable forceRefresh : W -> W.
Variable Pow : float -> float -> float.

Let loop := attempts W User operation ctxErr wait forceRefresh Pow.
Let world := attemptWorld W User operation wait forceRefresh Pow.

(** The first [n + 1] values of [f], from the first one and the others. *)
Lemma seq_snoc_map (A : Type) (f : nat -> A) (n : nat) :
  f 0%nat :: map (fun i => f (S i)) (seq 0 n) = map f (seq 0 (S n)).
Proof.
  change (seq 0 (S n)) with (0%nat :: seq 1 n). cbn [map]. f_equal.
  rewrite <- seq_shift, map_map. reflexivity.
Qed.

(** One turn of the loop. *)
Lemma attempts_step (maxAttempts : Z) (left : nat) (attempt : Z) (lastError : option error)
  (c : Client) (w : W) (trace : list (result User)) :
  loop (S left) attempt maxAttempts lastError c w trace
  = let '(r, w1) := operation w in
    match r with
    | Ok result => mkRun W User (Ok result) (recordSuccess c) w1 (trace ++ [r])
    | Err err =>
        if (maxAttempts <=? attempt)
           || match ctxErr w1 with Some _ => true | None => false end
        then mkRun W User (Err (exhausted maxAttempts (Some err))) (recordError c) w1
               (trace ++ [r])
        else
          match wait (backoffDuration Pow (recordError c) attempt) w1 with
          | (TimerFired, w2) =>
              loop left (attempt + 1) maxAttempts (Some err) (recordError c)
                (if shouldRefreshDueToErrors (recordError c) then forceRefresh w2 else w2)
                (trace ++ [r])
          | (ContextDone e, w2) => mkRun W User (Err e) (recordError c) w2 (trace ++ [r])
          end
    end.
Proof. unfold loop. cbn [attempts]. destruct (operation w) as [[res | err] w1]; reflexivity. Qed.

(** The loop, started with [left = maxAttempts - attempt + 1] attempts to
    go, turn by turn: it goes round [k] times, each time after a failed
    execution and a wait that the timer ended, and ends in its turn
    [k + 1]: with the result of the operation, with the error of the
    operation wrapped (when this was the last attempt or the context is
    done), or with the error of the context when the wait is interrupted. *)
Lemma attempts_run (maxAttempts : Z) (left : nat) :
  forall (attempt : Z) (lastError : option error) (c : Client) (w : W)
         (trace : list (result User)),
    Z.of_nat (S left) = maxAttempts - attempt + 1 ->
    let run := loop (S left) attempt maxAttempts lastError c w trace in
    exists k : nat,
      (k <= left)%nat
      /\ executions W User run
         = trace ++ map (fun i => fst (operation (world i attempt c w))) (seq 0 (S k))
      /\ (forall i, (i < k)%nat ->
            exists e,
              fst (operation (world i attempt c w)) = Err e
              /\ ctxErr (snd (operation (world i attempt c w))) = None
              /\ fst (wait (backoffDuration Pow (Nat.iter (S i) recordError c)
                              (attempt + Z.of_nat i))
                        (snd (operation (world i attempt c w))))
                 = TimerFired)
      /\ match operation (world k attempt c w) with
         | (Ok u, w1) =>
             returned W User run = Ok u
             /\ clientAfter W User run = recordSuccess (Nat.iter k recordError c)
             /\ worldAfter W User run = w1
         | (Err e, w1) =>
             clientAfter W User run = Nat.iter (S k) recordError c
             /\ ((returned W User run = Err (exhausted maxAttempts (Some e))
                  /\ worldAfter W User run = w1
                  /\ (k = left \/ ctxErr w1 <> None))
                 \/ ((k < left)%nat
                     /\ ctxErr w1 = None
                     /\ exists e',
                          wait (backoffDuration Pow (Nat.iter (S k) recordError c)
                                  (attempt + Z.of_nat k)) w1
                          = (ContextDone e', worldAfter W User run)
                          /\ returned W User run = Err e'))
         end.
Proof.
  induction left as [| left IH]; intros attempt lastError c w trace Hleft run;
    subst run; unfold loop; rewrite attempts_step; fold loop.
  - exists 0%nat. split; [lia |]. unfold world. cbn [attemptWorld seq map Nat.iter].
    destruct (operation w) as [[res | err] w1] eqn:Eop; cbn [fst snd].
    + split; [reflexivity |]. split; [intros i Hi; lia |]. repeat split.
    + assert (Hlast : (maxAttempts <=? attempt) = true) by (apply Z.leb_le; lia).
      rewrite Hlast. cbn [orb]. split; [reflexivity |].
      split; [intros i Hi; lia |]. split; [reflexivity |].
      left. repeat split. left. reflexivity.
  - destruct (operation w) as [[res | err] w1] eqn:Eop.
    + exists 0%nat. split; [lia |]. unfold world. cbn [attemptWorld seq map Nat.iter].
      rewrite Eop. cbn [fst snd].
      split; [reflexivity |]. split; [intros i Hi; lia |]. repeat split.
    + assert (Hmore : (maxAttempts <=? attempt) = false) by (apply Z.leb_gt; lia).
      rewrite Hmore. cbn [orb].
      destruct (ctxErr w1) as [cancelled |] eqn:Ectx.
      * exists 0%nat. split; [lia |]. unfold world. cbn [attemptWorld seq map Nat.iter].
        rewrite Eop. cbn [fst snd].
        split; [reflexivity |]. split; [intros i Hi; lia |]. split; [reflexivity |].
        left. repeat split. right. rewrite Ectx. discriminate.
      * destruct (wait (backoffDuration Pow (recordError c) attempt) w1)
          as [[| e0] w2] eqn:Ew.
        -- match goal with
           | |- context [loop (S left) ?a ?m ?le ?c' ?w' ?t] =>
               destruct (IH a le c' w' t ltac:(lia)) as (k & Hk & E & Hre & Hend);
               set (run := loop (S left) a m le c' w' t) in *
           end.
           assert (Hshift : forall i, world (S i) attempt c w
                                      = world i (attempt + 1) (recordError c)
                                          (if shouldRefreshDueToErrors (recordError c)
                                           then forceRefresh w2 else w2)).
           { intros i. unfold world. cbn [attemptWorld]. rewrite Eop. cbn [snd].
             rewrite Ew. reflexivity. }
           exists (S k). split; [lia |].
           split.
           { rewrite E, <- app_assoc. f_equal.
             rewrite <- (seq_snoc_map _ (fun i => fst (operation (world i attempt c w)))).
             cbn [app]. f_equal.
             - unfold world. cbn [attemptWorld]. rewrite Eop. reflexivity.
             - apply map_ext. intros i. rewrite Hshift. reflexivity. }
           split.
           { intros [| i] Hi.
             - exists err. unfold world. cbn [attemptWorld]. rewrite Eop.
               cbn [fst snd]. change (Nat.iter 1 recordError c) with (recordError c).
               change (Z.of_nat 0) with 0. rewrite Z.add_0_r, Ew.
               repeat split. exact Ectx.
             - destruct (Hre i ltac:(lia)) as (e & H1 & H2 & H3).
               exists e. rewrite Hshift. rewrite Nat.iter_succ_r.
               replace (attempt + Z.of_nat (S i)) with (attempt + 1 + Z.of_nat i) by lia.
               repeat split; assumption. }
           rewrite Hshift.
           replace (attempt + Z.of_nat (S k)) with (attempt + 1 + Z.of_nat k) by lia.
           rewrite !(Nat.iter_succ_r _ _ recordError c).
           destruct (operation (world k (attempt + 1) (recordError c) _))
             as [[u | e] w3].
           ++ exact Hend.
           ++ destruct Hend as (Hc & [(R1 & R2 & R3) | (R1 & R2 & R3)]).
              ** split; [exact Hc |]. left. split; [exact R1 |]. split; [exact R2 |].
                 destruct R3 as [R3 | R3]; [left; lia | right; exact R3].
              ** split; [exact Hc |]. right. split; [lia |]. split; [exact R2 |].
                 exact R3.
        -- exists 0%nat. split; [lia |]. unfold world. cbn [attemptWorld seq map Nat.iter].
           rewrite Eop. cbn [fst snd].
           split; [reflexivity |]. split; [intros i Hi; lia |]. split; [reflexivity |].
           right. split; [lia |]. split; [exact Ectx |].
           exists e0. change (Nat.iter 1 recordError c) with (recordError c).
           change (Z.of_nat 0) with 0. rewrite Z.add_0_r, Ew. split; reflexivity.
Qed.

(** The errors of executions that all failed, as a list. *)
Lemma errors_of_failures (k : nat) :
  forall f : nat -> result User,
    (forall i, (i < k)%nat -> exists e, f i = Err e) ->
    exists errs,
      List.length errs = k
      /\ map Err errs = map f (seq 0 k)
      /\ forall i e, nth_error errs i = Some e -> f i = Err e.
Proof.
  induction k as [| k IH]; intros f Hf.
  - exists []. repeat split. intros [| i] e H; discriminate H.
  - destruct (Hf 0%nat ltac:(lia)) as (e0 & H0).
    destruct (IH (fun i => f (S i)) ltac:(intros i Hi; apply Hf; lia)) as (errs & L & M & N).
    exists (e0 :: errs). split; [cbn; lia |]. split.
    + rewrite <- seq_snoc_map. cbn [map]. rewrite H0, M. reflexivity.
    + intros [| i] e H; cbn in H.
      * injection H as <-. exact H0.
      * apply N. exact H.
Qed.

(** C8, as the code has it. With retry disabled the operation is executed
    exactly once, in the world of the call; the run ends in the world this
    execution leaves, with its result or with its error as the cause of
    the "after 1 attempts" error. With retry enabled and a number of
    retries [MaxRetryAttempts >= 0] the operation is executed [n] times,
    [1 <= n <= MaxRetryAttempts + 1]: execution [i + 1] is the operation
    in [attemptWorld i], the world the executions, waits and forced
    refreshes before it have led to, and every execution but the last
    failed; when all [MaxRetryAttempts + 1] attempts were made and the
    last one failed, the error returned has the error of the last attempt
    as its cause and names the number of attempts, and the world is the
    one the last execution left. With a negative [MaxRetryAttempts]
    nothing is executed and the error names [MaxRetryAttempts + 1]
    attempts and has no cause. *)
Theorem executeWithRetry_attempts (c : Client) (w : W) :
  let run := executeWithRetry W User operation ctxErr wait forceRefresh Pow c w in
  let maxRetries := MaxRetryAttempts (clientConfig c) in
  let execution (i : nat) := operation (world i 1 (countRequest c) w) in
  (retryEnabled c = false ->
   executions W User run = [fst (operation w)]
   /\ worldAfter W User run = snd (operation w)
   /\ returned W User run
      = match fst (operation w) with
        | Ok user => Ok user
        | Err e => Err (ErrWrap "request failed after 1 attempts: " e)
        end
   /\ forall e, unwrap (ErrWrap "request failed after 1 attempts: " e) = Some e)
  /\ (retryEnabled c = true -> 0 <= maxRetries < 2 ^ 63 - 1 ->
      exists n : nat,
        1 <= Z.of_nat n <= maxRetries + 1
        /\ executions W User run = map (fun i => fst (execution i)) (seq 0 n)
        /\ (forall i, (S i < n)%nat -> exists e, fst (execution i) = Err e)
        /\ (Z.of_nat n = maxRetries + 1 ->
            forall e, fst (execution (n - 1)%nat) = Err e ->
              returned W User run
              = Err (ErrWrap ("request failed after " ++ itoa (maxRetries + 1) ++ " attempts: ")
                       e)
              /\ unwrap (ErrWrap ("request failed after " ++ itoa (maxRetries + 1)
                                  ++ " attempts: ") e) = Some e
              /\ worldAfter W User run = snd (execution (n - 1)%nat)))
  /\ (retryEnabled c = true -> - 2 ^ 63 <= maxRetries < 0 ->
      executions W User run = []
      /\ worldAfter W User run = w
      /\ returned W User run
         = Err (ErrMsg ("request failed after " ++ itoa (maxRetries + 1)
                        ++ " attempts: %!w(<nil>)"))).
Proof.
  intros run maxRetries execution.
  assert (Hrun : run = loop (Z.to_nat (maxAttemptsOf c)) 1 (maxAttemptsOf c) None
                         (countRequest c) w []) by reflexivity.
  clearbody run. split; [| split].
  - intros Hoff.
    assert (Hm : maxAttemptsOf c = 1) by (unfold maxAttemptsOf; rewrite Hoff; reflexivity).
    rewrite Hm in Hrun. change (Z.to_nat 1) with 1%nat in Hrun. subst run.
    unfold loop. rewrite attempts_step.
    destruct (operation w) as [[user | e] w1]; cbn; repeat split.
  - intros Hon Hrange.
    assert (Hm : maxAttemptsOf c = maxRetries + 1).
    { unfold maxAttemptsOf. rewrite Hon. fold maxRetries.
      unfold wrap64. rewrite Z.mod_small; lia. }
    rewrite Hm in Hrun.
    assert (Hs : Z.to_nat (maxRetries + 1) = S (Z.to_nat maxRetries))
      by (rewrite Z2Nat.inj_add by lia; rewrite Nat.add_comm; reflexivity).
    rewrite Hs in Hrun. subst run.
    destruct (attempts_run (maxRetries + 1) (Z.to_nat maxRetries) 1 None
                (countRequest c) w [] ltac:(lia)) as (k & Hk & E & Hre & Hend).
    cbv zeta in E, Hend. fold execution in E, Hre, Hend.
    exists (S k). split; [lia |]. split; [exact E |].
    split.
    { intros i Hi. destruct (Hre i ltac:(lia)) as (e & He & _). exists e. exact He. }
    intros Hn e He. replace (S k - 1)%nat with k in * by lia.
    fold (execution k) in Hend.
    destruct (execution k) as [[user | e1] w1]; cbn [fst snd] in *; [discriminate He |].
    injection He as ->.
    destruct Hend as (_ & [(R1 & R2 & _) | (R1 & _)]); [| lia].
    split; [exact R1 |]. split; [reflexivity | exact R2].
  - intros Hon Hrange.
    assert (Hm : maxAttemptsOf c = maxRetries + 1).
    { unfold maxAttemptsOf. rewrite Hon. fold maxRetries.
      unfold wrap64. rewrite Z.mod_small; lia. }
    rewrite Hm in Hrun.
    assert (Hs : Z.to_nat (maxRetries + 1) = 0%nat) by lia.
    rewrite Hs in Hrun. subst run. repeat split.
Qed.

End DriverFacts.

(** The theorem for three clients and the failing operation, which
    counts its executions in the world: one execution without retry, four
    with the default configuration (and the error names the four
    attempts), none with a negative number of retries. *)
Lemma executeWithRetry_attempts_witness :
  (retryEnabled noRetryClient = false
   /\ executions nat unit (runAlwaysFails noRetryClient) = [Err (ErrMsg "API error: 500")]
   /\ worldAfter nat unit (runAlwaysFails noRetryClient) = 1%nat)
  /\ (retryEnabled defaultClient = true
      /\ 0 <= MaxRetryAttempts (clientConfig defaultClient) < 2 ^ 63 - 1
      /\ returned nat unit (runAlwaysFails defaultClient)
         = Err (ErrWrap "request failed after 4 attempts: " (ErrMsg "API error: 500"))
      /\ worldAfter nat unit (runAlwaysFails defaultClient) = 4%nat)
  /\ (retryEnabled negativeRetryClient = true
      /\ - 2 ^ 63 <= MaxRetryAttempts (clientConfig negativeRetryClient) < 0
      /\ executions nat unit (runAlwaysFails negativeRetryClient) = []
      /\ returned nat unit (runAlwaysFails negativeRetryClient)
         = Err (ErrMsg "request failed after -2 attempts: %!w(<nil>)")).
Proof.
  assert (Hrange : 0 <= MaxRetryAttempts (clientConfig defaultClient) < 2 ^ 63 - 1)
    by (cbn; lia).
  assert (Hneg : - 2 ^ 63 <= MaxRetryAttempts (clientConfig negativeRetryClient) < 0)
    by (cbn; lia).
  split; [| split].
  - split; [reflexivity |].
    destruct (proj1 (executeWithRetry_attempts nat unit alwaysFails (fun _ => None)
                       (fun _ w => (TimerFired, w)) (fun w => w) (fun x _ => x)
                       noRetryClient 0%nat) eq_refl) as (E & Hw & _).
    split; [exact E | exact Hw].
  - split; [reflexivity |]. split; [exact Hrange |].
    destruct (proj1 (proj2 (executeWithRetry_attempts nat unit alwaysFails
                              (fun _ => None) (fun _ w => (TimerFired, w))
                              (fun w => w) (fun x _ => x) defaultClient 0%nat))
                eq_refl Hrange) as (n & Hn & E & _ & X).
    assert (N : n = 4%nat).
    { apply (f_equal (@List.length _)) in E. rewrite length_map, length_seq in E.
      rewrite <- E. reflexivity. }
    subst n.
    destruct (X eq_refl (ErrMsg "API error: 500") eq_refl) as (R & _ & Hw).
    split; [exact R | exact Hw].
  - split; [reflexivity |]. split; [exact Hneg |].
    destruct (proj2 (proj2 (executeWithRetry_attempts nat unit alwaysFails
                              (fun _ => None) (fun _ w => (TimerFired, w))
                              (fun w => w) (fun x _ => x) negativeRetryClient 0%nat))
                eq_refl Hneg) as (E & _ & R).
    split; [exact E | exact R].
Defined.

(** C8 fails as stated: with retry enabled and [MaxRetryAttempts = -3]
    the failing operation is not executed at all, which is more than
    [MaxRetryAttempts + 1 = -2] times, and the error returned, "request
    failed after -2 attempts: %!w(<nil>)", wraps no error. *)
Lemma negative_MaxRetryAttempts_no_attempt :
  ~ (forall c : Client,
        retryEnabled c = true ->
        let run := runAlwaysFails c in
        Z.of_nat (List.length (executions nat unit run))
        <= MaxRetryAttempts (clientConfig c) + 1
        /\ exists text e,
             returned nat unit run = Err (ErrWrap text e)
             /\ last (executions nat unit run) (Ok tt) = Err e).
Proof.
  intros H. destruct (H negativeRetryClient eq_refl) as (Hn & _).
  vm_compute in Hn. apply Hn. reflexivity.
Qed.

(** * Further properties of the code *)

(** ** What the decoder returns *)

Lemma decodeQuanta_bytes (n : nat) :
  forall s bs, (String.length s <= n)%nat -> Base64.decodeQuanta s = Some bs -> Forall is_byte bs.
Proof.
  assert (B : forall z, is_byte (z mod 256)) by (intros z; apply Z.mod_pos_bound; lia).
  induction n as [| n IH]; intros s bs L H.
  - destruct s; [| cbn in L; lia]. injection H as <-. constructor.
  - destruct s as [| c0 [| c1 [| c2 [| c3 rest]]]]; try discriminate H.
    + injection H as <-. constructor.
    + cbn [Base64.decodeQuanta] in H.
      repeat step_in H; try discriminate H; injection H as <-;
        repeat (constructor; try apply B).
      apply (IH rest); [cbn [String.length] in L; lia | assumption].
Qed.

Lemma DecodeString_bytes (s : string) (bs : list Z) :
  Base64.DecodeString s = Some bs -> Forall is_byte bs.
Proof. unfold Base64.DecodeString. intros H. exact (decodeQuanta_bytes _ _ _ (le_n _) H). Qed.

(** ** The generator between refreshes *)

Section FreshnessFacts.

Variable Cos Sin : float -> float.
Variable htmlParse : string -> result Node.
Variable fuel : nat.

(** What a successful [extractAlgorithmData] leaves: the key it stored
    decodes to the key bytes, of which there are more than five. *)
Lemma extractAlgorithmData_success (tg tg' : TransactionGenerator) :
  extractAlgorithmData Cos Sin htmlParse fuel tg = Done (Ok tt) tg' ->
  Base64.DecodeString (key tg') = Some (keyBytes tg')
  /\ (5 < List.length (keyBytes tg'))%nat
  /\ key tg' <> EmptyString.
Proof.
  unfold extractAlgorithmData. intros H.
  destruct (extractIndices tg) as [[u1 | e1] t1]; [| discriminate H].
  destruct (extractKey htmlParse t1) as [[u2 | e2] t2] eqn:E2; [| discriminate H].
  destruct (generateAnimationKey Cos Sin fuel t2) as [[u3 | e3] t3 |] eqn:E3;
    try discriminate H.
  injection H as <-.
  destruct (generateAnimationKey_frame _ _ _ _ _ _ E3) as [k ->].
  assert (L : (5 < List.length (keyBytes t2))%nat).
  { unfold generateAnimationKey in E3.
    destruct (extractAnimationFrames t2) as [frames | e] eqn:EF; [| discriminate E3].
    unfold extractAnimationFrames in EF.
    destruct (List.length (keyBytes t2) <=? 5)%nat eqn:EL; [discriminate EF |].
    apply Nat.leb_gt in EL. exact EL. }
  unfold extractKey in E2.
  destruct (htmlParse (homePageHTML t1)) as [doc | e]; [| discriminate E2].
  destruct (findTwitterSiteVerification doc) as [| c k0] eqn:EK; [discriminate E2 |].
  destruct (Base64.DecodeString (String c k0)) as [decoded |] eqn:ED; [| discriminate E2].
  injection E2 as E2. subst t2. simpl in *. repeat split; [exact ED | exact L | discriminate].
Qed.

(** What a successful [Refresh] leaves in the generator. *)
Lemma Refresh_success_shape (env : RefreshEnv) (tg tg' : TransactionGenerator) :
  Refresh Cos Sin htmlParse fuel env tg = Done (Ok tt) tg' ->
  let now := nowCaches env in
  htmlDataCache tg'
  = Some (mkCacheEntry (PagesData (homePageHTML tg') (onDemandFileHTML tg'))
            (now + HTMLDataCacheLifetime (config tg)) now)
  /\ animationCache tg'
     = Some (mkCacheEntry (StringData (animationKey tg'))
               (now + AnimationKeyLifetime (config tg)) now)
  /\ verificationCache tg'
     = Some (mkCacheEntry (StringData (key tg'))
               (now + HTMLDataCacheLifetime (config tg)) now)
  /\ initialized tg' = initialized tg
  /\ config tg' = config tg
  /\ lastRefresh tg' = nowDone env
  /\ LastRefreshTime (metrics tg') = nowDone env
  /\ Base64.DecodeString (key tg') = Some (keyBytes tg')
  /\ (5 < List.length (keyBytes tg'))%nat.
Proof.
  intros H now. subst now. unfold Refresh, updateCachesWithFreshData in H.
  destruct (fetchTwitterData (net env) _) as [[u1 | e1] t1] eqn:E1; [| discriminate H].
  destruct (fetchTwitterData_frame _ _ _ _ E1) as ((C1 & _ & _ & _ & I1) & _).
  simpl in C1, I1.
  destruct (extractAlgorithmData Cos Sin htmlParse fuel t1) as [[[] | e2] t2 |] eqn:E2;
    try discriminate H.
  destruct (extractAlgorithmData_frame _ _ _ _ _ _ _ E2) as ((C2 & _ & _ & _ & I2) & _).
  destruct (extractAlgorithmData_success _ _ E2) as (D & L & _).
  injection H as <-. unfold freshCaches, timeAdd. simpl.
  rewrite C2, C1, I2, I1. repeat split; assumption.
Qed.

(** X1. After a successful [Refresh] of an initialized generator,
    [needsRefresh] is true exactly from the first instant after the
    earlier of the two expiries on: the time the caches were rebuilt plus
    the smaller of the HTML and animation lifetimes. *)
Theorem Refresh_then_needsRefresh (env : RefreshEnv) (tg tg' : TransactionGenerator)
  (now : Z) :
  initialized tg = true ->
  Refresh Cos Sin htmlParse fuel env tg = Done (Ok tt) tg' ->
  needsRefresh now tg' = true
  <-> nowCaches env
      + Z.min (HTMLDataCacheLifetime (config tg)) (AnimationKeyLifetime (config tg)) < now.
Proof.
  intros I H.
  destruct (Refresh_success_shape _ _ _ H) as (A & B & C & I' & _).
  unfold needsRefresh, timeAfter. rewrite A, B, C, I', I. simpl.
  destruct (_ <? now) eqn:E1; [apply Z.ltb_lt in E1; split; [lia | reflexivity] |].
  destruct (nowCaches env + AnimationKeyLifetime _ <? now) eqn:E2;
    [apply Z.ltb_lt in E2; split; [lia | reflexivity] |].
  apply Z.ltb_ge in E1, E2. split; [discriminate | lia].
Qed.

(** X2. Once stale, stale until the next refresh: [needsRefresh] (and so
    [IsStale]) is monotone in the reading of the clock. *)
Theorem IsStale_monotone (now now' : Z) (tg : TransactionGenerator) :
  now <= now' -> IsStale now tg = true -> IsStale now' tg = true.
Proof.
  unfold IsStale, needsRefresh, timeAfter. intros Hle H.
  destruct (initialized tg); simpl in *; [| reflexivity].
  destruct (htmlDataCache tg) as [h |], (animationCache tg) as [a |],
    (verificationCache tg) as [v |];
    repeat match goal with
           | H : context [?x <? now] |- _ => destruct (Z.ltb_spec x now)
           | |- context [?x <? now'] => destruct (Z.ltb_spec x now')
           end; try reflexivity; try discriminate H; lia.
Qed.


(** The steps of the extraction leave the counters alone. *)
Lemma extractAlgorithmData_metrics (tg tg' : TransactionGenerator) (r : result unit) :
  extractAlgorithmData Cos Sin htmlParse fuel tg = Done r tg' ->
  metrics tg' = metrics tg /\ lastRefresh tg' = lastRefresh tg.
Proof.
  unfold extractAlgorithmData. intros H.
  destruct (extractIndices tg) as [r1 t1] eqn:E1.
  assert (M1 : metrics t1 = metrics tg /\ lastRefresh t1 = lastRefresh tg).
  { unfold extractIndices in E1. repeat step_in E1; injection E1 as <- <-; split; reflexivity. }
  destruct r1 as [u1 | e1]; [| injection H as <- <-; exact M1].
  destruct (extractKey htmlParse t1) as [r2 t2] eqn:E2.
  assert (M2 : metrics t2 = metrics t1 /\ lastRefresh t2 = lastRefresh t1).
  { unfold extractKey in E2. repeat step_in E2; injection E2 as <- <-; split; reflexivity. }
  destruct r2 as [u2 | e2]; [| injection H as <- <-; split; destruct M1, M2; congruence].
  destruct (generateAnimationKey Cos Sin fuel t2) as [r3 t3 |] eqn:E3; [| discriminate H].
  pose proof (generateAnimationKey_frame _ _ _ _ _ _ E3) as F3.
  destruct r3 as [u3 | e3]; injection H as <- <-.
  - destruct F3 as [k ->]. simpl. destruct M1, M2. split; congruence.
  - subst t3. destruct M1, M2. split; congruence.
Qed.

(** What a [Refresh] does to the counters and to the material it does
    not rebuild, whatever its result. *)
Lemma Refresh_metrics (env : RefreshEnv) (tg tg' : TransactionGenerator) (r : result unit) :
  Refresh Cos Sin htmlParse fuel env tg = Done r tg' ->
  let m := metrics tg in
  let m' := metrics tg' in
  TotalGenerations m' = TotalGenerations m
  /\ CacheHits m' = CacheHits m
  /\ CacheMisses m' = CacheMisses m
  /\ RefreshAttempts m' = wrap64 (RefreshAttempts m + 1)
  /\ RefreshFailures m'
     = match r with
       | Ok _ => RefreshFailures m
       | Err _ => wrap64 (RefreshFailures m + 1)
       end
  /\ HTMLDataFetches m'
     = match getHomePage (net env) with
       | Body _ => wrap64 (HTMLDataFetches m + 1)
       | _ => HTMLDataFetches m
       end.
Proof.
  intros H m m'. subst m m'. unfold Refresh, updateCachesWithFreshData, countFailure in H.
  destruct (fetchTwitterData (net env) _) as [r1 t1] eqn:E1.
  unfold fetchTwitterData in E1.
  destruct (getHomePage (net env)) as [e | e | page].
  - injection E1 as <- <-. injection H as <- <-. simpl. repeat split.
  - injection E1 as <- <-. injection H as <- <-. simpl. repeat split.
  - assert (M : metrics t1 = incr_HTMLDataFetches (incr_RefreshAttempts (metrics tg))).
    { repeat step_in E1; injection E1 as <- <-; reflexivity. }
    destruct r1 as [u1 | e1].
    2:{ injection H as <- <-. simpl. rewrite M. simpl. repeat split. }
    destruct (extractAlgorithmData Cos Sin htmlParse fuel t1) as [r2 t2 |] eqn:E2;
      [| discriminate H].
    destruct (extractAlgorithmData_metrics _ _ _ E2) as [M2 _].
    destruct r2 as [u2 | e2]; injection H as <- <-; simpl; rewrite M2, M; simpl;
      repeat split.
Qed.


(** X3. A successful [Refresh] leaves the three cache entries holding
    exactly the material the generator now signs with - the two pages,
    the animation key and the verification key - all created at the same
    reading of the clock; the key bytes are the decoding of the key and
    there are at least six of them. *)
Theorem Refresh_installs_material (env : RefreshEnv) (tg tg' : TransactionGenerator) :
  Refresh Cos Sin htmlParse fuel env tg = Done (Ok tt) tg' ->
  option_map Data (htmlDataCache tg')
  = Some (PagesData (homePageHTML tg') (onDemandFileHTML tg'))
  /\ option_map Data (animationCache tg') = Some (StringData (animationKey tg'))
  /\ option_map Data (verificationCache tg') = Some (StringData (key tg'))
  /\ option_map CreatedAt (htmlDataCache tg') = Some (nowCaches env)
  /\ option_map CreatedAt (animationCache tg') = Some (nowCaches env)
  /\ option_map CreatedAt (verificationCache tg') = Some (nowCaches env)
  /\ lastRefresh tg' = nowDone env
  /\ Base64.DecodeString (key tg') = Some (keyBytes tg')
  /\ (6 <= List.length (keyBytes tg'))%nat.
Proof.
  intros H.
  destruct (Refresh_success_shape _ _ _ H) as (A & B & C & _ & _ & L & _ & D & N).
  rewrite A, B, C. simpl. repeat split; assumption.
Qed.

(** X4. The accounting of [Refresh]: every call counts one attempt, a
    failed call one failure, and one HTML fetch is counted exactly when
    the home page could be read, whatever happens afterwards. The
    generation counter and the two cache counters are not touched. *)
Theorem Refresh_accounting (env : RefreshEnv) (tg tg' : TransactionGenerator)
  (r : result unit) :
  Refresh Cos Sin htmlParse fuel env tg = Done r tg' ->
  RefreshAttempts (metrics tg') = wrap64 (RefreshAttempts (metrics tg) + 1)
  /\ RefreshFailures (metrics tg')
     = match r with
       | Ok _ => RefreshFailures (metrics tg)
       | Err _ => wrap64 (RefreshFailures (metrics tg) + 1)
       end
  /\ HTMLDataFetches (metrics tg')
     = match getHomePage (net env) with
       | Body _ => wrap64 (HTMLDataFetches (metrics tg) + 1)
       | _ => HTMLDataFetches (metrics tg)
       end
  /\ TotalGenerations (metrics tg') = TotalGenerations (metrics tg)
  /\ CacheHits (metrics tg') = CacheHits (metrics tg)
  /\ CacheMisses (metrics tg') = CacheMisses (metrics tg).
Proof.
  intros H. destruct (Refresh_metrics _ _ _ _ H) as (A & B & C & D & E & F).
  repeat split; assumption.
Qed.

(** The two deferred updates of [Generate] touch the counters only. *)
Lemma finish_material (d : Z) (tg : TransactionGenerator) :
  let tg' := incrementTotalGenerations (updateGenerationTime d tg) in
  set_metrics (metrics tg) tg' = tg
  /\ TotalGenerations (metrics tg') = wrap64 (TotalGenerations (metrics tg) + 1)
  /\ CacheHits (metrics tg') = CacheHits (metrics tg)
  /\ CacheMisses (metrics tg') = CacheMisses (metrics tg)
  /\ HTMLDataFetches (metrics tg') = HTMLDataFetches (metrics tg)
  /\ RefreshAttempts (metrics tg') = RefreshAttempts (metrics tg)
  /\ RefreshFailures (metrics tg') = RefreshFailures (metrics tg).
Proof.
  unfold incrementTotalGenerations, updateGenerationTime.
  destruct tg as [c h a v hp od kb ak ri ki k m i lr].
  cbn [metrics]. destruct (TotalGenerations m =? 1); simpl; repeat split.
Qed.

(** X5. A generator that is not stale signs without refreshing:
    [Generate] builds the ID from the material as it is, whatever the
    network would answer, and changes nothing but the counters - one more
    generation, no refresh attempt, no fetch. *)
Theorem Generate_when_fresh (method path : string) (env : GenerateEnv)
  (tg : TransactionGenerator) :
  IsStale (nowCheck env) tg = false ->
  exists tg',
    Generate Cos Sin htmlParse fuel method path env tg
    = Some (generateUniqueTransactionID method path (nowID env) (randomByte env) tg, tg')
    /\ set_metrics (metrics tg) tg' = tg
    /\ TotalGenerations (metrics tg') = wrap64 (TotalGenerations (metrics tg) + 1)
    /\ RefreshAttempts (metrics tg') = RefreshAttempts (metrics tg)
    /\ HTMLDataFetches (metrics tg') = HTMLDataFetches (metrics tg).
Proof.
  unfold IsStale, Generate. intros ->.
  eexists. split; [reflexivity |].
  destruct (finish_material (duration env) tg) as (A & B & _ & _ & C & D & _).
  repeat split; assumption.
Qed.

(** X6. Every call of [Generate] that comes back counts one generation,
    also when the ID could not be built, and it fails for one reason
    only: the random byte could not be read. The counters of cache hits
    and misses are never changed. *)
Theorem Generate_accounting (method path : string) (env : GenerateEnv)
  (tg tg' : TransactionGenerator) (r : result string) :
  Generate Cos Sin htmlParse fuel method path env tg = Some (r, tg') ->
  TotalGenerations (metrics tg') = wrap64 (TotalGenerations (metrics tg) + 1)
  /\ CacheHits (metrics tg') = CacheHits (metrics tg)
  /\ CacheMisses (metrics tg') = CacheMisses (metrics tg)
  /\ match r, randomByte env with
     | Ok _, Ok _ => True
     | Err err, Err cause => err = ErrWrap "failed to generate random number: " cause
     | _, _ => False
     end.
Proof.
  unfold Generate. intros H.
  assert (R : forall t, match generateUniqueTransactionID method path (nowID env)
                                (randomByte env) t, randomByte env with
                        | Ok _, Ok _ => True
                        | Err err, Err cause =>
                            err = ErrWrap "failed to generate random number: " cause
                        | _, _ => False
                        end).
  { intros t. unfold generateUniqueTransactionID. destruct (randomByte env); simpl; auto. }
  destruct (needsRefresh (nowCheck env) tg).
  - destruct (Refresh Cos Sin htmlParse fuel (refreshEnv env) tg) as [r1 t1 |] eqn:E;
      [| discriminate H].
    injection H as <- <-.
    destruct (finish_material (duration env) t1) as (_ & B & C & D & _).
    destruct (Refresh_metrics _ _ _ _ E) as (B' & C' & D' & _).
    rewrite B, C, D, B', C', D'. repeat split. apply R.
  - injection H as <- <-.
    destruct (finish_material (duration env) tg) as (_ & B & C & D & _).
    repeat split; try assumption. apply R.
Qed.

(** X7. A [ForceRefresh] that fails leaves the generator stale: with an
    entry in the HTML cache, [needsRefresh] is true at every reading of
    the clock from the one taken for that entry on, so the next
    [Generate] tries to refresh again. *)
Theorem failed_ForceRefresh_is_stale (now1 now2 now3 now : Z) (env : RefreshEnv)
  (tg tg' : TransactionGenerator) (err : error) :
  htmlDataCache tg <> None ->
  now1 <= now ->
  ForceRefresh Cos Sin htmlParse fuel now1 now2 now3 env tg = Done (Err err) tg' ->
  IsStale now tg' = true.
Proof.
  intros P Hle H.
  destruct (ForceRefresh_outcome _ _ _ _ _ _ _ _ _ _ _ H) as (A & _).
  unfold IsStale, needsRefresh. rewrite A.
  destruct (initialized tg'); [| reflexivity]. simpl.
  destruct (htmlDataCache tg) as [e |]; [| congruence].
  simpl. unfold timeAfter, timeAdd.
  match goal with
  | |- context [?a <? now] => destruct (Z.ltb_spec a now) as [L | L]
  end; [reflexivity |].
  unfold Hour, Minute, Second, Millisecond, Nanosecond in L. lia.
Qed.


(** What a successful [initialize] leaves in the generator. *)
Lemma initialize_success_shape (env : RefreshEnv) (tg tg' : TransactionGenerator) :
  initialize Cos Sin htmlParse fuel env tg = Done (Ok tt) tg' ->
  let now := nowCaches env in
  htmlDataCache tg'
  = Some (mkCacheEntry (PagesData (homePageHTML tg') (onDemandFileHTML tg'))
            (now + HTMLDataCacheLifetime (config tg)) now)
  /\ animationCache tg'
     = Some (mkCacheEntry (StringData (animationKey tg'))
               (now + AnimationKeyLifetime (config tg)) now)
  /\ verificationCache tg'
     = Some (mkCacheEntry (StringData (key tg'))
               (now + HTMLDataCacheLifetime (config tg)) now)
  /\ initialized tg' = true
  /\ config tg' = config tg
  /\ lastRefresh tg' = now
  /\ Base64.DecodeString (key tg') = Some (keyBytes tg')
  /\ (5 < List.length (keyBytes tg'))%nat
  /\ TotalGenerations (metrics tg') = TotalGenerations (metrics tg)
  /\ RefreshAttempts (metrics tg') = RefreshAttempts (metrics tg)
  /\ HTMLDataFetches (metrics tg') = wrap64 (HTMLDataFetches (metrics tg) + 1).
Proof.
  intros H now. subst now. unfold initialize in H.
  destruct (fetchTwitterData (net env) tg) as [[u1 | e1] t1] eqn:E1; [| discriminate H].
  destruct (fetchTwitterData_frame _ _ _ _ E1) as ((C1 & _) & _).
  assert (M1 : metrics t1 = incr_HTMLDataFetches (metrics tg)).
  { unfold fetchTwitterData in E1.
    repeat step_in E1; try discriminate E1; injection E1 as E1; subst t1; reflexivity. }
  destruct (extractAlgorithmData Cos Sin htmlParse fuel t1) as [[[] | e2] t2 |] eqn:E2;
    try discriminate H.
  destruct (extractAlgorithmData_frame _ _ _ _ _ _ _ E2) as ((C2 & _) & _).
  destruct (extractAlgorithmData_metrics _ _ _ E2) as [M2 _].
  destruct (extractAlgorithmData_success _ _ E2) as (D & L & _).
  injection H as <-. unfold updateGenerationTime, freshCaches, timeAdd.
  step; simpl; rewrite C2, C1, M2, M1; simpl; repeat split; assumption.
Qed.

(** X8. What the constructor hands out. A generator that
    [NewTransactionGeneratorWithConfig] returns is initialized under the
    configuration given, holds at least six key bytes, each a byte and
    together the decoding of the verification key, has counted one HTML
    fetch, no refresh and no generation, and [GetStats] at the time its
    caches were built reports it as not stale when no lifetime is
    negative. *)
Theorem NewTransactionGeneratorWithConfig_ready (cfg : ProductionConfig) (env : RefreshEnv)
  (tg : TransactionGenerator) :
  NewTransactionGeneratorWithConfig Cos Sin htmlParse fuel cfg env = Some (Ok tg) ->
  let stats := GetStats (nowCaches env) tg in
  config tg = cfg
  /\ initialized tg = true
  /\ 6 <= KeyLength stats
  /\ Forall is_byte (keyBytes tg)
  /\ Base64.DecodeString (key tg) = Some (keyBytes tg)
  /\ LastFetchTime stats = nowCaches env
  /\ HTMLDataFetches (GetMetrics tg) = 1
  /\ RefreshAttempts (GetMetrics tg) = 0
  /\ TotalGenerations (GetMetrics tg) = 0
  /\ (0 <= HTMLDataCacheLifetime cfg -> 0 <= AnimationKeyLifetime cfg ->
      StatsIsStale stats = false).
Proof.
  intros H stats. subst stats. unfold NewTransactionGeneratorWithConfig in H.
  destruct (initialize Cos Sin htmlParse fuel env (newGenerator cfg)) as [[[] | e] t |] eqn:E;
    try discriminate H.
  injection H as <-.
  destruct (initialize_success_shape _ _ _ E)
    as (A & B & C & I & K & L & D & N & G & R & F).
  unfold GetStats, GetMetrics. cbn [KeyLength LastFetchTime StatsIsStale].
  cbn in K, G, R, F.
  repeat split; try assumption; try lia.
  - apply (DecodeString_bytes _ _ D).
  - intros H1 H2. unfold needsRefresh, timeAfter. rewrite I, A, B, C. simpl.
    repeat match goal with
           | |- context [?a <? ?b] => destruct (Z.ltb_spec a b); [lia |]
           end.
    reflexivity.
Qed.


(** The extraction keeps the key bytes bytes: it leaves them alone or
    replaces them by what the decoder gave. *)
Lemma extractAlgorithmData_bytes (tg tg' : TransactionGenerator) (r : result unit) :
  extractAlgorithmData Cos Sin htmlParse fuel tg = Done r tg' ->
  Forall is_byte (keyBytes tg) -> Forall is_byte (keyBytes tg').
Proof.
  unfold extractAlgorithmData. intros H B.
  destruct (extractIndices tg) as [r1 t1] eqn:E1.
  destruct (extractIndices_frame _ _ _ E1) as (_ & K1 & _).
  destruct r1 as [u1 | e1]; [| injection H as <- <-; rewrite K1; exact B].
  destruct (extractKey htmlParse t1) as [r2 t2] eqn:E2.
  assert (B2 : Forall is_byte (keyBytes t2)).
  { unfold extractKey in E2.
    repeat step_in E2; injection E2 as <- <-; simpl; try (rewrite K1; exact B).
    eapply DecodeString_bytes. eassumption. }
  destruct r2 as [u2 | e2]; [| injection H as <- <-; exact B2].
  destruct (generateAnimationKey Cos Sin fuel t2) as [r3 t3 |] eqn:E3; [| discriminate H].
  pose proof (generateAnimationKey_frame _ _ _ _ _ _ E3) as F3.
  destruct r3 as [u3 | e3]; injection H as <- <-.
  - destruct F3 as [k ->]. exact B2.
  - subst t3. exact B2.
Qed.

Lemma Refresh_bytes (env : RefreshEnv) (tg tg' : TransactionGenerator) (r : result unit) :
  Refresh Cos Sin htmlParse fuel env tg = Done r tg' ->
  Forall is_byte (keyBytes tg) -> Forall is_byte (keyBytes tg').
Proof.
  unfold Refresh, updateCachesWithFreshData, countFailure. intros H B.
  destruct (fetchTwitterData (net env) _) as [r1 t1] eqn:E1.
  destruct (fetchTwitterData_frame _ _ _ _ E1) as (_ & K1 & _). simpl in K1.
  destruct r1 as [u1 | e1]; [| injection H as <- <-; simpl; rewrite K1; exact B].
  destruct (extractAlgorithmData Cos Sin htmlParse fuel t1) as [r2 t2 |] eqn:E2;
    [| discriminate H].
  assert (B2 : Forall is_byte (keyBytes t2)).
  { apply (extractAlgorithmData_bytes _ _ _ E2). rewrite K1. exact B. }
  destruct r2 as [u2 | e2]; injection H as <- <-; exact B2.
Qed.

(** X9. The key bytes stay bytes. If every key byte of a generator lies
    between 0 and 255, so it does after [Refresh], [ForceRefresh] and
    [Generate], whether they succeed or fail: the key bytes only ever
    change to what the base64 decoder returned. *)
Theorem keyBytes_stay_bytes (tg : TransactionGenerator) :
  Forall is_byte (keyBytes tg) ->
  (forall env r tg',
      Refresh Cos Sin htmlParse fuel env tg = Done r tg' -> Forall is_byte (keyBytes tg'))
  /\ (forall now1 now2 now3 env r tg',
         ForceRefresh Cos Sin htmlParse fuel now1 now2 now3 env tg = Done r tg' ->
         Forall is_byte (keyBytes tg'))
  /\ (forall method path env r tg',
         Generate Cos Sin htmlParse fuel method path env tg = Some (r, tg') ->
         Forall is_byte (keyBytes tg')).
Proof.
  intros B. split; [| split].
  - intros env r tg' H. exact (Refresh_bytes _ _ _ _ H B).
  - intros now1 now2 now3 env r tg' H. unfold ForceRefresh in H.
    exact (Refresh_bytes _ _ _ _ H B).
  - intros method path env r tg' H. unfold Generate in H.
    assert (K : forall t d,
               keyBytes (incrementTotalGenerations (updateGenerationTime d t)) = keyBytes t).
    { intros t d. destruct (finish_material d t) as [E _]. cbv zeta in E.
      rewrite <- E at 2. reflexivity. }
    destruct (needsRefresh (nowCheck env) tg).
    + destruct (Refresh Cos Sin htmlParse fuel (refreshEnv env) tg) as [r1 t1 |] eqn:E;
        [| discriminate H].
      injection H as _ <-. rewrite K. exact (Refresh_bytes _ _ _ _ E B).
    + injection H as _ <-. rewrite K. exact B.
Qed.

(** X10. A verification key of fewer than six bytes stops the
    constructor. When the home page carries a key that decodes to at most
    five bytes, [NewTransactionGeneratorWithConfig] comes back with an
    error whatever else the page and the on-demand file hold: no
    generator is built (and the run does not reach the animation). *)
Theorem short_key_fails_construction (cfg : ProductionConfig) (env : RefreshEnv)
  (page : string) (doc : Node) (decoded : list Z) :
  getHomePage (net env) = Body page ->
  htmlParse page = Ok doc ->
  Base64.DecodeString (findTwitterSiteVerification doc) = Some decoded ->
  (List.length decoded <= 5)%nat ->
  exists err,
    NewTransactionGeneratorWithConfig Cos Sin htmlParse fuel cfg env
    = Some (Err (ErrWrap "failed to initialize transaction generator: " err)).
Proof.
  intros Hpage Hdoc Hdec Hlen.
  unfold NewTransactionGeneratorWithConfig, initialize.
  destruct (fetchTwitterData (net env) (newGenerator cfg)) as [r1 t1] eqn:E1.
  destruct r1 as [u1 | e1]; [| eexists; reflexivity].
  assert (P1 : homePageHTML t1 = page).
  { unfold fetchTwitterData in E1. rewrite Hpage in E1.
    repeat step_in E1; try discriminate E1; injection E1 as E1; subst t1; reflexivity. }
  unfold extractAlgorithmData.
  destruct (extractIndices t1) as [r2 t2] eqn:E2.
  destruct (extractIndices_frame _ _ _ E2) as (_ & _ & _ & _ & P2 & _).
  destruct r2 as [u2 | e2]; [| eexists; reflexivity].
  unfold extractKey. rewrite P2, P1, Hdoc, Hdec.
  destruct (findTwitterSiteVerification doc) as [| c k]; [eexists; reflexivity |].
  unfold generateAnimationKey, extractAnimationFrames.
  cbn [keyBytes set_keyBytes].
  replace (List.length decoded <=? 5)%nat with true by (symmetry; apply Nat.leb_le; exact Hlen).
  eexists. reflexivity.
Qed.

End FreshnessFacts.

(** The ready generator refreshed at 7h from the first page: stale again
    from 10h on, the animation lifetime of 3h being the shorter one. *)
Lemma Refresh_then_needsRefresh_witness :
  exists tg',
    initialized readyGenerator = true
    /\ Refresh (fun _ => 1%float) (fun _ => 0%float) parsePage 100 laterEnv readyGenerator
       = Done (Ok tt) tg'
    /\ (needsRefresh (10 * Hour + 1) tg' = true
        <-> nowCaches laterEnv
            + Z.min (HTMLDataCacheLifetime (config readyGenerator))
                (AnimationKeyLifetime (config readyGenerator)) < 10 * Hour + 1).
Proof.
  eexists. split; [reflexivity |]. split; [vm_compute; reflexivity |].
  apply (Refresh_then_needsRefresh (fun _ => 1%float) (fun _ => 0%float) parsePage 100
           laterEnv readyGenerator);
    [reflexivity | vm_compute; reflexivity].
Defined.

(** The ready generator, stale just after 3h, is stale at 4h. *)
Lemma IsStale_monotone_witness :
  3 * Hour + 1 <= 4 * Hour
  /\ IsStale (3 * Hour + 1) readyGenerator = true
  /\ IsStale (4 * Hour) readyGenerator = true.
Proof.
  split; [vm_compute; discriminate |]. split; [reflexivity |].
  apply (IsStale_monotone (3 * Hour + 1) (4 * Hour) readyGenerator);
    [vm_compute; discriminate | reflexivity].
Defined.

(** The ready generator refreshed at 7h from the first page. *)
Lemma Refresh_installs_material_witness :
  exists tg',
    Refresh (fun _ => 1%float) (fun _ => 0%float) parsePage 100 laterEnv readyGenerator
    = Done (Ok tt) tg'
    /\ option_map Data (animationCache tg') = Some (StringData (animationKey tg'))
    /\ Base64.DecodeString (key tg') = Some (keyBytes tg').
Proof.
  eexists. split; [vm_compute; reflexivity |].
  pose proof (Refresh_installs_material (fun _ => 1%float) (fun _ => 0%float) parsePage 100
                laterEnv readyGenerator _ ltac:(vm_compute; reflexivity)) as H.
  split; [exact (proj1 (proj2 H)) |].
  exact (proj1 (proj2 (proj2 (proj2 (proj2 (proj2 (proj2 (proj2 H)))))))).
Defined.

(** A refresh of the ready generator while the network is down: one
    attempt, one failure, and the fetch counter stays at 1. *)
Lemma Refresh_accounting_witness :
  exists r tg',
    Refresh (fun x => x) (fun x => x) noDocument 0 offlineEnv readyGenerator = Done r tg'
    /\ RefreshAttempts (metrics tg') = 1
    /\ RefreshFailures (metrics tg') = 1
    /\ HTMLDataFetches (metrics tg') = 1.
Proof.
  eexists. eexists. split; [vm_compute; reflexivity |].
  destruct (Refresh_accounting (fun x => x) (fun x => x) noDocument 0 offlineEnv
              readyGenerator _ _ ltac:(vm_compute; reflexivity)) as (A & B & C & _).
  split; [exact A | split; [exact B | exact C]].
Defined.

(** The ready generator at 1h, with the network down. *)
Lemma Generate_when_fresh_witness :
  IsStale (nowCheck freshGenerate) readyGenerator = false
  /\ exists tg',
      Generate (fun x => x) (fun x => x) noDocument 0 "GET" "/graphql" freshGenerate
        readyGenerator
      = Some (generateUniqueTransactionID "GET" "/graphql" (nowID freshGenerate)
                (randomByte freshGenerate) readyGenerator, tg')
      /\ set_metrics (metrics readyGenerator) tg' = readyGenerator
      /\ TotalGenerations (metrics tg')
         = wrap64 (TotalGenerations (metrics readyGenerator) + 1)
      /\ RefreshAttempts (metrics tg') = RefreshAttempts (metrics readyGenerator)
      /\ HTMLDataFetches (metrics tg') = HTMLDataFetches (metrics readyGenerator).
Proof.
  split; [reflexivity |].
  apply (Generate_when_fresh (fun x => x) (fun x => x) noDocument 0 "GET" "/graphql"
           freshGenerate readyGenerator).
  reflexivity.
Defined.

(** One generation counted on the ready generator. *)
Lemma Generate_accounting_witness :
  exists r tg',
    Generate (fun x => x) (fun x => x) noDocument 0 "GET" "/graphql" freshGenerate
      readyGenerator = Some (r, tg')
    /\ TotalGenerations (metrics tg') = 1.
Proof.
  eexists. eexists. split; [vm_compute; reflexivity |].
  exact (proj1 (Generate_accounting (fun x => x) (fun x => x) noDocument 0 "GET" "/graphql"
                  freshGenerate readyGenerator _ _ ltac:(vm_compute; reflexivity))).
Defined.

(** A forced refresh of the ready generator at 1h while the network is
    down. *)
Lemma failed_ForceRefresh_is_stale_witness :
  exists err tg',
    htmlDataCache readyGenerator <> None
    /\ Hour <= Hour
    /\ ForceRefresh (fun x => x) (fun x => x) noDocument 0 Hour Hour Hour offlineEnv
         readyGenerator = Done (Err err) tg'
    /\ IsStale Hour tg' = true.
Proof.
  eexists. eexists. split; [discriminate |]. split; [apply Z.le_refl |].
  split; [vm_compute; reflexivity |].
  eapply (failed_ForceRefresh_is_stale (fun x => x) (fun x => x) noDocument 0 Hour Hour Hour
            Hour offlineEnv readyGenerator);
    [discriminate | apply Z.le_refl | vm_compute; reflexivity].
Defined.

(** The constructor on the first page, under the default configuration. *)
Lemma NewTransactionGeneratorWithConfig_ready_witness :
  exists tg,
    NewTransactionGeneratorWithConfig (fun _ => 1%float) (fun _ => 0%float) parsePage 100
      DefaultProductionConfig firstEnv = Some (Ok tg)
    /\ 6 <= KeyLength (GetStats (nowCaches firstEnv) tg)
    /\ StatsIsStale (GetStats (nowCaches firstEnv) tg) = false.
Proof.
  eexists. split; [vm_compute; reflexivity |].
  pose proof (NewTransactionGeneratorWithConfig_ready (fun _ => 1%float) (fun _ => 0%float)
                parsePage 100 DefaultProductionConfig firstEnv _
                ltac:(vm_compute; reflexivity)) as H.
  cbv zeta in H.
  split; [exact (proj1 (proj2 (proj2 H))) |].
  apply (proj2 (proj2 (proj2 (proj2 (proj2 (proj2 (proj2 (proj2 (proj2 H)))))))));
    vm_compute; discriminate.
Defined.

(** The ready generator, refreshed from the page without frames. *)
Lemma keyBytes_stay_bytes_witness :
  Forall is_byte (keyBytes readyGenerator)
  /\ forall r tg',
      Refresh (fun x => x) (fun x => x) parsePage 0 halfWayEnv readyGenerator = Done r tg' ->
      Forall is_byte (keyBytes tg').
Proof.
  assert (B : Forall is_byte (keyBytes readyGenerator))
    by (repeat (apply Forall_cons; [unfold is_byte; lia |]); apply Forall_nil).
  split; [exact B |].
  intros r tg'.
  apply (proj1 (keyBytes_stay_bytes (fun x => x) (fun x => x) parsePage 0 readyGenerator B)).
Defined.

(** The page whose key is AAAA: three bytes. *)
Lemma short_key_fails_construction_witness :
  getHomePage (mkNetwork (Body shortKeyPage) onDemandFiles) = Body shortKeyPage
  /\ Base64.DecodeString (findTwitterSiteVerification shortKeyTree) = Some [0; 0; 0]
  /\ exists err,
      NewTransactionGeneratorWithConfig (fun x => x) (fun x => x) (fun _ => Ok shortKeyTree) 0
        DefaultProductionConfig (mkRefreshEnv (mkNetwork (Body shortKeyPage) onDemandFiles) 0 0 0)
      = Some (Err (ErrWrap "failed to initialize transaction generator: " err)).
Proof.
  split; [reflexivity |]. split; [reflexivity |].
  apply (short_key_fails_construction (fun x => x) (fun x => x) (fun _ => Ok shortKeyTree) 0
           DefaultProductionConfig
           (mkRefreshEnv (mkNetwork (Body shortKeyPage) onDemandFiles) 0 0 0)
           shortKeyPage shortKeyTree [0; 0; 0]);
    [reflexivity | reflexivity | reflexivity | cbn; lia].
Defined.

(** ** What the patterns capture *)

Module RegexpFacts.

Import Regexp.

(** A pattern without a closing parenthesis leaves the text of the
    group as it was. *)
Lemma matchHere_keeps_group (p : pattern) :
  Forall (fun i => i <> Close) p ->
  forall s gstart cap r cap',
    matchHere p s gstart cap = Some (r, cap') -> cap' = cap.
Proof.
  induction p as [| i p IH]; intros NC s gstart cap r cap' H.
  - cbn in H. injection H as _ <-. reflexivity.
  - inversion NC as [| ? ? Hi NC']; subst.
    specialize (IH NC').
    destruct i; cbn [matchHere] in H.
    + destruct s as [| d s]; [discriminate H |].
      destruct (Ascii.eqb c d); [eauto | discriminate H].
    + destruct s as [| d s]; [discriminate H |].
      destruct (p0 d); [eauto | discriminate H].
    + revert H. induction s as [| d s IHs]; intros H; [eauto |].
      destruct (p0 d); [| eauto].
      match type of H with
      | match ?x with _ => _ end = _ => destruct x as [[r0 c0] |]
      end; [| eauto].
      apply IHs. exact H.
    + revert H. induction s as [| d s IHs]; intros H.
      * destruct (matchHere p EmptyString gstart cap) as [[r0 c0] |] eqn:E;
          [| discriminate H].
        injection H as -> ->. eauto.
      * destruct (matchHere p (String d s) gstart cap) as [[r0 c0] |] eqn:E.
        { injection H as -> ->. eauto. }
        destruct (p0 d); [| discriminate H]. apply IHs. exact H.
    + destruct s as [| d s]; [eauto |].
      destruct (p0 d); [| eauto].
      destruct (matchHere p s gstart cap) as [[r0 c0] |] eqn:E; [| eauto].
      injection H as -> ->. eauto.
    + eauto.
    + congruence.
Qed.

Lemma takeString_all (w s : string) :
  takeString (String.length (w ++ s) - String.length s) (w ++ s) = w.
Proof.
  assert (A : forall w, String.length (w ++ s) = (String.length w + String.length s)%nat).
  { clear w. induction w as [| c w IHw]; simpl; [reflexivity | rewrite IHw; reflexivity]. }
  assert (L : (String.length (w ++ s) - String.length s)%nat = String.length w)
    by (rewrite A; lia).
  rewrite L. clear L. induction w as [| c w IHw]; simpl.
  - destruct s; reflexivity.
  - f_equal. exact IHw.
Qed.

(** A match of [indicesRegex] captures one or two digits. *)
Lemma matchHere_indices (s r cap : string) :
  matchHere indicesRegex s EmptyString EmptyString = Some (r, cap) ->
  exists d1, isDigit d1 = true
             /\ (cap = String d1 EmptyString
                 \/ exists d2, isDigit d2 = true /\ cap = String d1 (String d2 EmptyString)).
Proof.
  unfold indicesRegex. intros H.
  remember [Lit "]"; Lit ","; Star reSpace; Lit "1"; Lit "6"; Lit ")"] as tail eqn:Etail.
  assert (NC : Forall (fun i => i <> Close) tail)
    by (subst tail; repeat constructor; discriminate).
  clear Etail.
  destruct s as [| c0 s]; cbn [matchHere] in H; [discriminate H |].
  destruct (Ascii.eqb "(" c0); [| discriminate H].
  destruct s as [| c1 s]; [discriminate H |].
  destruct (isWord c1); [| discriminate H].
  destruct s as [| c2 s]; [discriminate H |].
  destruct (Ascii.eqb "[" c2); [| discriminate H].
  destruct s as [| d1 s]; [discriminate H |].
  destruct (isDigit d1) eqn:D1; [| discriminate H].
  exists d1. split; [exact D1 |].
  assert (One : forall r cap,
             matchHere tail s (String d1 s)
               (takeString (String.length (String d1 s) - String.length s) (String d1 s))
             = Some (r, cap) ->
             cap = String d1 EmptyString).
  { intros r0 cap0 H0.
    apply (matchHere_keeps_group _ NC) in H0. subst cap0.
    exact (takeString_all (String d1 EmptyString) s). }
  destruct s as [| d2 s'].
  - left. exact (One _ _ H).
  - destruct (isDigit d2) eqn:D2; [| left; exact (One _ _ H)].
    match type of H with
    | match ?x with _ => _ end = _ => destruct x as [[r0 cap0] |] eqn:E
    end; [| left; exact (One _ _ H)].
    injection H as -> ->. right. exists d2. split; [exact D2 |].
    apply (matchHere_keeps_group _ NC) in E. subst cap.
    exact (takeString_all (String d1 (String d2 EmptyString)) s').
Qed.

(** Every match [findAll] lists comes from [matchHere] at some position. *)
Lemma findFrom_matchHere (p : pattern) (s : string) (m : list string) (rest : string) :
  findFrom p s = Some (m, rest) ->
  exists s' w cap, matchHere p s' EmptyString EmptyString = Some (rest, cap) /\ m = [w; cap].
Proof.
  induction s as [| c s IH]; cbn [findFrom]; unfold matchAt.
  - destruct (matchHere p EmptyString EmptyString EmptyString) as [[r0 c0] |] eqn:E;
      [| discriminate].
    intros H. injection H as <- <-. eauto.
  - destruct (matchHere p (String c s) EmptyString EmptyString) as [[r0 c0] |] eqn:E.
    + intros H. injection H as <- <-. eauto.
    + exact IH.
Qed.

Lemma findAll_matchHere (p : pattern) (fuel : nat) :
  forall s, Forall (fun m => exists s' rest w cap,
                        matchHere p s' EmptyString EmptyString = Some (rest, cap)
                        /\ m = [w; cap]) (findAll fuel p s).
Proof.
  induction fuel as [| k IH]; intros s; cbn [findAll]; [constructor |].
  destruct (findFrom p s) as [[m rest] |] eqn:E; [| constructor].
  destruct (findFrom_matchHere _ _ _ _ E) as (s' & w & cap & M & ->).
  assert (Hm : exists s' rest w0 cap0,
             matchHere p s' EmptyString EmptyString = Some (rest, cap0)
             /\ [w; cap] = [w0; cap0]) by eauto 6.
  destruct (String.length rest <? String.length s)%nat.
  - constructor; [exact Hm | apply IH].
  - destruct rest as [| c rest']; constructor; first [exact Hm | apply IH | constructor].
Qed.


(** A greedy star takes characters of its class, then the rest of the
    pattern matches. *)
Lemma matchHere_star (f : ascii -> bool) (p : pattern) (gstart cap : string)
  (res : string * string) :
  forall s,
    matchHere (Star f :: p) s gstart cap = Some res ->
    exists w s', s = (w ++ s')%string /\ allChars f w = true
                 /\ matchHere p s' gstart cap = Some res.
Proof.
  cbn [matchHere]. induction s as [| d s IHs]; intros H.
  - exists EmptyString, EmptyString. repeat split. exact H.
  - destruct (f d) eqn:Fd.
    + match type of H with
      | match ?x with _ => _ end = _ => destruct x as [r0 |]
      end.
      * destruct (IHs H) as (w & s' & -> & A & M).
        exists (String d w), s'. cbn. rewrite Fd. repeat split; assumption.
      * exists EmptyString, (String d s). repeat split. exact H.
    + exists EmptyString, (String d s). repeat split. exact H.
Qed.

(** Items before the group consume input and leave the group alone. *)
Lemma matchHere_prefix (pre p : pattern) :
  Forall (fun i => i <> Open /\ i <> Close) pre ->
  forall s gstart cap res,
    matchHere (pre ++ p) s gstart cap = Some res ->
    exists s', matchHere p s' gstart cap = Some res.
Proof.
  induction 1 as [| i pre [NO NC] _ IH]; intros s gstart cap res H; [eauto |].
  destruct i; try congruence.
  - cbn [app matchHere] in H. destruct s as [| d s]; [discriminate H |].
    destruct (Ascii.eqb c d); [eauto | discriminate H].
  - cbn [app matchHere] in H. destruct s as [| d s]; [discriminate H |].
    destruct (p0 d); [eauto | discriminate H].
  - change ((Star p0 :: pre) ++ p) with (Star p0 :: (pre ++ p)) in H.
    destruct (matchHere_star _ _ _ _ _ _ H) as (w & s' & _ & _ & M). eauto.
  - cbn [app matchHere] in H. revert H. induction s as [| d s IHs]; intros H.
    + destruct (matchHere (pre ++ p) EmptyString gstart cap) as [r0 |] eqn:E;
        [| discriminate H].
      injection H as ->. eauto.
    + destruct (matchHere (pre ++ p) (String d s) gstart cap) as [r0 |] eqn:E.
      { injection H as ->. eauto. }
      destruct (p0 d); [| discriminate H]. apply IHs. exact H.
  - cbn [app matchHere] in H. destruct s as [| d s]; [eauto |].
    destruct (p0 d); [| eauto].
    destruct (matchHere (pre ++ p) s gstart cap) as [r0 |] eqn:E; [| eauto].
    injection H as ->. eauto.
Qed.

(** The group of [onDemandFileRegex] captures word characters only. *)
Lemma matchHere_onDemand (s r cap : string) :
  matchHere onDemandFileRegex s EmptyString EmptyString = Some (r, cap) ->
  allChars isWord cap = true.
Proof.
  intros H.
  change onDemandFileRegex
    with (([Class quote] ++ lits "ondemand.s"
             ++ [Class quote; Lit ":"; Star reSpace; Class quote])
            ++ Open :: Star isWord :: Close :: [Class quote]) in H.
  apply matchHere_prefix in H.
  2:{ repeat constructor; discriminate. }
  destruct H as (s1 & H). cbn [matchHere] in H.
  change (matchHere (Star isWord :: Close :: [Class quote]) s1 s1 EmptyString
          = Some (r, cap)) in H.
  destruct (matchHere_star _ _ _ _ _ _ H) as (w & s2 & -> & A & M).
  cbn [matchHere] in M.
  change (matchHere [Class quote] s2 (w ++ s2)
            (takeString (String.length (w ++ s2) - String.length s2) (w ++ s2))
          = Some (r, cap)) in M.
  apply matchHere_keeps_group in M; [| repeat constructor; discriminate].
  subst cap. rewrite takeString_all. exact A.
Qed.

(** [FindStringSubmatch] of that pattern: nothing, or the match and a
    group of word characters. *)
Lemma FindStringSubmatch_onDemand (s : string) :
  FindStringSubmatch onDemandFileRegex s = []
  \/ exists w cap, FindStringSubmatch onDemandFileRegex s = [w; cap]
                   /\ allChars isWord cap = true.
Proof.
  unfold FindStringSubmatch.
  destruct (findFrom onDemandFileRegex s) as [[m rest] |] eqn:E; [| left; reflexivity].
  destruct (findFrom_matchHere _ _ _ _ E) as (s' & w & cap & M & ->).
  right. exists w, cap. split; [reflexivity |]. exact (matchHere_onDemand _ _ _ M).
Qed.

End RegexpFacts.

(** ** The indices of the on-demand file *)

Lemma isDigit_range (c : ascii) : isDigit c = true <-> 48 <= byteOfAscii c <= 57.
Proof. unfold isDigit. cbv zeta. rewrite andb_true_iff, !Z.leb_le. tauto. Qed.

(** A digit is not a sign: [atoi] reads the digits from the first one. *)
Lemma atoi_unsigned (d : ascii) (t : string) :
  isDigit d = true ->
  atoi (String d t)
  = match atoiDigits (String d t) 0 with
    | Some v => if (- 2 ^ 63 <=? v) && (v <? 2 ^ 63) then Some v else None
    | None => None
    end.
Proof.
  intros D. destruct d as [b0 b1 b2 b3 b4 b5 b6 b7].
  destruct b0, b1, b2, b3, b4, b5, b6, b7;
    try (vm_compute in D; discriminate D); reflexivity.
Qed.

(** One or two digits are a number from 0 to 99. *)
Lemma atoi_two_digits (d1 : ascii) (cap : string) :
  isDigit d1 = true ->
  cap = String d1 EmptyString
  \/ (exists d2, isDigit d2 = true /\ cap = String d1 (String d2 EmptyString)) ->
  exists v, atoi cap = Some v /\ 0 <= v <= 99.
Proof.
  intros D1 [-> | (d2 & D2 & ->)]; rewrite (atoi_unsigned _ _ D1);
    cbn [atoiDigits]; fold (isDigit d1); rewrite D1; [| fold (isDigit d2); rewrite D2];
    apply isDigit_range in D1; try apply isDigit_range in D2.
  - exists (0 * 10 + (byteOfAscii d1 - 48)).
    replace ((- 2 ^ 63 <=? _) && (_ <? 2 ^ 63)) with true; [split; [reflexivity | lia] |].
    symmetry. apply andb_true_iff. rewrite Z.leb_le, Z.ltb_lt. lia.
  - exists ((0 * 10 + (byteOfAscii d1 - 48)) * 10 + (byteOfAscii d2 - 48)).
    replace ((- 2 ^ 63 <=? _) && (_ <? 2 ^ 63)) with true; [split; [reflexivity | lia] |].
    symmetry. apply andb_true_iff. rewrite Z.leb_le, Z.ltb_lt. lia.
Qed.

Lemma parseIndices_range (matches : list (list string)) :
  Forall (fun m => exists s' rest w cap,
              Regexp.matchHere Regexp.indicesRegex s' EmptyString EmptyString
              = Some (rest, cap)
              /\ m = [w; cap]) matches ->
  forall indices,
    Forall (fun i => 0 <= i <= 99) indices ->
    exists l, parseIndices matches indices = Ok l
              /\ Forall (fun i => 0 <= i <= 99) l
              /\ List.length l = (List.length indices + List.length matches)%nat.
Proof.
  induction 1 as [| m matches (s' & rest & w & cap & M & ->) _ IH]; intros indices R.
  - exists indices. cbn. repeat split; [exact R | lia].
  - destruct (RegexpFacts.matchHere_indices _ _ _ M) as (d1 & D1 & Hcap).
    destruct (atoi_two_digits _ _ D1 Hcap) as (v & A & Hv).
    cbn [parseIndices List.length Nat.ltb Nat.leb nth]. rewrite A.
    destruct (IH (indices ++ [v])) as (l & P & F & L).
    { apply Forall_app. split; [exact R | constructor; [exact Hv | constructor]]. }
    exists l. rewrite P. repeat split; [exact F |].
    rewrite L, length_app. cbn [List.length]. lia.
Qed.

(** X11. [extractIndices] fails in one way only - no match of the pattern
    in the on-demand file, and then the generator is untouched; its two
    other errors cannot occur, since a match captures one or two digits.
    When it succeeds there is one index for each match: the first is the
    row index, the others the key byte indices, and all lie between 0 and
    99 (so none is negative when [generateAnimationKey] indexes with it). *)
Theorem extractIndices_outcome (tg : TransactionGenerator) :
  let matches := Regexp.FindAllStringSubmatch Regexp.indicesRegex (onDemandFileHTML tg) in
  match extractIndices tg with
  | (Ok _, tg') =>
      0 <= rowIndex tg' <= 99
      /\ Forall (fun i => 0 <= i <= 99) (keyBytesIndices tg')
      /\ S (List.length (keyBytesIndices tg')) = List.length matches
      /\ tg' = set_indices (rowIndex tg') (keyBytesIndices tg') tg
  | (Err e, tg') =>
      e = ErrMsg "no indices found in ondemand file" /\ tg' = tg /\ matches = []
  end.
Proof.
  intros matches. unfold extractIndices. fold matches.
  pose proof (RegexpFacts.findAll_matchHere Regexp.indicesRegex
                (S (String.length (onDemandFileHTML tg))) (onDemandFileHTML tg)) as F.
  fold (Regexp.FindAllStringSubmatch Regexp.indicesRegex (onDemandFileHTML tg)) in F.
  fold matches in F.
  destruct (parseIndices_range matches F [] (Forall_nil _)) as (l & P & R & L).
  destruct matches as [| m ms] eqn:E; [repeat split |].
  rewrite P. destruct l as [| first rest]; [cbn in L; discriminate L |].
  inversion R as [| ? ? R1 R2]; subst. cbn in L |- *.
  repeat split; try assumption; lia.
Qed.

(** ** The on-demand file *)

(** X12. [fetchTwitterData] asks for the on-demand file at one kind of
    URL only: the fixed prefix, a run of word characters taken from the
    home page, and [a.js]. Two networks that serve the same home page and
    agree on these URLs give the same result and the same generator. *)
Theorem fetchTwitterData_url (n1 n2 : Network) (tg : TransactionGenerator) :
  getHomePage n1 = getHomePage n2 ->
  (forall w, allChars isWord w = true ->
             let url := ("https://abs.twimg.com/responsive-web/client-web/ondemand.s."
                           ++ w ++ "a.js")%string in
             getOnDemand n1 url = getOnDemand n2 url) ->
  fetchTwitterData n1 tg = fetchTwitterData n2 tg.
Proof.
  intros Hhome Hurl. unfold fetchTwitterData. rewrite Hhome.
  destruct (getHomePage n2) as [e | e | page]; try reflexivity.
  cbn [homePageHTML set_homePageHTML set_metrics].
  destruct (RegexpFacts.FindStringSubmatch_onDemand page) as [-> | (w & cap & -> & A)];
    [reflexivity |].
  cbn [List.length Nat.ltb Nat.leb nth]. rewrite (Hurl cap A). reflexivity.
Qed.

(** Two networks that serve the first page and differ on a URL that is
    never asked for. *)
Lemma fetchTwitterData_url_witness :
  let other :=
    mkNetwork (Body firstPage)
      (fun url => if String.eqb url "https://example.com/" then Body "x"
                  else onDemandFiles url) in
  getHomePage servingFirstPage = getHomePage other
  /\ fetchTwitterData servingFirstPage readyGenerator = fetchTwitterData other readyGenerator.
Proof.
  cbv zeta. split; [reflexivity |].
  apply fetchTwitterData_url; [reflexivity |].
  intros w _. cbv zeta. cbn [getOnDemand servingFirstPage]. reflexivity.
Defined.

(** ** The text of a transaction ID *)

(** X13. [trimBase64Padding] removes a run of '=' at the end and nothing
    else: the input is the result followed by '=' characters only, and the
    result does not end with '='. *)
Theorem trimBase64Padding_spec (s : string) :
  (exists k, s = (trimBase64Padding s ++ padding k)%string)
  /\ (forall t c, trimBase64Padding s = (t ++ String c EmptyString)%string ->
                  Base64.isPad c = false).
Proof.
  split.
  - induction s as [| a rest [k IH]]; [exists 0%nat; reflexivity |].
    cbn [trimBase64Padding].
    destruct (trimBase64Padding rest) as [| b u] eqn:E.
    + destruct (Base64.isPad a) eqn:Pa.
      * exists (S k). apply Ascii.eqb_eq in Pa. subst a. rewrite IH at 1. reflexivity.
      * exists k. rewrite IH at 1. reflexivity.
    + exists k. rewrite IH at 1. reflexivity.
  - induction s as [| a rest IH]; intros t c H.
    + destruct t; discriminate H.
    + cbn [trimBase64Padding] in H.
      destruct (trimBase64Padding rest) as [| b u] eqn:E.
      * destruct (Base64.isPad a) eqn:Pa; [destruct t; discriminate H |].
        destruct t as [| x t]; [injection H as <-; exact Pa |].
        destruct t; discriminate H.
      * destruct t as [| x t]; [discriminate H |].
        injection H as _ H. exact (IH _ _ H).
Qed.

Lemma inAlphabet_encodeChar (v : Z) : inAlphabet (Base64.encodeChar (v mod 64)) = true.
Proof.
  unfold inAlphabet.
  rewrite (proj1 (Base64Facts.encodeChar_facts _ (Base64Facts.sextet_range v))).
  reflexivity.
Qed.

Lemma isPad_encodeChar (v : Z) : Base64.isPad (Base64.encodeChar (v mod 64)) = false.
Proof. exact (proj1 (proj2 (Base64Facts.encodeChar_facts _ (Base64Facts.sextet_range v)))). Qed.

(** The unpadded encoding of [n] bytes: characters of the alphabet,
    [ceil (4 n / 3)] of them. *)
Lemma unpadded_encoding (bs : list Z) :
  let id := trimBase64Padding (Base64.EncodeToString bs) in
  allChars inAlphabet id = true
  /\ String.length id = ((4 * List.length bs + 2) / 3)%nat.
Proof.
  induction bs as [| a | a b | a b c l [IH1 IH2]] using Base64Facts.list_ind3; cbv zeta in *.
  - split; reflexivity.
  - cbn [Base64.EncodeToString].
    rewrite !Base64Facts.trim_nonpad by apply isPad_encodeChar.
    cbn [allChars String.length trimBase64Padding]. rewrite !inAlphabet_encodeChar.
    split; reflexivity.
  - cbn [Base64.EncodeToString].
    rewrite !Base64Facts.trim_nonpad by apply isPad_encodeChar.
    cbn [allChars String.length trimBase64Padding]. rewrite !inAlphabet_encodeChar.
    split; reflexivity.
  - cbn [Base64.EncodeToString].
    rewrite !Base64Facts.trim_nonpad by apply isPad_encodeChar.
    cbn [allChars String.length]. rewrite !inAlphabet_encodeChar, IH1, IH2.
    split; [reflexivity |].
    cbn [List.length].
    replace (4 * S (S (S (List.length l))) + 2)%nat
      with (4 * List.length l + 2 + 4 * 3)%nat by lia.
    rewrite Nat.div_add by discriminate. lia.
Qed.

(** X14. The text of a transaction ID. Whenever the random byte can be
    read, [generateUniqueTransactionID] returns an ID made of characters
    of the base64 alphabet only - no '=' in it - and its length is
    [ceil (4 (len(key_bytes) + 22) / 3)]: the key bytes, one mask byte,
    four time bytes, sixteen digest bytes and the final byte. *)
Theorem transaction_id_text (method path : string) (now r : Z) (tg : TransactionGenerator) :
  exists id,
    generateUniqueTransactionID method path now (Ok r) tg = Ok id
    /\ allChars inAlphabet id = true
    /\ allChars (fun c => negb (Base64.isPad c)) id = true
    /\ String.length id = ((4 * (List.length (keyBytes tg) + 22) + 2) / 3)%nat.
Proof.
  unfold generateUniqueTransactionID. eexists. split; [reflexivity |].
  match goal with
  | |- context [Base64.EncodeToString ?l] =>
      destruct (unpadded_encoding l) as [A L]; cbv zeta in A, L;
      assert (N : List.length l = (List.length (keyBytes tg) + 22)%nat)
  end.
  { cbn [List.length]. rewrite length_map.
    rewrite (proj2 (payload_bytes method path (timeNowOf now) tg)). lia. }
  rewrite N in L. split; [exact A |]. split; [| exact L].
  revert A. generalize (trimBase64Padding
                          (Base64.EncodeToString
                             (r :: map (fun b => Z.lxor b r)
                                     (payload method path (timeNowOf now) tg)))).
  induction s as [| c s IH]; [reflexivity |].
  cbn [allChars]. intros A. apply andb_true_iff in A. destruct A as [Ac As].
  rewrite (IH As), andb_true_r.
  unfold inAlphabet in Ac. destruct (Base64.isPad c) eqn:P; [| reflexivity].
  apply Ascii.eqb_eq in P. subst c. vm_compute in Ac. discriminate Ac.
Qed.

(** X15. The ID tells the mask byte and the payload apart. Two IDs built
    with mask bytes from 0 to 255 are equal only when the mask bytes are
    equal and the payloads - key bytes, time bytes, digest prefix and
    final byte - are equal too. *)
Theorem transaction_id_injective (method1 path1 method2 path2 : string) (now1 now2 r1 r2 : Z)
  (tg1 tg2 : TransactionGenerator) :
  is_byte r1 -> is_byte r2 ->
  generateUniqueTransactionID method1 path1 now1 (Ok r1) tg1
  = generateUniqueTransactionID method2 path2 now2 (Ok r2) tg2 ->
  r1 = r2
  /\ payload method1 path1 (timeNowOf now1) tg1 = payload method2 path2 (timeNowOf now2) tg2.
Proof.
  unfold generateUniqueTransactionID. intros B1 B2 H0. cbv zeta in H0.
  assert (H : trimBase64Padding
                (Base64.EncodeToString
                   (r1 :: map (fun b => Z.lxor b r1)
                            (payload method1 path1 (timeNowOf now1) tg1)))
              = trimBase64Padding
                  (Base64.EncodeToString
                     (r2 :: map (fun b => Z.lxor b r2)
                              (payload method2 path2 (timeNowOf now2) tg2))))
    by congruence.
  clear H0. apply (f_equal repad) in H. rewrite !Base64Facts.repad_trim_encode in H.
  apply (f_equal Base64.DecodeString) in H.
  rewrite !Base64Facts.DecodeString_EncodeToString in H.
  - injection H as Hr Hp. split; [exact Hr |]. subst r2.
    apply (f_equal (map (fun b => Z.lxor b r1))) in Hp. rewrite !unmask in Hp. exact Hp.
  - constructor; [exact B2 | apply Forall_mask; [exact B2 | apply payload_bytes]].
  - constructor; [exact B1 | apply Forall_mask; [exact B1 | apply payload_bytes]].
Qed.

(** X16. The clock of the ID. From the epoch of the algorithm on (and
    below 2^63 nanoseconds of Unix time), the time that goes into the ID
    is the number of whole seconds since that epoch: it is not negative
    and it never decreases when the clock advances. *)
Theorem timeNowOf_seconds (now1 now2 : Z) :
  TwitterEpoch * Second <= now1 -> now1 <= now2 -> now2 < 2 ^ 63 ->
  timeNowOf now1 = now1 / Second - TwitterEpoch
  /\ 0 <= timeNowOf now1 <= timeNowOf now2.
Proof.
  intros H1 H2 H3.
  assert (F : forall now, TwitterEpoch * Second <= now -> now < 2 ^ 63 ->
                          timeNowOf now = now / Second - TwitterEpoch).
  { intros now Ha Hb. unfold timeNowOf, UnixMicro, wrap64.
    unfold TwitterEpoch, Second in *.
    assert (0 <= now / 1000 - 1682924400 * 1000000 < 2 ^ 63).
    { split; [| apply Z.lt_le_trans with (m := now / 1000 + 1); [lia |]].
      - assert (1682924400 * 1000000 <= now / 1000); [| lia].
        apply Z.div_le_lower_bound; lia.
      - assert (now / 1000 <= now); [apply Z.div_le_upper_bound; lia | lia]. }
    rewrite Z.mod_small by lia.
    replace (now / 1000 - 1682924400 * 1000000 + 2 ^ 63 - 2 ^ 63)
      with (now / 1000 - 1682924400 * 1000000) by lia.
    rewrite Z.quot_div_nonneg by lia.
    replace (now / 1000 - 1682924400 * 1000000)
      with (now / 1000 + (- 1682924400) * 1000000) by lia.
    rewrite Z.div_add by lia. rewrite Z.div_div by lia. reflexivity. }
  rewrite (F now1) by lia. rewrite (F now2) by lia.
  split; [reflexivity |].
  split.
  - assert (TwitterEpoch <= now1 / Second); [| lia].
    apply Z.div_le_lower_bound; unfold Second in *; lia.
  - assert (now1 / Second <= now2 / Second); [| lia].
    apply Z.div_le_mono; unfold Second; lia.
Qed.

(** Two IDs of the ready generator with the same mask byte. *)
Lemma transaction_id_injective_witness :
  is_byte 90
  /\ generateUniqueTransactionID "GET" "/graphql" ((TwitterEpoch + 3600) * Second) (Ok 90)
       readyGenerator
     = generateUniqueTransactionID "GET" "/graphql" ((TwitterEpoch + 3600) * Second) (Ok 90)
         readyGenerator
  /\ payload "GET" "/graphql" (timeNowOf ((TwitterEpoch + 3600) * Second)) readyGenerator
     = payload "GET" "/graphql" (timeNowOf ((TwitterEpoch + 3600) * Second)) readyGenerator.
Proof.
  assert (B : is_byte 90) by (unfold is_byte; lia).
  split; [exact B |]. split; [reflexivity |].
  exact (proj2 (transaction_id_injective "GET" "/graphql" "GET" "/graphql"
                  ((TwitterEpoch + 3600) * Second) ((TwitterEpoch + 3600) * Second) 90 90
                  readyGenerator readyGenerator B B eq_refl)).
Defined.

(** One hour after the epoch, and one second later. *)
Lemma timeNowOf_seconds_witness :
  TwitterEpoch * Second <= (TwitterEpoch + 3600) * Second
  /\ (TwitterEpoch + 3600) * Second <= (TwitterEpoch + 3601) * Second
  /\ (TwitterEpoch + 3601) * Second < 2 ^ 63
  /\ timeNowOf ((TwitterEpoch + 3600) * Second)
     = (TwitterEpoch + 3600) * Second / Second - TwitterEpoch
  /\ 0 <= timeNowOf ((TwitterEpoch + 3600) * Second)
     <= timeNowOf ((TwitterEpoch + 3601) * Second).
Proof.
  assert (H1 : TwitterEpoch * Second <= (TwitterEpoch + 3600) * Second)
    by (vm_compute; discriminate).
  assert (H2 : (TwitterEpoch + 3600) * Second <= (TwitterEpoch + 3601) * Second)
    by (vm_compute; discriminate).
  assert (H3 : (TwitterEpoch + 3601) * Second < 2 ^ 63) by (vm_compute; reflexivity).
  split; [exact H1 |]. split; [exact H2 |]. split; [exact H3 |].
  exact (timeNowOf_seconds _ _ H1 H2 H3).
Defined.

(** ** The retry loop, run by run *)

Section RetryFacts.

Variables (W User : Type).
Variable operation : W -> result User * W.
Variable ctxErr : W -> option error.
Variable wait : Z -> W -> waitOutcome * W.
Variable forceRefresh forceRefresh' : W -> W.
Variable Pow : float -> float -> float.

Let loop := attempts W User operation ctxErr wait forceRefresh Pow.
Let loop' := attempts W User operation ctxErr wait forceRefresh' Pow.
Let world := attemptWorld W User operation wait forceRefresh Pow.

(** X17. A run of [executeWithRetry] is a series of failed executions,
    ended by the first success if there is one: a result is returned
    exactly when the last execution succeeded, and nothing is executed
    after it. Execution [i + 1] is the operation in [attemptWorld i], the
    world the executions, waits and forced refreshes before it have led
    to; every execution followed by another one failed, left the context
    alive and was followed by a wait for its backoff that the timer
    ended. The client has then counted the request, each failure
    ([recordError]) and the success ([recordSuccess], which resets the
    error streak). A result is the one of the last execution, and the
    world is the one it left. An error returned is either the "failed
    after N attempts" error around the error of the last execution
    (without a cause when nothing was executed), in the world the last
    execution left; or the error of the context, when the wait of this
    run after its last execution - for the backoff of that attempt, in
    the world the execution left, with the context still alive - was
    interrupted: the world is then the one this wait left. *)
Theorem executeWithRetry_trace (c : Client) (w : W) :
  let run := executeWithRetry W User operation ctxErr wait forceRefresh Pow c w in
  let execution (i : nat) := operation (world i 1 (countRequest c) w) in
  let failures (i : nat) := Nat.iter i recordError (countRequest c) in
  exists errs,
    executions W User run
    = map Err errs ++ match returned W User run with Ok u => [Ok u] | Err _ => [] end
    /\ (forall i e, nth_error errs i = Some e -> fst (execution i) = Err e)
    /\ (forall i, (S i < List.length (executions W User run))%nat ->
          ctxErr (snd (execution i)) = None
          /\ fst (wait (backoffDuration Pow (failures (S i)) (Z.of_nat (S i)))
                    (snd (execution i)))
             = TimerFired)
    /\ clientAfter W User run
       = match returned W User run with
         | Ok _ => recordSuccess (failures (List.length errs))
         | Err _ => failures (List.length errs)
         end
    /\ match returned W User run with
       | Ok u =>
           errorStreak (clientAfter W User run) = 0
           /\ execution (List.length errs) = (Ok u, worldAfter W User run)
       | Err e =>
           (e = exhausted (maxAttemptsOf c) (last (map Some errs) None)
            /\ worldAfter W User run
               = match List.length errs with
                 | O => w
                 | S k => snd (execution k)
                 end)
           \/ (exists k,
                 List.length errs = S k
                 /\ ctxErr (snd (execution k)) = None
                 /\ wait (backoffDuration Pow (clientAfter W User run) (Z.of_nat (S k)))
                      (snd (execution k))
                    = (ContextDone e, worldAfter W User run))
       end.
Proof.
  intros run execution failures.
  assert (Hrun : run = loop (Z.to_nat (maxAttemptsOf c)) 1 (maxAttemptsOf c) None
                         (countRequest c) w []) by reflexivity.
  clearbody run. subst execution failures. cbv beta.
  destruct (Z.le_gt_cases (maxAttemptsOf c) 0) as [Hm | Hm].
  { replace (Z.to_nat (maxAttemptsOf c)) with 0%nat in Hrun by lia. subst run.
    exists []. cbn. repeat split; try (intros [| i] e H; discriminate H); try lia.
    left. split; reflexivity. }
  assert (Hs : Z.to_nat (maxAttemptsOf c) = S (Z.to_nat (maxAttemptsOf c - 1))) by lia.
  rewrite Hs in Hrun.
  destruct (attempts_run W User operation ctxErr wait forceRefresh Pow
              (maxAttemptsOf c) (Z.to_nat (maxAttemptsOf c - 1)) 1 None
              (countRequest c) w [] ltac:(lia)) as (k & Hk & E & Hre & Hend).
  cbv zeta in E, Hend. fold loop world in E, Hend, Hre. rewrite <- Hrun in E, Hend.
  clear Hrun.
  destruct (errors_of_failures User k
              (fun i => fst (operation (world i 1 (countRequest c) w)))
              ltac:(intros i Hi; destruct (Hre i Hi) as (e & He & _); exists e; exact He))
    as (errs & L & M & N).
  cbn [app] in E. rewrite seq_S, map_app, <- M in E. cbn [map Nat.add] in E.
  assert (Hwaits : forall i, (S i < List.length (executions W User run))%nat ->
            ctxErr (snd (operation (world i 1 (countRequest c) w))) = None
            /\ fst (wait (backoffDuration Pow (Nat.iter (S i) recordError (countRequest c))
                            (Z.of_nat (S i)))
                      (snd (operation (world i 1 (countRequest c) w))))
               = TimerFired).
  { intros i Hi. rewrite E, length_app, length_map, L in Hi. cbn [List.length] in Hi.
    destruct (Hre i ltac:(lia)) as (e & _ & H2 & H3).
    replace (Z.of_nat (S i)) with (1 + Z.of_nat i) by lia. split; assumption. }
  destruct (operation (world k 1 (countRequest c) w)) as [[u | e] w1] eqn:Ek;
    cbn [fst] in E.
  - destruct Hend as (R & C & Hw). exists errs. rewrite R, L.
    split; [exact E |]. split; [exact N |]. split; [exact Hwaits |].
    split; [exact C |]. split; [rewrite C; reflexivity |].
    rewrite Ek, Hw. reflexivity.
  - destruct Hend as (C & Hend). exists (errs ++ [e])%list.
    assert (L' : List.length (errs ++ [e]) = S k)
      by (rewrite length_app, L; cbn [List.length]; lia).
    assert (N' : forall i e0, nth_error (errs ++ [e]) i = Some e0 ->
                              fst (operation (world i 1 (countRequest c) w)) = Err e0).
    { intros i e0 H. destruct (Nat.lt_ge_cases i (List.length errs)) as [Hi | Hi].
      - rewrite nth_error_app1 in H by exact Hi. apply N. exact H.
      - rewrite nth_error_app2 in H by exact Hi.
        destruct (i - List.length errs)%nat as [| j] eqn:Ej.
        + cbn in H. injection H as <-. replace i with k by lia. rewrite Ek. reflexivity.
        + destruct j; discriminate H. }
    rewrite L'.
    destruct Hend as [(R & Hw & _) | (_ & Hctx & e' & Hwait & R)]; rewrite R.
    + split; [rewrite E, map_app, app_nil_r; reflexivity |].
      split; [exact N' |]. split; [exact Hwaits |].
      split; [exact C |]. left. split; [| rewrite Ek; exact Hw].
      rewrite map_app. cbn [map]. rewrite last_last. reflexivity.
    + split; [rewrite E, map_app, app_nil_r; reflexivity |].
      split; [exact N' |]. split; [exact Hwaits |].
      split; [exact C |]. right. exists k. split; [reflexivity |].
      rewrite Ek. cbn [snd].
      split; [exact Hctx |]. rewrite C.
      replace (Z.of_nat (S k)) with (1 + Z.of_nat k) by lia. exact Hwait.
Qed.

(** The loop with another forced refresh. *)
Lemma attempts_below_threshold (maxAttempts : Z) (left : nat) :
  forall (attempt : Z) (lastError : option error) (c : Client) (w : W)
         (trace : list (result User)),
    Z.of_nat left = maxAttempts - attempt + 1 ->
    0 <= errorStreak c ->
    errorStreak c + Z.of_nat left <= ErrorThresholdForRefresh (clientConfig c) ->
    ErrorThresholdForRefresh (clientConfig c) < 2 ^ 63 ->
    loop left attempt maxAttempts lastError c w trace
    = loop' left attempt maxAttempts lastError c w trace.
Proof.
  induction left as [| left IH]; intros attempt lastError c w trace Hs H0 H1 H2;
    [reflexivity |].
  unfold loop, loop'. rewrite !attempts_step. fold loop loop'.
  destruct (operation w) as [[res | err] w1]; [reflexivity |].
  destruct (Z.leb_spec maxAttempts attempt) as [Hlast | Hmore]; [reflexivity |].
  cbn [orb].
  destruct (match ctxErr w1 with Some _ => true | None => false end); [reflexivity |].
  destruct (wait _ w1) as [[| e0] w2]; [| reflexivity].
  assert (S1 : errorStreak (recordError c) = errorStreak c + 1).
  { cbn [recordError errorStreak]. unfold wrap64.
    assert (errorStreak c + 1 < 2 ^ 63) by lia.
    change (2 ^ 64) with (2 * 2 ^ 63). rewrite Z.mod_small; lia. }
  assert (N : shouldRefreshDueToErrors (recordError c) = false).
  { unfold shouldRefreshDueToErrors. rewrite S1. cbn [recordError clientConfig].
    apply Z.leb_gt. lia. }
  rewrite N. apply IH; rewrite ?S1; cbn [recordError clientConfig]; lia.
Qed.

(** X18. When no refresh is forced. With retry turned off the run is one
    execution and nothing else: it does not wait, and it does not force a
    refresh of the generator however long the error streak is - the
    threshold is only looked at between two attempts. With retry on,
    when the error streak of the client plus the number of attempts
    allowed does not exceed [ErrorThresholdForRefresh], the run never
    forces a refresh either: it is the same run whatever the forced
    refresh would do. *)
Theorem executeWithRetry_no_forced_refresh (wait' : Z -> W -> waitOutcome * W)
  (Pow' : float -> float -> float) (c : Client) (w : W) :
  (retryEnabled c = false ->
   executeWithRetry W User operation ctxErr wait forceRefresh Pow c w
   = executeWithRetry W User operation ctxErr wait' forceRefresh' Pow' c w
   /\ List.length
        (executions W User
           (executeWithRetry W User operation ctxErr wait forceRefresh Pow c w))
      = 1%nat)
  /\ (0 <= errorStreak c ->
      errorStreak c + maxAttemptsOf c <= ErrorThresholdForRefresh (clientConfig c) ->
      ErrorThresholdForRefresh (clientConfig c) < 2 ^ 63 ->
      executeWithRetry W User operation ctxErr wait forceRefresh Pow c w
      = executeWithRetry W User operation ctxErr wait forceRefresh' Pow c w).
Proof.
  split.
  - intros Hoff. unfold executeWithRetry.
    assert (Hm : maxAttemptsOf (countRequest c) = 1)
      by (unfold maxAttemptsOf; cbn [countRequest retryEnabled]; rewrite Hoff; reflexivity).
    rewrite Hm. change (Z.to_nat 1) with 1%nat. rewrite !attempts_step.
    destruct (operation w) as [[res | err] w1]; split; reflexivity.
  - intros H0 H1 H2. unfold executeWithRetry. fold loop loop'.
    change (maxAttemptsOf (countRequest c)) with (maxAttemptsOf c).
    destruct (Z.le_gt_cases 0 (maxAttemptsOf c)) as [Hm | Hm].
    2:{ replace (Z.to_nat (maxAttemptsOf c)) with 0%nat by lia. reflexivity. }
    apply attempts_below_threshold; cbn [countRequest errorStreak clientConfig];
      try assumption; lia.
Qed.

End RetryFacts.

(** The client without retry, with an interrupted wait in place of the
    timer; the patient client, whose four failed attempts stay below its
    threshold of five. *)
Lemma executeWithRetry_no_forced_refresh_witness :
  (retryEnabled noRetryClient = false
   /\ executeWithRetry nat unit alwaysFails (fun _ => None) (fun _ w => (TimerFired, w))
        (fun w => w) (fun x _ => x) noRetryClient 0%nat
      = executeWithRetry nat unit alwaysFails (fun _ => None)
          (fun _ w => (ContextDone (ErrMsg "context canceled"), w)) S (fun _ y => y)
          noRetryClient 0%nat)
  /\ (errorStreak patientClient + maxAttemptsOf patientClient
      <= ErrorThresholdForRefresh (clientConfig patientClient)
      /\ executeWithRetry nat unit alwaysFails (fun _ => None) (fun _ w => (TimerFired, w))
           (fun w => w) (fun x _ => x) patientClient 0%nat
         = executeWithRetry nat unit alwaysFails (fun _ => None) (fun _ w => (TimerFired, w))
             S (fun x _ => x) patientClient 0%nat).
Proof.
  split.
  - split; [reflexivity |].
    apply (proj1 (proj1 (executeWithRetry_no_forced_refresh nat unit alwaysFails
                           (fun _ => None) (fun _ w => (TimerFired, w)) (fun w => w) S
                           (fun x _ => x)
                           (fun _ w => (ContextDone (ErrMsg "context canceled"), w))
                           (fun _ y => y) noRetryClient 0%nat) eq_refl)).
  - split; [vm_compute; discriminate |].
    apply (proj2 (executeWithRetry_no_forced_refresh nat unit alwaysFails
                    (fun _ => None) (fun _ w => (TimerFired, w)) (fun w => w) S
                    (fun x _ => x) (fun _ w => (TimerFired, w)) (fun x _ => x)
                    patientClient 0%nat));
      [vm_compute; discriminate | vm_compute; discriminate | vm_compute; reflexivity].
Defined.

(** ** The guest token *)

Lemma decimal_digit (d : Z) : 0 <= d < 10 -> isDigit (asciiOfByte (48 + d)) = true.
Proof.
  intros H.
  assert (K : forallb (fun d => isDigit (asciiOfByte (48 + d))) decimals = true)
    by (vm_compute; reflexivity).
  apply (proj1 (forallb_forall _ decimals) K).
  unfold decimals. rewrite <- (Z2Nat.id d) by lia. apply in_map, in_seq. lia.
Qed.

(** A number of [k + 1] decimal digits is written with [k + 1] digits. *)
Lemma decDigits_digits (k : nat) :
  forall (fuel : nat) (n : Z) (acc : string),
    (k < fuel)%nat -> 10 ^ Z.of_nat k <= n < 10 ^ Z.of_nat (S k) ->
    allChars isDigit acc = true ->
    String.length (decDigits fuel n acc) = (S k + String.length acc)%nat
    /\ allChars isDigit (decDigits fuel n acc) = true.
Proof.
  induction k as [| k IH]; intros fuel n acc Hf Hn Ha;
    (destruct fuel as [| fuel]; [lia |]); cbn [decDigits].
  - change (10 ^ Z.of_nat 0) with 1 in Hn. change (10 ^ Z.of_nat 1) with 10 in Hn.
    replace (n / 10 =? 0) with true by (symmetry; apply Z.eqb_eq, Z.div_small; lia).
    cbn [String.length allChars]. rewrite Ha, decimal_digit by (apply Z.mod_pos_bound; lia).
    split; reflexivity.
  - assert (P : 10 ^ Z.of_nat (S k) = 10 * 10 ^ Z.of_nat k)
      by (rewrite Nat2Z.inj_succ, Z.pow_succ_r by lia; reflexivity).
    assert (Q : 10 ^ Z.of_nat (S (S k)) = 10 * 10 ^ Z.of_nat (S k))
      by (rewrite (Nat2Z.inj_succ (S k)), Z.pow_succ_r by lia; reflexivity).
    assert (Pos : 0 < 10 ^ Z.of_nat k) by (apply Z.pow_pos_nonneg; lia).
    assert (R : 10 ^ Z.of_nat k <= n / 10 < 10 ^ Z.of_nat (S k)).
    { split; [apply Z.div_le_lower_bound; lia | apply Z.div_lt_upper_bound; lia]. }
    replace (n / 10 =? 0) with false by (symmetry; apply Z.eqb_neq; lia).
    destruct (IH fuel (n / 10) (String (asciiOfByte (48 + n mod 10)) acc)) as [L D];
      [lia | exact R | |].
    { cbn [allChars]. rewrite Ha, decimal_digit by (apply Z.mod_pos_bound; lia). reflexivity. }
    rewrite L, D. cbn [String.length]. split; [lia | reflexivity].
Qed.

(** X19. The guest token of today. For every Unix time from 10^9
    (September 2001) to 9223372035 and every random part below 10^9,
    [generateGuestToken] returns the decimal writing of
    [now * 10^9 + randomPart], which has exactly 19 digits: neither the
    truncation nor the padding with 195 takes place. *)
Theorem generateGuestToken_digits (now randomPart : Z) :
  1000000000 <= now <= 9223372035 -> 0 <= randomPart < 1000000000 ->
  generateGuestToken now randomPart = itoa (now * 1000000000 + randomPart)
  /\ String.length (generateGuestToken now randomPart) = 19%nat
  /\ allChars isDigit (generateGuestToken now randomPart) = true.
Proof.
  intros Hn Hr. unfold generateGuestToken.
  assert (W1 : wrap64 (now * 1000000000) = now * 1000000000).
  { unfold wrap64. change (2 ^ 64) with (2 * 2 ^ 63). change (2 ^ 63) with 9223372036854775808.
    rewrite Z.mod_small; lia. }
  assert (W2 : wrap64 (now * 1000000000 + randomPart) = now * 1000000000 + randomPart).
  { unfold wrap64. change (2 ^ 64) with (2 * 2 ^ 63). change (2 ^ 63) with 9223372036854775808.
    rewrite Z.mod_small; lia. }
  rewrite W1, W2. cbv zeta.
  set (v := now * 1000000000 + randomPart).
  assert (Hv : 10 ^ Z.of_nat 18 <= v < 10 ^ Z.of_nat 19).
  { change (10 ^ Z.of_nat 18) with 1000000000000000000.
    change (10 ^ Z.of_nat 19) with 10000000000000000000. subst v. lia. }
  assert (Hl : 59 <= Z.log2 v).
  { apply Z.log2_le_pow2; [| change (10 ^ Z.of_nat 18) with 1000000000000000000 in Hv];
      change (2 ^ 59) with 576460752303423488; lia. }
  destruct (decDigits_digits 18 (S (Z.to_nat (Z.log2 v))) v EmptyString) as [L D];
    [lia | exact Hv | reflexivity |].
  assert (E : itoa v = decDigits (S (Z.to_nat (Z.log2 v))) v EmptyString).
  { unfold itoa. replace (v <? 0) with false; [reflexivity |].
    symmetry. apply Z.ltb_ge.
    change (10 ^ Z.of_nat 18) with 1000000000000000000 in Hv. lia. }
  assert (L' : String.length (itoa v) = 19%nat) by (rewrite E; exact L).
  rewrite L'. change (19 <? 19)%nat with false. cbv iota.
  split; [reflexivity |]. split; [exact L' | rewrite E; exact D].
Qed.

(** The token of 14 November 2023, 22:13:20 UTC. *)
Lemma generateGuestToken_digits_witness :
  1000000000 <= 1700000000 <= 9223372035
  /\ 0 <= 123456789 < 1000000000
  /\ generateGuestToken 1700000000 123456789 = "1700000000123456789"%string.
Proof.
  assert (H1 : 1000000000 <= 1700000000 <= 9223372035) by lia.
  assert (H2 : 0 <= 123456789 < 1000000000) by lia.
  split; [exact H1 |]. split; [exact H2 |].
  rewrite (proj1 (generateGuestToken_digits 1700000000 123456789 H1 H2)).
  vm_compute. reflexivity.
Defined.

(** ** The headers of a request *)

Lemma headerGet_set_same (k v : string) (h : Header) : headerGet k (headerSet k v h) = v.
Proof.
  induction h as [| [k0 vs] h IH]; cbn [headerSet headerGet].
  - rewrite String.eqb_refl. reflexivity.
  - destruct (String.eqb k0 k) eqn:E; cbn [headerGet].
    + rewrite String.eqb_refl. reflexivity.
    + rewrite E. exact IH.
Qed.

Lemma headerGet_set_other (k k' v : string) (h : Header) :
  String.eqb k' k = false -> headerGet k (headerSet k' v h) = headerGet k h.
Proof.
  intros N. induction h as [| [k0 vs] h IH]; cbn [headerSet headerGet].
  - rewrite N. reflexivity.
  - destruct (String.eqb k0 k') eqn:E; cbn [headerGet].
    + apply String.eqb_eq in E. subst k0. rewrite N. reflexivity.
    + rewrite IH. reflexivity.
Qed.

Section RequestFacts.

Variable Cos Sin : float -> float.
Variable htmlParse : string -> result Node.
Variable fuel : nat.
Variable jsonString : string -> string.
Variable gcmSeal : list Z -> list Z -> list Z -> list Z.
Variable urlWithQuery : string -> list (string * string) -> result (string * string).
Variable newRequest : string -> string -> option error.

(** X20. [GenerateXPFF] fails in one way only: the nonce could not be
    read, and the error says so. The digest that serves as key always
    has the size of an AES-256 key, so the two other errors of the source
    cannot occur, whatever the base key and the guest id. *)
Theorem GenerateXPFF_outcome (x : XPFFGenerator) (guestID userAgent : string)
  (nowMilli : Z) (rnd : result (list Z)) :
  match rnd with
  | Ok nonce =>
      GenerateXPFF jsonString gcmSeal x guestID userAgent nowMilli rnd
      = Ok (hexEncode
              (nonce ++ gcmSeal (Sha256.Sum256 (bytesOf (baseKey x ++ guestID))) nonce
                          (bytesOf (marshalPayload jsonString userAgent nowMilli))))
  | Err cause =>
      GenerateXPFF jsonString gcmSeal x guestID userAgent nowMilli rnd
      = Err (ErrWrap "failed to encrypt payload: " (ErrWrap "failed to generate nonce: " cause))
  end.
Proof.
  unfold GenerateXPFF, generateEncryptionKey, encryptAESGCM.
  rewrite (proj1 (Sum256_facts _)). cbn [Nat.eqb negb orb].
  destruct rnd; reflexivity.
Qed.

(** X21. What [NewClient] builds. The transaction generator of the
    client is always configured with [DefaultProductionConfig], also when
    another configuration is passed, which is kept as the configuration
    of the client; the client starts with no request counted and no error
    streak. When
    the generator cannot be built, the error carries the prefix "failed
    to initialize transaction generator" twice. *)
Theorem NewClient_outcome (cfg : option ProductionConfig) (env : RefreshEnv)
  (nowSeconds randomPart nowMilli : Z) :
  match NewClient Cos Sin htmlParse fuel cfg env nowSeconds randomPart nowMilli with
  | Some (Ok c) =>
      config (txnGen c) = DefaultProductionConfig
      /\ clientConfig (counters c)
         = match cfg with Some given => given | None => DefaultProductionConfig end
      /\ retryEnabled (counters c) = EnableAutoRetry (clientConfig (counters c))
      /\ errorStreak (counters c) = 0
      /\ totalRequests (counters c) = 0
      /\ initialized (txnGen c) = true
      /\ guestID c = ("v1%3A" ++ itoa nowMilli)%string
  | Some (Err err) =>
      exists cause,
        err = ErrWrap "failed to initialize transaction generator: "
                (ErrWrap "failed to initialize transaction generator: " cause)
  | None => True
  end.
Proof.
  unfold NewClient, NewTransactionGenerator.
  destruct (NewTransactionGeneratorWithConfig Cos Sin htmlParse fuel DefaultProductionConfig env)
    as [[generator | err] |] eqn:E; [| | exact I].
  - destruct (initialize_establishes_invariant _ _ _ _ _ _ _ E) as (_ & K & In).
    cbn. repeat split; assumption.
  - unfold NewTransactionGeneratorWithConfig in E.
    destruct (initialize Cos Sin htmlParse fuel env (newGenerator DefaultProductionConfig))
      as [[u | e] t |]; try discriminate E.
    injection E as <-. eexists. reflexivity.
Qed.

(** What [setHeaders] sends when it succeeds. *)
Lemma setHeaders_sent (c c' : ClientParts) (method path : string) (env : HeaderEnv)
  (header h : Header) :
  setHeaders Cos Sin htmlParse fuel jsonString gcmSeal c method path env header
  = Some (Ok h, c') ->
  Generate Cos Sin htmlParse fuel method path (generateEnv env) (txnGen c)
  = Some (Ok (headerGet "X-Client-Transaction-Id" h), txnGen c')
  /\ headerGet "Authorization" h = bearerToken.
Proof.
  unfold setHeaders. intros H.
  destruct (Generate Cos Sin htmlParse fuel method path (generateEnv env) (txnGen c))
    as [[[txnID | err] generator] |]; try discriminate H.
  injection H as <- <-. cbn [txnGen].
  split; [f_equal; f_equal; f_equal |];
    destruct (GenerateXPFF _ _ _ _ _ _ _) as [[| a x] | e];
    repeat (rewrite headerGet_set_other by reflexivity);
    rewrite headerGet_set_same; reflexivity.
Qed.

(** X22. The headers [setHeaders] writes. It fails only when the random
    byte of the transaction ID cannot be read, with that cause inside its
    error. Otherwise the headers carry the ID [Generate] returned, the
    bearer token and the user agent, and the XPFF header when one could
    be generated; when the nonce of the XPFF header cannot be read,
    [X-Xp-Forwarded-For] is left as it was and the call still succeeds. *)
Theorem setHeaders_outcome (c : ClientParts) (method path : string) (env : HeaderEnv)
  (header : Header) :
  match setHeaders Cos Sin htmlParse fuel jsonString gcmSeal c method path env header with
  | None => Generate Cos Sin htmlParse fuel method path (generateEnv env) (txnGen c) = None
  | Some (Err err, c') =>
      exists cause,
        randomByte (generateEnv env) = Err cause
        /\ err = ErrWrap "failed to generate transaction ID: "
                   (ErrWrap "failed to generate random number: " cause)
  | Some (Ok h, c') =>
      Generate Cos Sin htmlParse fuel method path (generateEnv env) (txnGen c)
      = Some (Ok (headerGet "X-Client-Transaction-Id" h), txnGen c')
      /\ headerGet "Authorization" h = bearerToken
      /\ headerGet "User-Agent" h = firefoxUserAgent
      /\ headerGet "X-Xp-Forwarded-For" h
         = match GenerateXPFF jsonString gcmSeal (xpffGen c) (guestID c) firefoxUserAgent
                   (xpffNow env) (xpffNonce env) with
           | Ok (String a x) => String a x
           | _ => headerGet "X-Xp-Forwarded-For" header
           end
  end.
Proof.
  unfold setHeaders.
  destruct (Generate Cos Sin htmlParse fuel method path (generateEnv env) (txnGen c))
    as [[[txnID | err] generator] |] eqn:G; [| | reflexivity].
  - cbn [txnGen xpffGen guestID].
    split; [| split; [| split]].
    + f_equal. f_equal. f_equal.
      destruct (GenerateXPFF _ _ _ _ _ _ _) as [[| a x] | e];
        repeat (rewrite headerGet_set_other by reflexivity);
        rewrite headerGet_set_same; reflexivity.
    + destruct (GenerateXPFF _ _ _ _ _ _ _) as [[| a x] | e];
        repeat (rewrite headerGet_set_other by reflexivity);
        rewrite headerGet_set_same; reflexivity.
    + destruct (GenerateXPFF _ _ _ _ _ _ _) as [[| a x] | e];
        repeat (rewrite headerGet_set_other by reflexivity);
        rewrite headerGet_set_same; reflexivity.
    + destruct (GenerateXPFF _ _ _ _ _ _ _) as [[| a x] | e];
        repeat (rewrite headerGet_set_other by reflexivity);
        rewrite ?headerGet_set_same; reflexivity.
  - destruct (Generate_error_only_from_rand _ _ _ _ _ _ _ _ _ _ G) as (cause & R & ->).
    exists cause. split; [exact R | reflexivity].
Qed.


(** X23. What a body returned by [request] stands for. [request] hands
    out a body only when the rate limiter let the call pass, the address
    and the request could be built, and the server answered with status
    200 and that body to a request carrying the bearer token and the
    transaction ID [Generate] returned for the method and the path. *)
Theorem request_returns_body (c c' : ClientParts) (method endpoint body : string)
  (params : list (string * string)) (env : RequestEnv) :
  request Cos Sin htmlParse fuel jsonString gcmSeal urlWithQuery newRequest
    c method endpoint params env = Some (Ok body, c') ->
  limiterWait env = None
  /\ exists path address header,
      urlWithQuery ("https://api.x.com/graphql/" ++ endpoint) params = Ok (path, address)
      /\ newRequest method address = None
      /\ roundTrip env method address header = Response 200 body
      /\ headerGet "Authorization" header = bearerToken
      /\ Generate Cos Sin htmlParse fuel method path (generateEnv (headerEnv env)) (txnGen c)
         = Some (Ok (headerGet "X-Client-Transaction-Id" header), txnGen c').
Proof.
  unfold request. intros H.
  destruct (limiterWait env) as [e |]; [discriminate H |].
  split; [reflexivity |].
  destruct (urlWithQuery _ params) as [[path address] | e] eqn:U; [| discriminate H].
  destruct (newRequest method address) as [e |] eqn:N0; [discriminate H |].
  destruct (setHeaders _ _ _ _ _ _ c method path (headerEnv env) [])
    as [[[header | e] c1] |] eqn:S; try discriminate H.
  apply setHeaders_sent in S.
  destruct (roundTrip env method address header) as [e | e | status answer] eqn:R;
    try discriminate H.
  destruct (Z.eqb_spec status 200) as [-> | N]; [| discriminate H].
  injection H as <- <-.
  destruct S as (G & A).
  exists path, address, header.
  split; [reflexivity |]. split; [exact N0 |]. split; [exact R |].
  split; [exact A | exact G].
Qed.

(** X24. A request goes through although the refresh it triggered
    failed. When the generator is stale and [Refresh] fails, [request]
    still signs - with the animation key the generator had - and returns
    the body of a 200 answer: the failure of the refresh is reported
    nowhere. *)
Theorem request_after_failed_refresh (c : ClientParts) (method endpoint body : string)
  (params : list (string * string)) (env : RequestEnv) (path address : string)
  (failure : error) (tg1 : TransactionGenerator) (r : Z) :
  let genv := generateEnv (headerEnv env) in
  limiterWait env = None ->
  urlWithQuery ("https://api.x.com/graphql/" ++ endpoint) params = Ok (path, address) ->
  newRequest method address = None ->
  IsStale (nowCheck genv) (txnGen c) = true ->
  Refresh Cos Sin htmlParse fuel (refreshEnv genv) (txnGen c) = Done (Err failure) tg1 ->
  randomByte genv = Ok r ->
  (forall header, roundTrip env method address header = Response 200 body) ->
  exists c',
    request Cos Sin htmlParse fuel jsonString gcmSeal urlWithQuery newRequest
      c method endpoint params env = Some (Ok body, c')
    /\ animationKey (txnGen c') = animationKey (txnGen c)
    /\ RefreshFailures (metrics (txnGen c'))
       = wrap64 (RefreshFailures (metrics (txnGen c)) + 1).
Proof.
  intros genv L U N St R Rnd Srv. subst genv.
  destruct (Generate_drops_refresh_error Cos Sin htmlParse fuel method path _ _ _ _ _
              St R Rnd) as (tg' & G & _ & A1 & A2).
  unfold request. rewrite L, U, N. unfold setHeaders. rewrite G.
  unfold generateUniqueTransactionID. cbv zeta.
  rewrite Srv. cbn [Z.eqb Pos.eqb].
  eexists. split; [reflexivity |]. cbn [txnGen].
  split; [congruence |].
  unfold Generate in G. unfold IsStale in St. rewrite St, R in G.
  injection G as _ <-.
  destruct (finish_material (duration (generateEnv (headerEnv env))) tg1)
    as (_ & _ & _ & _ & _ & _ & F).
  rewrite F.
  destruct (Refresh_metrics _ _ _ _ _ _ _ _ R) as (_ & _ & _ & _ & F' & _).
  exact F'.
Qed.

End RequestFacts.

(** A request of the ready client at 1h. *)
Lemma request_returns_body_witness :
  exists c',
    request (fun x => x) (fun x => x) noDocument 0 quotePlain (fun _ _ plaintext => plaintext)
      pathOfAddress (fun _ _ => None) readyClient "GET" "q/UserByScreenName" [] freshRequest
    = Some (Ok "{}"%string, c')
    /\ limiterWait freshRequest = None.
Proof.
  eexists. split; [vm_compute; reflexivity |].
  refine (proj1 (request_returns_body (fun x => x) (fun x => x) noDocument 0 quotePlain
                   (fun _ _ plaintext => plaintext) pathOfAddress (fun _ _ => None)
                   readyClient _ "GET" "q/UserByScreenName" "{}" [] freshRequest _)).
  vm_compute. reflexivity.
Defined.

(** A request of the ready client at 7h, when the page has lost its
    frames: the refresh fails, the request succeeds. *)
Lemma request_after_failed_refresh_witness :
  exists c',
    request (fun x => x) (fun x => x) parsePage 0 quotePlain (fun _ _ plaintext => plaintext)
      pathOfAddress (fun _ _ => None) readyClient "GET" "q/UserByScreenName" [] staleRequest
    = Some (Ok "{}"%string, c')
    /\ animationKey (txnGen c') = animationKey (txnGen readyClient)
    /\ RefreshFailures (metrics (txnGen c'))
       = wrap64 (RefreshFailures (metrics (txnGen readyClient)) + 1).
Proof.
  eapply (request_after_failed_refresh (fun x => x) (fun x => x) parsePage 0 quotePlain
            (fun _ _ plaintext => plaintext) pathOfAddress (fun _ _ => None)
            readyClient "GET" "q/UserByScreenName" "{}" [] staleRequest);
    vm_compute; reflexivity.
Defined.

(** ** The rows of a frame *)

Lemma allChars_app (f : ascii -> bool) (a b : string) :
  allChars f (a ++ b) = allChars f a && allChars f b.
Proof.
  induction a as [| c a IH]; [reflexivity |].
  cbn [String.append allChars]. rewrite IH, andb_assoc. reflexivity.
Qed.

Lemma replaceNonDigits_chars (s : string) :
  forall inRun, allChars digitOrBlank (Regexp.replaceNonDigits s inRun) = true.
Proof.
  induction s as [| c s IH]; intros inRun; [reflexivity |].
  cbn [Regexp.replaceNonDigits].
  destruct (isDigit c) eqn:D; [cbn [allChars]; unfold digitOrBlank at 1; rewrite D, IH; reflexivity |].
  destruct inRun; [apply IH |]. cbn [allChars]. rewrite IH. reflexivity.
Qed.

Lemma trimLeft_chars (f : ascii -> bool) (s : string) :
  allChars f s = true -> allChars f (trimLeft s) = true.
Proof.
  induction s as [| c s IH]; [reflexivity |]. cbn [trimLeft allChars]. intros H.
  destruct (isSpace c); [| exact H].
  apply andb_true_iff in H. apply IH, H.
Qed.

Lemma revString_chars (f : ascii -> bool) (s : string) :
  forall acc, allChars f s = true -> allChars f acc = true ->
              allChars f (revString s acc) = true.
Proof.
  induction s as [| c s IH]; intros acc Hs Ha; [exact Ha |].
  cbn [revString]. cbn [allChars] in Hs. apply andb_true_iff in Hs. destruct Hs as [Hc Hs].
  apply IH; [exact Hs |]. cbn [allChars]. rewrite Hc, Ha. reflexivity.
Qed.

Lemma TrimSpace_chars (f : ascii -> bool) (s : string) :
  allChars f s = true -> allChars f (TrimSpace s) = true.
Proof.
  intros H. unfold TrimSpace.
  apply revString_chars; [| reflexivity].
  apply trimLeft_chars. apply revString_chars; [| reflexivity].
  apply trimLeft_chars. exact H.
Qed.

(** A field of a string of digits and blanks is a run of digits. *)
Lemma fieldsAux_digits (s : string) :
  forall cur,
    allChars digitOrBlank s = true -> allChars isDigit cur = true ->
    Forall (fun field => field <> EmptyString /\ allChars isDigit field = true)
      (fieldsAux s cur).
Proof.
  induction s as [| c s IH]; intros cur Hs Hc; cbn [fieldsAux].
  - destruct cur; constructor; [split; [discriminate | exact Hc] | constructor].
  - cbn [allChars] in Hs. apply andb_true_iff in Hs. destruct Hs as [Hd Hs].
    destruct (isSpace c) eqn:Sp.
    + destruct cur as [| x cur].
      * apply IH; [exact Hs | reflexivity].
      * constructor; [split; [discriminate | exact Hc] |].
        apply IH; [exact Hs | reflexivity].
    + apply IH; [exact Hs |]. rewrite allChars_app, Hc. cbn [allChars].
      unfold digitOrBlank in Hd. apply orb_true_iff in Hd. destruct Hd as [Hd | Hd].
      * rewrite Hd. reflexivity.
      * apply Ascii.eqb_eq in Hd. subst c. discriminate Sp.
Qed.

Lemma atoiDigits_lower (s : string) :
  forall acc v, atoiDigits s acc = Some v -> 0 <= acc -> acc <= v.
Proof.
  induction s as [| c s IH]; intros acc v H Ha; cbn [atoiDigits] in H.
  - injection H as <-. lia.
  - destruct ((48 <=? byteOfAscii c) && (byteOfAscii c <=? 57)) eqn:D; [| discriminate H].
    apply andb_true_iff in D. rewrite !Z.leb_le in D.
    apply IH in H; lia.
Qed.

Lemma atoi_digits_range (field : string) (num : Z) :
  field <> EmptyString -> allChars isDigit field = true ->
  atoi field = Some num -> 0 <= num < 2 ^ 63.
Proof.
  intros Hne Hd H. destruct field as [| d t]; [congruence |].
  cbn [allChars] in Hd. apply andb_true_iff in Hd. destruct Hd as [Hd _].
  rewrite (atoi_unsigned _ _ Hd) in H.
  destruct (atoiDigits (String d t) 0) as [v |] eqn:E; [| discriminate H].
  destruct ((- 2 ^ 63 <=? v) && (v <? 2 ^ 63)) eqn:R; [| discriminate H].
  injection H as <-. apply andb_true_iff in R. rewrite Z.ltb_lt in R.
  apply atoiDigits_lower in E; lia.
Qed.

Lemma parseRow_range (fields : list string) :
  Forall (fun field => field <> EmptyString /\ allChars isDigit field = true) fields ->
  Forall (fun num => 0 <= num < 2 ^ 63) (parseRow fields).
Proof.
  induction 1 as [| field fields [Hne Hd] _ IH]; cbn [parseRow]; [constructor |].
  destruct (atoi field) as [num |] eqn:E; [| exact IH].
  constructor; [exact (atoi_digits_range _ _ Hne Hd E) | exact IH].
Qed.

Lemma parseRows_range (curveParts : list string) :
  Forall (fun row => row <> [] /\ Forall (fun num => 0 <= num < 2 ^ 63) row)
    (parseRows curveParts).
Proof.
  induction curveParts as [| part rest IH]; cbn [parseRows]; [constructor |].
  destruct (TrimSpace part); [exact IH |].
  destruct (TrimSpace (Regexp.replaceNonDigits part false)) as [| c cleaned] eqn:E;
    [exact IH |].
  assert (R : Forall (fun num => 0 <= num < 2 ^ 63) (parseRow (Fields (String c cleaned)))).
  { apply parseRow_range. unfold Fields. apply fieldsAux_digits; [| reflexivity].
    rewrite <- E. apply TrimSpace_chars, replaceNonDigits_chars. }
  destruct (parseRow (Fields (String c cleaned))) as [| n row]; [exact IH |].
  constructor; [split; [discriminate | exact R] | exact IH].
Qed.

(** X25. The rows of a frame. When [extractAnimationFrames] succeeds
    there are more than five key bytes, there is at least one row, no row
    is empty, and every number of every row is a non-negative int: the
    numbers are runs of digits of the path data, and a run too long for
    an int is dropped. *)
Theorem extractAnimationFrames_rows (tg : TransactionGenerator) (rows : list (list Z)) :
  extractAnimationFrames tg = Ok rows ->
  (5 < List.length (keyBytes tg))%nat
  /\ rows <> []
  /\ Forall (fun row => row <> [] /\ Forall (fun num => 0 <= num < 2 ^ 63) row) rows.
Proof.
  unfold extractAnimationFrames. intros H.
  destruct (List.length (keyBytes tg) <=? 5)%nat eqn:L; [discriminate H |].
  apply Nat.leb_gt in L. split; [exact L |].
  destruct (List.length _ <? 2)%nat; [discriminate H |].
  destruct (selectPath _) as [| c path]; [discriminate H |].
  pose proof (parseRows_range (splitOn "C" (dropString 9 (String c path)))) as R.
  destruct (parseRows _) as [| row more]; [discriminate H |].
  injection H as <-. split; [discriminate | exact R].
Qed.

(** The frame of the first page: one row of eleven numbers. *)
Lemma extractAnimationFrames_rows_witness :
  extractAnimationFrames readyGenerator
  = Ok [[10; 20; 30; 40; 50; 60; 128; 64; 64; 128; 128]]
  /\ (5 < List.length (keyBytes readyGenerator))%nat.
Proof.
  assert (H : extractAnimationFrames readyGenerator
              = Ok [[10; 20; 30; 40; 50; 60; 128; 64; 64; 128; 128]])
    by (vm_compute; reflexivity).
  split; [exact H |].
  exact (proj1 (extractAnimationFrames_rows readyGenerator _ H)).
Defined.

(** ** The animation key *)

Section AnimateFacts.

Variable Cos Sin : float -> float.

(** X26. [interpolate] follows the positions of [from]: with a [to] at
    least as long it returns one value for each, the interpolation
    clamped to [[0, 255]]; with a shorter [to] the source indexes out of
    range, and the embedding has no result. *)
Theorem interpolate_positions (from to : list float) (t : float) :
  ((List.length from <= List.length to)%nat ->
   exists l,
     interpolate from to t = Some l
     /\ List.length l = List.length from
     /\ forall i, (i < List.length from)%nat ->
                  nth i l 0%float
                  = clamp255 (nth i from 0 + (nth i to 0 - nth i from 0) * t)%float)
  /\ ((List.length to < List.length from)%nat -> interpolate from to t = None).
Proof.
  revert to. induction from as [| f from IH]; intros to.
  - split; [| cbn; lia]. intros _. exists []. cbn. repeat split. intros i Hi. lia.
  - destruct to as [| g to]; cbn [interpolate List.length].
    + split; [lia | reflexivity].
    + destruct (IH to) as [IH1 IH2]. split.
      * intros L. destruct (IH1 ltac:(lia)) as (l & E & Len & Nth).
        rewrite E. eexists. split; [reflexivity |]. split; [cbn; lia |].
        intros [| i] Hi; [reflexivity |]. cbn [nth]. apply Nth. lia.
      * intros L. rewrite IH2 by lia. reflexivity.
Qed.

(** X27. [animate] is defined whenever the curve is: the padded row has
    at least fifteen numbers, so there are at least eight curve values
    and the colours and the rotation are interpolated between lists of
    the same length. The only run of [animate] without a result is one
    that stays in the bisection of [evaluateCubicBezier]; outside the
    open interval from 0 to 1 there is always a key. *)
Theorem animate_defined (fuel : nat) (frameRow : list Z) (targetTime : float) :
  let curveValues := curveValuesFrom 0 (skipn 7 (padRow frameRow)) in
  (8 <= List.length curveValues)%nat
  /\ (animate Cos Sin fuel frameRow targetTime = None
      <-> evaluateCubicBezier fuel curveValues targetTime = None)
  /\ ((targetTime <=? 0)%float = true \/ (1 <=? targetTime)%float = true ->
      animate Cos Sin fuel frameRow targetTime <> None).
Proof.
  intros curveValues.
  assert (Lc : forall vals i, List.length (curveValuesFrom i vals) = List.length vals).
  { induction vals as [| v vals IHv]; intros i; cbn; [reflexivity | rewrite IHv; reflexivity]. }
  assert (L8 : (8 <= List.length curveValues)%nat).
  { subst curveValues. rewrite Lc, length_skipn. unfold padRow.
    rewrite length_app, repeat_length. lia. }
  assert (Iff : animate Cos Sin fuel frameRow targetTime = None
                <-> evaluateCubicBezier fuel curveValues targetTime = None).
  { unfold animate. fold curveValues.
    destruct (evaluateCubicBezier fuel curveValues targetTime) as [val |];
      [| split; reflexivity].
    unfold rotationAt, fromRotation, toRotation. cbn [interpolate].
    split; discriminate. }
  split; [exact L8 |]. split; [exact Iff |].
  intros Ht Hnone. apply Iff in Hnone.
  destruct curveValues as [| c0 [| c1 [| c2 [| c3 rest]]]];
    try (cbn [List.length] in L8; lia).
  cbn [evaluateCubicBezier] in Hnone.
  destruct (targetTime <=? 0)%float; [discriminate Hnone |].
  destruct (1 <=? targetTime)%float; [discriminate Hnone |].
  destruct Ht; discriminate.
Qed.

Lemma containsChar_filter (c : ascii) (f : ascii -> bool) (s : string) :
  containsChar c s = false -> containsChar c (filterString f s) = false.
Proof.
  induction s as [| d s IH]; [reflexivity |]. cbn [containsChar filterString].
  intros H. apply orb_false_iff in H. destruct H as [H1 H2].
  destruct (f d); [cbn [containsChar]; rewrite H1 |]; auto.
Qed.

Lemma removeChar_absent (c : ascii) (s : string) : containsChar c (removeChar c s) = false.
Proof.
  unfold removeChar. induction s as [| d s IH]; [reflexivity |]. cbn [filterString].
  destruct (Ascii.eqb c d) eqn:E; cbn [negb]; [exact IH |].
  cbn [containsChar]. rewrite E. exact IH.
Qed.

(** Lower-casing gives no upper-case letter, and no new '.' or '-'. *)
Lemma toLowerAscii_facts (c : ascii) :
  isUpper (toLowerAscii c) = false
  /\ (Ascii.eqb "." (toLowerAscii c) = Ascii.eqb "." c)
  /\ (Ascii.eqb "-" (toLowerAscii c) = Ascii.eqb "-" c).
Proof.
  destruct c as [b0 b1 b2 b3 b4 b5 b6 b7].
  destruct b0, b1, b2, b3, b4, b5, b6, b7; vm_compute; repeat split.
Qed.

Lemma ToLower_facts (s : string) :
  allChars (fun c => negb (isUpper c)) (ToLower s) = true
  /\ containsChar "." (ToLower s) = containsChar "." s
  /\ containsChar "-" (ToLower s) = containsChar "-" s.
Proof.
  unfold ToLower. induction s as [| c s (A & B & C)]; [repeat split |].
  cbn [mapString allChars containsChar].
  destruct (toLowerAscii_facts c) as (U & D & M).
  rewrite U, D, M, A, B, C. repeat split.
Qed.

(** X28. The alphabet of the animation key. Whatever the frame row and
    the time, a key [animate] returns holds no '.', no '-' and no
    upper-case letter: the dots and signs of the hexadecimal tokens are
    removed and the digits A to F come out in lower case. *)
Theorem animate_key_alphabet (fuel : nat) (frameRow : list Z) (targetTime : float)
  (k : string) :
  animate Cos Sin fuel frameRow targetTime = Some k ->
  containsChar "." k = false
  /\ containsChar "-" k = false
  /\ allChars (fun c => negb (isUpper c)) k = true.
Proof.
  unfold animate. intros H.
  destruct (evaluateCubicBezier _ _ _) as [val |]; [| discriminate H].
  destruct (interpolate _ _ val) as [color |]; [| discriminate H].
  destruct (rotationAt frameRow val) as [rotation |]; [| discriminate H].
  injection H as <-.
  match goal with
  | |- context [ToLower ?s] => destruct (ToLower_facts s) as (A & B & C)
  end.
  rewrite B, C. split; [| split; [| exact A]].
  - apply containsChar_filter. apply removeChar_absent.
  - apply removeChar_absent.
Qed.

End AnimateFacts.

(** The row of the first page, half way through the animation. *)
Lemma animate_key_alphabet_witness :
  exists k,
    animate (fun _ => 1%float) (fun _ => 0%float) 100
      [10; 20; 30; 40; 50; 60; 128; 64; 64; 128; 128] 0.5%float = Some k
    /\ containsChar "." k = false
    /\ containsChar "-" k = false
    /\ allChars (fun c => negb (isUpper c)) k = true.
Proof.
  eexists. split; [vm_compute; reflexivity |].
  apply (animate_key_alphabet (fun _ => 1%float) (fun _ => 0%float) 100
           [10; 20; 30; 40; 50; 60; 128; 64; 64; 128; 128] 0.5%float).
  vm_compute. reflexivity.
Defined.

(** ** The average generation time *)

Section AverageFacts.

Variable Cos Sin : float -> float.
Variable htmlParse : string -> result Node.
Variable fuel : nat.

(** A [Refresh] leaves the average alone. *)
Lemma Refresh_average (env : RefreshEnv) (tg tg' : TransactionGenerator) (r : result unit) :
  Refresh Cos Sin htmlParse fuel env tg = Done r tg' ->
  AverageGenTime (metrics tg') = AverageGenTime (metrics tg).
Proof.
  intros H. unfold Refresh, updateCachesWithFreshData, countFailure in H.
  destruct (fetchTwitterData (net env) _) as [r1 t1] eqn:E1.
  assert (M : AverageGenTime (metrics t1) = AverageGenTime (metrics tg)).
  { unfold fetchTwitterData in E1.
    repeat step_in E1; injection E1 as <- <-; reflexivity. }
  destruct r1 as [u1 | e1]; [| injection H as <- <-; exact M].
  destruct (extractAlgorithmData Cos Sin htmlParse fuel t1) as [r2 t2 |] eqn:E2;
    [| discriminate H].
  destruct (extractAlgorithmData_metrics _ _ _ _ _ _ _ E2) as [M2 _].
  destruct r2 as [u2 | e2]; injection H as <- <-; simpl; rewrite M2; exact M.
Qed.

(** X29. The average generation time forgets its history at the second
    generation. [Generate] updates the average before it counts the
    generation, so on a generator that has not generated yet the first
    call blends its duration into the average it finds (a tenth of it),
    and the second call - the one that sees a count of 1 - replaces the
    average by its own duration in milliseconds. *)
Theorem second_generation_resets_average (method1 path1 method2 path2 : string)
  (env1 env2 : GenerateEnv) (tg tg1 tg2 : TransactionGenerator) (r1 r2 : result string) :
  TotalGenerations (metrics tg) = 0 ->
  Generate Cos Sin htmlParse fuel method1 path1 env1 tg = Some (r1, tg1) ->
  Generate Cos Sin htmlParse fuel method2 path2 env2 tg1 = Some (r2, tg2) ->
  AverageGenTime (metrics tg1)
  = ((1 - 0x1.999999999999ap-4) * AverageGenTime (metrics tg)
     + 0x1.999999999999ap-4 * (GoMath.float64_of_Z (duration env1) / 1e6))%float
  /\ AverageGenTime (metrics tg2) = (GoMath.float64_of_Z (duration env2) / 1e6)%float
  /\ TotalGenerations (metrics tg2) = 2.
Proof.
  intros Z0 G1 G2.
  assert (Step : forall method path env t t' r,
             Generate Cos Sin htmlParse fuel method path env t = Some (r, t') ->
             exists t0,
               t' = incrementTotalGenerations (updateGenerationTime (duration env) t0)
               /\ TotalGenerations (metrics t0) = TotalGenerations (metrics t)
               /\ AverageGenTime (metrics t0) = AverageGenTime (metrics t)).
  { intros method path env t t' r G. unfold Generate in G.
    destruct (needsRefresh (nowCheck env) t).
    - destruct (Refresh Cos Sin htmlParse fuel (refreshEnv env) t) as [r0 t0 |] eqn:R;
        [| discriminate G].
      injection G as _ <-. exists t0. split; [reflexivity |].
      split; [| exact (Refresh_average _ _ _ _ R)].
      exact (proj1 (Refresh_metrics _ _ _ _ _ _ _ _ R)).
    - injection G as _ <-. exists t. repeat split. }
  destruct (Step _ _ _ _ _ _ G1) as (a & -> & Ta & Aa).
  destruct (Step _ _ _ _ _ _ G2) as (b & -> & Tb & Ab).
  assert (Avg : forall d t,
             AverageGenTime (metrics (incrementTotalGenerations (updateGenerationTime d t)))
             = if TotalGenerations (metrics t) =? 1
               then (GoMath.float64_of_Z d / 1e6)%float
               else ((1 - 0x1.999999999999ap-4) * AverageGenTime (metrics t)
                     + 0x1.999999999999ap-4 * (GoMath.float64_of_Z d / 1e6))%float).
  { intros d t. unfold incrementTotalGenerations, updateGenerationTime.
    destruct (TotalGenerations (metrics t) =? 1); reflexivity. }
  assert (Cnt : forall d t,
             TotalGenerations (metrics (incrementTotalGenerations (updateGenerationTime d t)))
             = wrap64 (TotalGenerations (metrics t) + 1)).
  { intros d t. exact (proj1 (proj2 (finish_material d t))). }
  rewrite !Avg, !Cnt, Tb, Cnt, Ta, Z0, Aa.
  repeat split.
Qed.

End AverageFacts.

(** Two generations of a generator that counts none yet. *)
Lemma second_generation_resets_average_witness :
  exists r1 tg1 r2 tg2,
    TotalGenerations (metrics readyGenerator) = 0
    /\ Generate (fun x => x) (fun x => x) noDocument 0 "GET" "/graphql"
         (mkGenerateEnv Hour offlineEnv ((TwitterEpoch + 3600) * Second) (Ok 90) 4000000)
         readyGenerator = Some (r1, tg1)
    /\ Generate (fun x => x) (fun x => x) noDocument 0 "GET" "/graphql"
         (mkGenerateEnv Hour offlineEnv ((TwitterEpoch + 3601) * Second) (Ok 91) 2000000)
         tg1 = Some (r2, tg2)
    /\ AverageGenTime (metrics tg2) = 2%float.
Proof.
  eexists. eexists. eexists. eexists.
  split; [reflexivity |]. split; [vm_compute; reflexivity |].
  split; [vm_compute; reflexivity |].
  refine (eq_trans
            (proj1 (proj2 (second_generation_resets_average (fun x => x) (fun x => x)
                             noDocument 0 "GET" "/graphql" "GET" "/graphql"
                             (mkGenerateEnv Hour offlineEnv ((TwitterEpoch + 3600) * Second)
                                (Ok 90) 4000000)
                             (mkGenerateEnv Hour offlineEnv ((TwitterEpoch + 3601) * Second)
                                (Ok 91) 2000000)
                             readyGenerator _ _ _ _ eq_refl _ _))) _).
  - vm_compute. reflexivity.
  - vm_compute. reflexivity.
  - vm_compute. reflexivity.
Defined.

(** ** The verification key in the page *)

Lemma Node_children_ind (P : Node -> Prop) :
  (forall type data attr children,
      Forall P children -> P (mkNode type data attr children)) ->
  forall n, P n.
Proof.
  intros H. fix IH 1. intros [type data attr children]. apply H.
  induction children as [| c cs IHc]; constructor; [apply IH | exact IHc].
Qed.

(** X30. Where the verification key comes from. A non-empty result of
    [findTwitterSiteVerification] is the content of a [meta] element of
    the tree whose name is [twitter-site-verification] (for the name and
    for the content, the last attribute of that key counts); so on a tree
    without such an element carrying a non-empty content the result is
    empty. *)
Theorem findTwitterSiteVerification_sound (n : Node) (c : ascii) (k : string) :
  findTwitterSiteVerification n = String c k ->
  exists m, inTree m n /\ verificationTag m (String c k).
Proof.
  revert c k. induction n as [type data attr children IH] using Node_children_ind.
  intros c k H. cbn [findTwitterSiteVerification] in H.
  assert (Below :
            (fix firstChild (cs : list Node) : string :=
               match cs with
               | [] => EmptyString
               | c0 :: cs' =>
                   match findTwitterSiteVerification c0 with
                   | EmptyString => firstChild cs'
                   | String a s => String a s
                   end
               end) children = String c k ->
            exists m, inTree m (mkNode type data attr children)
                      /\ verificationTag m (String c k)).
  { clear H. intros H.
    assert (Child : exists ch m,
               In ch children /\ inTree m ch /\ verificationTag m (String c k)).
    { induction IH as [| c0 cs P0 _ IHcs]; [discriminate H |].
      destruct (findTwitterSiteVerification c0) as [| a s] eqn:E.
      - destruct (IHcs H) as (ch & m & I & T & V).
        exists ch, m. split; [right; exact I | split; assumption].
      - injection H as <- <-. destruct (P0 a s eq_refl) as (m & T & V).
        exists c0, m. split; [left; reflexivity | split; assumption]. }
    destruct Child as (ch & m & I & T & V).
    exists m. split; [exact (inTree_below m _ _ _ _ ch I T) | exact V]. }
  destruct type; try exact (Below H).
  destruct (String.eqb data "meta") eqn:D; [| exact (Below H)].
  destruct (scanAttrs attr EmptyString EmptyString) as [name content] eqn:S.
  destruct (String.eqb name "twitter-site-verification") eqn:N; [| exact (Below H)].
  subst content. apply String.eqb_eq in D, N. subst data name.
  exists (mkNode ElementNode "meta" attr children).
  split; [constructor | split; [reflexivity | exact S]].
Qed.

(** The key of the first page. *)
Lemma findTwitterSiteVerification_sound_witness :
  findTwitterSiteVerification firstTree = "BxAJCgsM"%string
  /\ exists m, inTree m firstTree /\ verificationTag m "BxAJCgsM".
Proof.
  split; [reflexivity |].
  exact (findTwitterSiteVerification_sound firstTree "B" "xAJCgsM" eq_refl).
Defined.
